(** * express-decorator: the route binder of [applyExpressDecorator]

    A shallow embedding of [packages/express-decorator/src/index.ts].
    The binder reads JavaScript objects (controllers, their prototypes,
    middleware, metadata records) and writes to the Express application.
    Objects live in a store indexed by identity; the application is the
    log of the [app.use] calls made on it. *)

From Stdlib Require Import ZArith.
From stdpp Require Import gmap strings list fin_maps.

Open Scope string_scope.
Open Scope list_scope.

(** ** Values and objects *)

Definition loc := positive.

(** Primitives are kept by value, every object (plain object, array,
    function, class) by reference. Numbers are integers: no claim depends on
    floating point. *)
Inductive value :=
| VUndefined
| VNull
| VBoolean (b : bool)
| VNumber (n : Z)
| VString (s : string)
| VRef (l : loc).

#[global] Instance value_eq_dec : EqDecision value.
Proof. solve_decision. Defined.

(** A property is a data property or an accessor. A getter is taken to
    be pure: [DAccessor g] yields [g] when the property is read, and has no
    [value] field in its descriptor. *)
Inductive descriptor :=
| DData (v : value)
| DAccessor (g : value).

Inductive obj_kind :=
| KObject
| KFunction
| KArray (elems : list value).

(** [o_props] lists the own named properties in [OwnPropertyKeys] order, which
    for the string-named members of a class body is declaration order. The
    elements of an array are kept in its kind. *)
Record obj := {
  o_kind : obj_kind;
  o_proto : option loc;
  o_props : list (string * descriptor)
}.

(** The store: the heap, the table kept by reflect-metadata (target,
    property key, metadata key), and the identity of [Middleware.prototype],
    which [instanceof Middleware] compares against. *)
Record store := {
  st_heap : gmap loc obj;
  st_meta : gmap (loc * option string * string) value;
  st_Middleware : loc
}.

Inductive jstype :=
| TUndefined | TObject | TBoolean | TNumber | TString | TFunction.

#[global] Instance jstype_eq_dec : EqDecision jstype.
Proof. solve_decision. Defined.

Definition kind_of (s : store) (l : loc) : obj_kind :=
  match st_heap s !! l with
  | Some o => o_kind o
  | None => KObject
  end.

(** [typeof v]; note [typeof null === 'object']. *)
Definition typeof (s : store) (v : value) : jstype :=
  match v with
  | VUndefined => TUndefined
  | VNull => TObject
  | VBoolean _ => TBoolean
  | VNumber _ => TNumber
  | VString _ => TString
  | VRef l => match kind_of s l with KFunction => TFunction | _ => TObject end
  end.

Definition truthy (v : value) : bool :=
  match v with
  | VUndefined | VNull => false
  | VBoolean b => b
  | VNumber n => negb (n =? 0)%Z
  | VString s => negb (String.eqb s "")
  | VRef _ => true
  end.

(** [a === b] *)
Definition strict_equal (a b : value) : bool := bool_decide (a = b).

(** The prototype chain of [l], starting with [l] itself. The engine keeps
    chains acyclic, so a chain visits each object of the heap at most once;
    only its last link can lie outside the heap. *)
Fixpoint chain_from (h : gmap loc obj) (fuel : nat) (l : loc) : list loc :=
  match fuel with
  | O => []
  | S n =>
      l :: match h !! l with
           | Some {| o_proto := Some p |} => chain_from h n p
           | _ => []
           end
  end.

Definition proto_chain (s : store) (l : loc) : list loc :=
  chain_from (st_heap s) (S (size (st_heap s))) l.

Fixpoint assoc {A} (name : string) (l : list (string * A)) : option A :=
  match l with
  | [] => None
  | (k, a) :: l' => if String.eqb k name then Some a else assoc name l'
  end.

(** [Object.getOwnPropertyDescriptor(o, name)] on an object. *)
Definition getOwnPropertyDescriptor (s : store) (l : loc) (name : string)
  : option descriptor :=
  match st_heap s !! l with
  | Some o => assoc name (o_props o)
  | None => None
  end.

Definition descriptor_read (d : descriptor) : value :=
  match d with DData v => v | DAccessor g => g end.

(** [descriptor.value] *)
Definition descriptor_value (d : descriptor) : value :=
  match d with DData v => v | DAccessor _ => VUndefined end.

(** [v.name] for an object: the first hit along the prototype chain. For a
    primitive the member would be found on its wrapper prototype, which is
    not part of the store: the binder only tests such a result for
    callability or identity with a function, and [VUndefined] answers both
    as the wrapper's members do. Reading a member of [null] or [undefined]
    raises instead; see [member]. *)
Definition prop (s : store) (v : value) (name : string) : value :=
  match v with
  | VRef l =>
      match head (omap (fun l' => getOwnPropertyDescriptor s l' name)
                       (proto_chain s l)) with
      | Some d => descriptor_read d
      | None => VUndefined
      end
  | _ => VUndefined
  end.

(** [v instanceof C] where [C.prototype] is the object at [p]. *)
Definition instanceof (s : store) (v : value) (p : loc) : bool :=
  match v with
  | VRef l => bool_decide (p ∈ tail (proto_chain s l))
  | _ => false
  end.

(** [Array.isArray(v)], returning the elements. *)
Definition as_array (s : store) (v : value) : option (list value) :=
  match v with
  | VRef l => match kind_of s l with KArray elems => Some elems | _ => None end
  | _ => None
  end.

(** ** The source's type guards *)

(** [isConstructor] (index.ts, lines 4-6). *)
Definition isConstructor (s : store) (o : value) : bool :=
  bool_decide (typeof s o = TFunction)
  && truthy (prop s o "prototype")
  && strict_equal (prop s (prop s o "prototype") "constructor") o.

(** The test both metadata guards run on each middleware reference. *)
Definition middleware_shaped (s : store) (middleware : value) : bool :=
  bool_decide (typeof s middleware = TFunction)
  || instanceof s middleware (st_Middleware s).

Record ControllerMetadata := {
  cm_path : string;
  cm_middlewares : list value
}.

Record HandlerMetadata := {
  hm_method : string;
  hm_path : string;
  hm_middlewares : list value
}.

Definition is_plain_object (s : store) (o : value) : bool :=
  bool_decide (typeof s o = TObject) && negb (bool_decide (o = VNull)).

(** [isControllerMetadata] (lines 20-30), returning the record the guard
    narrows to. *)
Definition asControllerMetadata (s : store) (o : value)
  : option ControllerMetadata :=
  if negb (is_plain_object s o) then None
  else
    match prop s o "path", as_array s (prop s o "middlewares") with
    | VString path, Some middlewares =>
        if forallb (middleware_shaped s) middlewares
        then Some {| cm_path := path; cm_middlewares := middlewares |}
        else None
    | _, _ => None
    end.

Definition isControllerMetadata (s : store) (o : value) : bool :=
  bool_decide (is_Some (asControllerMetadata s o)).

(** [isHandlerMetadata] (lines 50-61). The guard asks of [method] only
    that it is a string. *)
Definition asHandlerMetadata (s : store) (o : value)
  : option HandlerMetadata :=
  if negb (is_plain_object s o) then None
  else
    match prop s o "method", prop s o "path",
          as_array s (prop s o "middlewares") with
    | VString method, VString path, Some middlewares =>
        if forallb (middleware_shaped s) middlewares
        then Some {| hm_method := method; hm_path := path;
                     hm_middlewares := middlewares |}
        else None
    | _, _, _ => None
    end.

Definition isHandlerMetadata (s : store) (o : value) : bool :=
  bool_decide (is_Some (asHandlerMetadata s o)).

(** ** Errors, outcomes and the binder's monad *)

(** The three [Error]s the source constructs about a missing container, its
    two metadata errors, the [TypeError] the engine raises on a bad member
    access or call, and errors raised by the container. *)
Inductive error :=
| ControllerNeedsContainer
| MiddlewareNeedsContainer
| ErrorMiddlewareNeedsContainer
| InvalidControllerMetadata (index : nat)
| InvalidMethodMetadata (name : string) (index : nat)
| TypeError
| External (message : string)
| RouterMemberNotModelled (name : string).

#[global] Instance error_eq_dec : EqDecision error.
Proof. solve_decision. Defined.

(** The specification's two error kinds. *)
Inductive error_kind := MissingMetadata | MissingResolver | OtherError.

Definition kind_of_error (e : error) : error_kind :=
  match e with
  | ControllerNeedsContainer | MiddlewareNeedsContainer
  | ErrorMiddlewareNeedsContainer => MissingResolver
  | InvalidControllerMetadata _ | InvalidMethodMetadata _ _ => MissingMetadata
  | _ => OtherError
  end.

Inductive outcome (A : Type) :=
| Ok (a : A)
| Throw (e : error).
Arguments Ok {A} a.
Arguments Throw {A} e.

(** A handler as Express receives it: a function passed on as it is, or
    [f.bind(this)]. *)
Inductive handler :=
| HFunction (f : value)
| HBound (f : value) (this : value).

Inductive HandlerMethod := HMget | HMpost | HMput | HMdelete | HMpatch.

Definition HandlerMethod_of_string (m : string) : option HandlerMethod :=
  if String.eqb m "get" then Some HMget
  else if String.eqb m "post" then Some HMpost
  else if String.eqb m "put" then Some HMput
  else if String.eqb m "delete" then Some HMdelete
  else if String.eqb m "patch" then Some HMpatch
  else None.

(** One call [router[method](path, ...handlers)]. *)
Record route := {
  r_method : HandlerMethod;
  r_path : string;
  r_handlers : list handler
}.

(** A router is the list of routes registered on it, oldest first. *)
Definition router := list route.

(** One call of [app.use]. *)
Inductive app_entry :=
| Mount (path : string) (handlers : list handler) (r : router)
| UseHandlers (handlers : list handler)
| UseErrorHandler (h : handler).

(** What a run can touch: the store and the application. *)
Record world := {
  w_store : store;
  w_app : list app_entry
}.

(** State and exceptions: a computation that throws keeps the world it
    had reached. *)
Definition M (A : Type) : Type := world -> outcome A * world.

Definition ret {A} (a : A) : M A := fun w => (Ok a, w).
Definition throw {A} (e : error) : M A := fun w => (Throw e, w).
Definition bind {A B} (m : M A) (k : A -> M B) : M B :=
  fun w => match m w with
           | (Ok a, w') => k a w'
           | (Throw e, w') => (Throw e, w')
           end.
Definition reads {A} (f : store -> A) : M A := fun w => (Ok (f (w_store w)), w).
Definition lift {A} (o : outcome A) : M A := fun w => (o, w).

Notation "'let!' x ':=' m 'in' k" := (bind m (fun x => k))
  (at level 10, x name, m at level 100, k at level 200).

Fixpoint mapM {A B} (f : A -> M B) (l : list A) : M (list B) :=
  match l with
  | [] => ret []
  | a :: l' => let! b := f a in let! bs := mapM f l' in ret (b :: bs)
  end.

Fixpoint foldM {A B} (f : B -> A -> M B) (l : list A) (b : B) : M B :=
  match l with
  | [] => ret b
  | a :: l' => let! b' := f b a in foldM f l' b'
  end.

(** [app.use(...)] *)
Definition app_use (e : app_entry) : M unit :=
  fun w => (Ok tt, {| w_store := w_store w; w_app := w_app w ++ [e] |}).

(** ** Engine and library operations the binder calls *)

(** [v.name], which raises on [null] and [undefined]. *)
Definition member (v : value) (name : string) : M value :=
  match v with
  | VUndefined | VNull => throw TypeError
  | _ => reads (fun s => prop s v name)
  end.

(** [f.bind(this)]: [f] must be a function, otherwise [f.bind] is not
    callable. *)
Definition bind_this (f this : value) : M handler :=
  let! t := reads (fun s => typeof s f) in
  match t with
  | TFunction => ret (HBound f this)
  | _ => throw TypeError
  end.

(** [Reflect.getMetadata(key, target, propertyKey?)]: own metadata first,
    then up the prototype chain; a target that is not an object raises. *)
Definition metadata_of (s : store) (key : string) (l : loc)
    (property : option string) : value :=
  default VUndefined
    (head (omap (fun l' => st_meta s !! (l', property, key))
                (proto_chain s l))).

Definition getMetadata (key : string) (target : value) (property : option string)
  : M value :=
  match target with
  | VRef l => reads (fun s => metadata_of s key l property)
  | _ => throw TypeError
  end.

Definition prototype_of (s : store) (l : loc) : value :=
  match st_heap s !! l with
  | Some {| o_proto := Some p |} => VRef p
  | _ => VNull
  end.

Definition own_names (s : store) (l : loc) : list string :=
  match st_heap s !! l with
  | Some ob => (o_props ob).*1
  | None => []
  end.

(** [Object.getPrototypeOf(o)]. The binder calls it on what
    [Reflect.getMetadata] has accepted as a target, an object; the prototype
    of a primitive's wrapper is not part of the store. *)
Definition getPrototypeOf (o : value) : M value :=
  match o with
  | VRef l => reads (fun s => prototype_of s l)
  | VUndefined | VNull => throw TypeError
  | _ => ret VUndefined
  end.

(** [Object.getOwnPropertyNames(o)] *)
Definition getOwnPropertyNames (o : value) : M (list string) :=
  match o with
  | VRef l => reads (fun s => own_names s l)
  | VUndefined | VNull => throw TypeError
  | _ => ret []
  end.

(** [Object.getOwnPropertyDescriptor(o, name)] *)
Definition getOwnPropertyDescriptorM (o : value) (name : string)
  : M (option descriptor) :=
  match o with
  | VRef l => reads (fun s => getOwnPropertyDescriptor s l name)
  | VUndefined | VNull => throw TypeError
  | _ => ret None
  end.

(** The [Container] interface: [get] may fail, the way a container does on
    a class it does not know. It is an external collaborator; here it
    answers a given class reference the same way each time and does not
    write to the store. *)
Record Container := {
  Container_get : value -> outcome value
}.

(** [router[method](path, ...handlers)]. For the five names of
    [HandlerMethod] this registers a route. The guard lets any other string
    through; what the router's other members do is Express's business, and
    such a run ends in [RouterMemberNotModelled]. *)
Definition router_call (r : router) (method path : string)
    (handlers : list handler) : M router :=
  match HandlerMethod_of_string method with
  | Some m =>
      ret (r ++ [{| r_method := m; r_path := path; r_handlers := handlers |}])
  | None => throw (RouterMemberNotModelled method)
  end.

(** ** applyExpressDecorator *)

Section applyExpressDecorator.

Variable container : option Container.

(** The function mapped over the list in [transformMiddlewares]
    (lines 98-110). *)
Definition transformMiddleware (middleware : value) : M handler :=
  let! c := reads (fun s => isConstructor s middleware) in
  if c then
    match container with
    | None => throw MiddlewareNeedsContainer
    | Some ct =>
        let! middlewareInstance := lift (Container_get ct middleware) in
        let! handle := member middlewareInstance "handle" in
        bind_this handle middlewareInstance
    end
  else
    let! t := reads (fun s => typeof s middleware) in
    match t with
    | TFunction => ret (HFunction middleware)
    | _ =>
        let! handle := member middleware "handle" in
        bind_this handle middleware
    end.

Definition transformMiddlewares (middlewares : list value) : M (list handler) :=
  mapM transformMiddleware middlewares.

(** The body of the loop over the prototype's property names
    (lines 137-155); the router under construction is passed along. The
    arguments of the router call are evaluated before the call itself. *)
Definition bindProperty (index : nat) (controllerInstance controllerPrototype : value)
    (r : router) (controllerPropertyName : string) : M router :=
  if String.eqb controllerPropertyName "constructor" then ret r
  else
    let! descriptor :=
      getOwnPropertyDescriptorM controllerPrototype controllerPropertyName in
    match descriptor with
    | None => ret r
    | Some d =>
        let! t := reads (fun s => typeof s (descriptor_value d)) in
        match t with
        | TFunction =>
            let! handlerMetadata :=
              getMetadata "malmajs:handler" controllerInstance
                          (Some controllerPropertyName) in
            let! guard := reads (fun s => asHandlerMetadata s handlerMetadata) in
            match guard with
            | None => throw (InvalidMethodMetadata controllerPropertyName index)
            | Some hm =>
                let! middlewares := transformMiddlewares (hm_middlewares hm) in
                let! method := bind_this (descriptor_value d) controllerInstance in
                router_call r (hm_method hm) (hm_path hm) (middlewares ++ [method])
            end
        | _ => ret r
        end
    end.

(** Lines 116-124: what [controllerInstance] is set to. *)
Definition resolveController (controller : value) : M value :=
  let! t := reads (fun s => typeof s controller) in
  match t with
  | TObject => ret controller
  | _ =>
      match container with
      | None => throw ControllerNeedsContainer
      | Some ct => lift (Container_get ct controller)
      end
  end.

(** The body of the loop over the controllers (lines 115-158). *)
Definition bindController (index : nat) (controller : value) : M unit :=
  let! controllerInstance := resolveController controller in
  let! controllerMetadata :=
    getMetadata "malmajs:controller" controllerInstance None in
  let! guard := reads (fun s => asControllerMetadata s controllerMetadata) in
  match guard with
  | None => throw (InvalidControllerMetadata index)
  | Some cm =>
      let! controllerPrototype := getPrototypeOf controllerInstance in
      let! controllerPropertyNames := getOwnPropertyNames controllerPrototype in
      let! r := foldM (bindProperty index controllerInstance controllerPrototype)
                      controllerPropertyNames [] in
      let! middlewares := transformMiddlewares (cm_middlewares cm) in
      app_use (Mount (cm_path cm) middlewares r)
  end.

(** [for (const index in controllers)], from [index] on. *)
Fixpoint useControllers_from (index : nat) (controllers : list value) : M unit :=
  match controllers with
  | [] => ret tt
  | controller :: rest =>
      let! _ := bindController index controller in
      useControllers_from (S index) rest
  end.

(** [app.useControllers(...controllers)] (lines 113-160). *)
Definition useControllers (controllers : list value) : M unit :=
  useControllers_from 0 controllers.

(** [app.useMiddlewares(...middlewares)] (lines 162-164). *)
Definition useMiddlewares (middlewares : list value) : M unit :=
  let! handlers := transformMiddlewares middlewares in
  app_use (UseHandlers handlers).

(** [app.useErrorMiddleware(errorMiddleware)] (lines 166-176). *)
Definition useErrorMiddleware (errorMiddleware : value) : M unit :=
  let! c := reads (fun s => isConstructor s errorMiddleware) in
  if c then
    match container with
    | None => throw ErrorMiddlewareNeedsContainer
    | Some ct =>
        let! errorMiddlewareInstance := lift (Container_get ct errorMiddleware) in
        let! handle := member errorMiddlewareInstance "handle" in
        let! h := bind_this handle errorMiddlewareInstance in
        app_use (UseErrorHandler h)
    end
  else
    let! handle := member errorMiddleware "handle" in
    let! h := bind_this handle errorMiddleware in
    app_use (UseErrorHandler h).

End applyExpressDecorator.

(** ** A store to run the binder on

    [class LoggerMiddleware extends Middleware { handle(req, res, next) {} }],
    the README's [ExampleController] with its two routes, a class with a
    plain method next to an annotated one, an unannotated class, two arrow
    functions and a function declared with [function]. *)
Module Sample.

Definition object (proto : option loc) (props : list (string * descriptor)) : obj :=
  {| o_kind := KObject; o_proto := proto; o_props := props |}.
Definition function (props : list (string * descriptor)) : obj :=
  {| o_kind := KFunction; o_proto := None; o_props := props |}.
Definition array (elems : list value) : obj :=
  {| o_kind := KArray elems; o_proto := None; o_props := [] |}.

Definition Middleware_prototype : loc := 1%positive.
Definition Middleware_class : loc := 2%positive.
Definition LoggerMiddleware_prototype : loc := 3%positive.
Definition LoggerMiddleware : loc := 4%positive.
Definition LoggerMiddleware_handle : loc := 5%positive.
Definition logger : loc := 6%positive.
Definition ExampleController_prototype : loc := 10%positive.
Definition ExampleController : loc := 11%positive.
Definition ExampleController_index : loc := 12%positive.
Definition ExampleController_createUser : loc := 13%positive.
Definition example : loc := 14%positive.
Definition example_metadata : loc := 20%positive.
Definition index_metadata : loc := 22%positive.
Definition createUser_metadata : loc := 24%positive.
Definition arrowA : loc := 30%positive.
Definition arrowB : loc := 31%positive.
Definition jsonParser : loc := 40%positive.
Definition PlainController_prototype : loc := 50%positive.
Definition PlainController : loc := 51%positive.
Definition PlainController_list : loc := 52%positive.
Definition PlainController_helper : loc := 53%positive.
Definition plain : loc := 54%positive.
Definition plain_metadata : loc := 55%positive.
Definition list_metadata : loc := 57%positive.
Definition Unannotated_prototype : loc := 60%positive.
Definition Unannotated : loc := 61%positive.
Definition unannotated : loc := 62%positive.
Definition GuardedController_prototype : loc := 70%positive.
Definition GuardedController : loc := 71%positive.
Definition guarded : loc := 72%positive.
Definition guarded_metadata : loc := 73%positive.

Definition heap : gmap loc obj :=
  list_to_map [
    (Middleware_prototype,
       object None [("constructor", DData (VRef Middleware_class))]);
    (Middleware_class,
       function [("prototype", DData (VRef Middleware_prototype))]);
    (LoggerMiddleware_prototype,
       object (Some Middleware_prototype)
         [("constructor", DData (VRef LoggerMiddleware));
          ("handle", DData (VRef LoggerMiddleware_handle))]);
    (LoggerMiddleware,
       function [("prototype", DData (VRef LoggerMiddleware_prototype))]);
    (LoggerMiddleware_handle, function []);
    (logger, object (Some LoggerMiddleware_prototype) []);
    (ExampleController_prototype,
       object None
         [("constructor", DData (VRef ExampleController));
          ("index", DData (VRef ExampleController_index));
          ("createUser", DData (VRef ExampleController_createUser))]);
    (ExampleController,
       function [("prototype", DData (VRef ExampleController_prototype))]);
    (ExampleController_index, function []);
    (ExampleController_createUser, function []);
    (example, object (Some ExampleController_prototype) []);
    (example_metadata,
       object None [("path", DData (VString "/example"));
                    ("middlewares", DData (VRef 21%positive))]);
    (21%positive, array [VRef arrowA; VRef arrowB]);
    (index_metadata,
       object None [("method", DData (VString "get"));
                    ("path", DData (VString ""));
                    ("middlewares", DData (VRef 23%positive))]);
    (23%positive, array [VRef logger]);
    (createUser_metadata,
       object None [("method", DData (VString "post"));
                    ("path", DData (VString "/create"));
                    ("middlewares", DData (VRef 25%positive))]);
    (25%positive, array []);
    (arrowA, function []);
    (arrowB, function []);
    (jsonParser, function [("prototype", DData (VRef 41%positive))]);
    (41%positive, object None [("constructor", DData (VRef jsonParser))]);
    (PlainController_prototype,
       object None
         [("constructor", DData (VRef PlainController));
          ("version", DData (VNumber 1));
          ("list", DData (VRef PlainController_list));
          ("helper", DData (VRef PlainController_helper))]);
    (PlainController,
       function [("prototype", DData (VRef PlainController_prototype))]);
    (PlainController_list, function []);
    (PlainController_helper, function []);
    (plain, object (Some PlainController_prototype) []);
    (plain_metadata,
       object None [("path", DData (VString "/plain"));
                    ("middlewares", DData (VRef 56%positive))]);
    (56%positive, array []);
    (list_metadata,
       object None [("method", DData (VString "get"));
                    ("path", DData (VString "/list"));
                    ("middlewares", DData (VRef 58%positive))]);
    (58%positive, array []);
    (Unannotated_prototype,
       object None [("constructor", DData (VRef Unannotated))]);
    (Unannotated,
       function [("prototype", DData (VRef Unannotated_prototype))]);
    (unannotated, object (Some Unannotated_prototype) []);
    (GuardedController_prototype,
       object None [("constructor", DData (VRef GuardedController))]);
    (GuardedController,
       function [("prototype", DData (VRef GuardedController_prototype))]);
    (guarded, object (Some GuardedController_prototype) []);
    (guarded_metadata,
       object None [("path", DData (VString "/guarded"));
                    ("middlewares", DData (VRef 74%positive))]);
    (74%positive, array [VRef LoggerMiddleware])
  ].

Definition meta : gmap (loc * option string * string) value :=
  list_to_map [
    ((ExampleController_prototype, None, "malmajs:controller"),
       VRef example_metadata);
    ((ExampleController_prototype, Some "index", "malmajs:handler"),
       VRef index_metadata);
    ((ExampleController_prototype, Some "createUser", "malmajs:handler"),
       VRef createUser_metadata);
    ((PlainController_prototype, None, "malmajs:controller"),
       VRef plain_metadata);
    ((PlainController_prototype, Some "list", "malmajs:handler"),
       VRef list_metadata);
    ((GuardedController_prototype, None, "malmajs:controller"),
       VRef guarded_metadata)
  ].

Definition st : store :=
  {| st_heap := heap; st_meta := meta; st_Middleware := Middleware_prototype |}.

Definition start : world := {| w_store := st; w_app := [] |}.

(** A container that constructs the classes of this store: it hands out the
    one instance each has. *)
Definition resolver : Container :=
  {| Container_get c :=
       if bool_decide (c = VRef LoggerMiddleware) then Ok (VRef logger)
       else if bool_decide (c = VRef ExampleController) then Ok (VRef example)
       else if bool_decide (c = VRef Unannotated) then Ok (VRef unannotated)
       else if bool_decide (c = VRef GuardedController) then Ok (VRef guarded)
       else Throw (External "unknown class") |}.

End Sample.

(** ** What a run reads and writes

    [runs m s r d]: started in store [s], whatever the application already
    holds, [m] ends with outcome [r], leaves the store as it was and has
    appended the entries [d] to the application. *)

Abbreviation mk_world s a := {| w_store := s; w_app := a |} (only parsing).

Definition runs {A} (m : M A) (s : store) (r : outcome A)
    (d : list app_entry) : Prop :=
  forall a, m (mk_world s a) = (r, mk_world s (a ++ d)).

(** A computation that only reads. *)
Definition reader {A} (m : M A) : Prop :=
  forall s, exists r, runs m s r [].

(** A computation that reads the store and appends to the application. *)
Definition appender {A} (m : M A) : Prop :=
  forall s, exists r d, runs m s r d.

(** The specification's binding result (section 3): the tuples
    (verb, fullPath, orderedHandlerChain) that the mounted routers stand
    for, with fullPath = basePath + routePath and the mount-level handlers
    ahead of the route's own. This definition follows the specification's
    words; the code only produces [Mount] entries. *)
Definition binding_result (app : list app_entry)
  : list (HandlerMethod * string * list handler) :=
  flat_map (fun e =>
    match e with
    | Mount base handlers r =>
        map (fun rt => (r_method rt, String.append base (r_path rt),
                        handlers ++ r_handlers rt)) r
    | _ => []
    end) app.

(** The methods of a prototype as the binder sees them: the own property
    names, in order, that are not [constructor] and whose descriptor holds a
    function. *)
Definition is_method (s : store) (proto : loc) (name : string) : bool :=
  negb (String.eqb name "constructor")
  && match getOwnPropertyDescriptor s proto name with
     | Some d => bool_decide (typeof s (descriptor_value d) = TFunction)
     | None => false
     end.

Definition methods (s : store) (proto : loc) : list string :=
  List.filter (is_method s proto) (own_names s proto).

(** ** The route a method yields

    [method_route container s inst p name rt]: [rt] is the route the loop
    body registers for the method [name] of the prototype at [p], bound to
    the instance [inst]. *)
Definition method_route (container : option Container) (s : store)
    (inst : value) (p : loc) (name : string) (rt : route) : Prop :=
  exists d l hm hs verb,
    inst = VRef l /\
    getOwnPropertyDescriptor s p name = Some d /\
    asHandlerMetadata s (metadata_of s "malmajs:handler" l (Some name)) = Some hm /\
    runs (transformMiddlewares container (hm_middlewares hm)) s (Ok hs) [] /\
    HandlerMethod_of_string (hm_method hm) = Some verb /\
    rt = {| r_method := verb; r_path := hm_path hm;
            r_handlers := hs ++ [HBound (descriptor_value d) inst] |}.

(** [controller_mount container s c m]: binding the controller [c] mounts
    [m], that is, [c] resolves to an instance with valid controller
    metadata, each of its prototype's methods yields its route, in order,
    and the controller's middleware resolves. *)
Definition controller_mount (container : option Container) (s : store)
    (c : value) (m : app_entry) : Prop :=
  exists l cm p routes hs,
    runs (resolveController container c) s (Ok (VRef l)) [] /\
    asControllerMetadata s (metadata_of s "malmajs:controller" l None) = Some cm /\
    prototype_of s l = VRef p /\
    Forall2 (method_route container s (VRef l) p) (methods s p) routes /\
    runs (transformMiddlewares container (cm_middlewares cm)) s (Ok hs) [] /\
    m = Mount (cm_path cm) hs routes.

(** An instance lacks metadata when its controller metadata does not pass
    the guard, or when one of its methods has no handler metadata that
    passes the guard. *)
Definition lacks_metadata (s : store) (l : loc) : Prop :=
  isControllerMetadata s (metadata_of s "malmajs:controller" l None) = false
  \/ exists p name,
       prototype_of s l = VRef p /\
       name ∈ methods s p /\
       isHandlerMetadata s (metadata_of s "malmajs:handler" l (Some name)) = false.

Definition has_handle (s : store) (x : value) : bool :=
  match x with
  | VUndefined | VNull => false
  | _ => bool_decide (typeof s (prop s x "handle") = TFunction)
  end.

(** A middleware reference that resolves: a class the container
    constructs an instance with a [handle] method for, a function, or an
    object with a [handle] method. *)
Definition valid_middleware (container : option Container) (s : store)
    (m : value) : bool :=
  if isConstructor s m then
    match container with
    | Some ct =>
        match Container_get ct m with
        | Ok x => has_handle s x
        | Throw _ => false
        end
    | None => false
    end
  else bool_decide (typeof s m = TFunction) || has_handle s m.

(** A method annotated by one of the five decorators, with middleware that
    resolves. *)
Definition valid_method (container : option Container) (s : store)
    (l : loc) (name : string) : bool :=
  match asHandlerMetadata s (metadata_of s "malmajs:handler" l (Some name)) with
  | Some hm =>
      bool_decide (is_Some (HandlerMethod_of_string (hm_method hm)))
      && forallb (valid_middleware container s) (hm_middlewares hm)
  | None => false
  end.

(** A validly annotated instance: controller metadata that passes the
    guard, middleware that resolves, a prototype, and every method of it
    validly annotated. *)
Definition validly_annotated (container : option Container) (s : store)
    (l : loc) : bool :=
  match asControllerMetadata s (metadata_of s "malmajs:controller" l None),
        prototype_of s l with
  | Some cm, VRef p =>
      forallb (valid_middleware container s) (cm_middlewares cm)
      && forallb (valid_method container s l) (methods s p)
  | _, _ => false
  end.

(** The middleware references an instance brings along: those of its
    controller metadata and those of its methods' route metadata. *)
Definition uses_middleware (s : store) (l : loc) (m : value) : Prop :=
  (exists cm,
     asControllerMetadata s (metadata_of s "malmajs:controller" l None) = Some cm /\
     m ∈ cm_middlewares cm)
  \/ (exists p name hm,
        prototype_of s l = VRef p /\
        name ∈ methods s p /\
        asHandlerMetadata s (metadata_of s "malmajs:handler" l (Some name)) = Some hm /\
        m ∈ hm_middlewares hm).

(** ** Annotation: the decorators

    The decorators write: each allocates its metadata record, and
    [Reflect.defineMetadata] enters it in the table. *)

(** A new object gets an identity the heap does not yet hold. *)
Definition alloc (o : obj) : M loc :=
  fun w =>
    let s := w_store w in
    let l := fresh (dom (st_heap s)) in
    (Ok l,
     {| w_store := {| st_heap := <[l := o]> (st_heap s);
                      st_meta := st_meta s;
                      st_Middleware := st_Middleware s |};
        w_app := w_app w |}).

(** [Reflect.defineMetadata(key, value, target, propertyKey?)]: a target
    that is not an object raises. *)
Definition defineMetadata (key : string) (v : value) (target : value)
    (property : option string) : M unit :=
  match target with
  | VRef l =>
      fun w =>
        let s := w_store w in
        (Ok tt,
         {| w_store := {| st_heap := st_heap s;
                          st_meta := <[(l, property, key) := v]> (st_meta s);
                          st_Middleware := st_Middleware s |};
            w_app := w_app w |})
  | _ => throw TypeError
  end.

(** A parameter [middlewares = []]: an omitted argument is [undefined], and
    the default is a new empty array. The prototypes of array and object
    literals, [Array.prototype] and [Object.prototype], are outside the
    store; they hold none of the names the guards read. *)
Definition default_middlewares (middlewares : value) : M value :=
  match middlewares with
  | VUndefined =>
      let! a := alloc {| o_kind := KArray []; o_proto := None; o_props := [] |} in
      ret (VRef a)
  | _ => ret middlewares
  end.

(** [Controller(path, middlewares)(target)] (lines 31-42); [path = ''] when
    omitted. *)
Definition Controller (path : option string) (middlewares : value)
    (target : value) : M unit :=
  let! middlewares := default_middlewares middlewares in
  let! record :=
    alloc {| o_kind := KObject; o_proto := None;
             o_props := [("path", DData (VString (default "" path)));
                         ("middlewares", DData middlewares)] |} in
  let! prototype := member target "prototype" in
  defineMetadata "malmajs:controller" (VRef record) prototype None.

Definition HandlerMethod_to_string (m : HandlerMethod) : string :=
  match m with
  | HMget => "get"
  | HMpost => "post"
  | HMput => "put"
  | HMdelete => "delete"
  | HMpatch => "patch"
  end.

(** [createHandlerDecorator(method)(path, middlewares)(target, propertyKey,
    descriptor)] (lines 62-78); it hands the descriptor back. *)
Definition createHandlerDecorator (method : HandlerMethod)
    (path : option string) (middlewares : value)
    (target : value) (propertyKey : string) (d : descriptor) : M descriptor :=
  let! middlewares := default_middlewares middlewares in
  let! record :=
    alloc {| o_kind := KObject; o_proto := None;
             o_props := [("method", DData (VString (HandlerMethod_to_string method)));
                         ("path", DData (VString (default "" path)));
                         ("middlewares", DData middlewares)] |} in
  let! _ := defineMetadata "malmajs:handler" (VRef record) target
                           (Some propertyKey) in
  ret d.

(** Lines 79-83. *)
Definition Get := createHandlerDecorator HMget.
Definition Post := createHandlerDecorator HMpost.
Definition Put := createHandlerDecorator HMput.
Definition Delete := createHandlerDecorator HMdelete.
Definition Patch := createHandlerDecorator HMpatch.

(** ** Well-formed stores

    A store as the engine keeps it: no reference dangles, and an object's
    prototype ranks below it, which makes prototype chains acyclic. *)
Definition value_in (h : gmap loc obj) (v : value) : Prop :=
  match v with
  | VRef l => is_Some (h !! l)
  | _ => True
  end.

Definition descriptor_in (h : gmap loc obj) (d : descriptor) : Prop :=
  value_in h (descriptor_read d).

Definition obj_in (h : gmap loc obj) (rank : loc -> nat) (l : loc) (o : obj)
  : Prop :=
  match o_proto o with
  | Some p => is_Some (h !! p) /\ rank p < rank l
  | None => True
  end
  /\ Forall (fun kd => descriptor_in h kd.2) (o_props o)
  /\ match o_kind o with
     | KArray elems => Forall (value_in h) elems
     | _ => True
     end.

Definition wf_store (s : store) : Prop :=
  (exists rank, map_Forall (obj_in (st_heap s) rank) (st_heap s))
  /\ map_Forall (fun k v => is_Some (st_heap s !! k.1.1) /\ value_in (st_heap s) v)
                (st_meta s).

(** A handler Express can call. *)
Definition callable (s : store) (h : handler) : Prop :=
  match h with
  | HFunction f => typeof s f = TFunction
  | HBound f _ => typeof s f = TFunction
  end.

Definition entry_handlers (e : app_entry) : list handler :=
  match e with
  | Mount _ handlers r => handlers ++ flat_map r_handlers r
  | UseHandlers handlers => handlers
  | UseErrorHandler h => [h]
  end.

(** The store after an allocation, and after an entry of the metadata
    table is set. *)
Definition alloc_store (s : store) (o : obj) : store :=
  {| st_heap := <[fresh (dom (st_heap s)) := o]> (st_heap s);
     st_meta := st_meta s;
     st_Middleware := st_Middleware s |}.

(** [preserves s s']: every value of [s] is a value of [s'], with the same
    type, members, class membership and verdict of each guard. *)
Definition preserves (s s' : store) : Prop :=
  st_Middleware s' = st_Middleware s /\
  forall v,
    value_in (st_heap s) v ->
    value_in (st_heap s') v /\
    typeof s' v = typeof s v /\
    (forall name, prop s' v name = prop s v name) /\
    (forall p, instanceof s' v p = instanceof s v p) /\
    as_array s' v = as_array s v /\
    isConstructor s' v = isConstructor s v /\
    asControllerMetadata s' v = asControllerMetadata s v /\
    asHandlerMetadata s' v = asHandlerMetadata s v.

Definition define_store (s : store) (l : loc) (property : option string)
    (key : string) (v : value) : store :=
  {| st_heap := st_heap s;
     st_meta := <[(l, property, key) := v]> (st_meta s);
     st_Middleware := st_Middleware s |}.

(** The second half of [wf_store], on its own. *)
Definition meta_wf (s : store) : Prop :=
  map_Forall (fun k v => is_Some (st_heap s !! k.1.1) /\ value_in (st_heap s) v)
             (st_meta s).

(** A container that raises no metadata error of its own. *)
Definition container_errors_foreign (container : option Container) : Prop :=
  forall ct x e,
    container = Some ct -> Container_get ct x = Throw e ->
    kind_of_error e <> MissingMetadata.

(** A check of well-formedness that computes, with identities as ranks:
    every prototype was allocated before the objects that inherit from it. *)
Definition value_inb (h : gmap loc obj) (v : value) : bool :=
  match v with
  | VRef l => bool_decide (is_Some (h !! l))
  | _ => true
  end.

Definition obj_inb (h : gmap loc obj) (l : loc) (o : obj) : bool :=
  match o_proto o with
  | Some p => bool_decide (is_Some (h !! p)) && Pos.ltb p l
  | None => true
  end
  && forallb (fun kd : string * descriptor => value_inb h (descriptor_read kd.2))
             (o_props o)
  && match o_kind o with
     | KArray elems => forallb (value_inb h) elems
     | _ => true
     end.

Definition wf_storeb (s : store) : bool :=
  forallb (fun lo : loc * obj => obj_inb (st_heap s) lo.1 lo.2)
          (map_to_list (st_heap s))
  && forallb (fun kv : (loc * option string * string) * value =>
                bool_decide (is_Some (st_heap s !! kv.1.1.1))
                && value_inb (st_heap s) kv.2)
             (map_to_list (st_meta s)).

(** ** Express's side of a registration

    Express is an external collaborator: [router[method]] and [app.use]
    compile the path they are given and refuse one they cannot compile, and
    [app.use] refuses a call without handlers. [compiles] stands for the
    paths Express compiles. *)
Definition entry_accepted (compiles : string -> bool) (e : app_entry) : bool :=
  match e with
  | Mount path _ r => compiles path && forallb (fun rt => compiles (r_path rt)) r
  | UseHandlers handlers => negb (bool_decide (handlers = []))
  | UseErrorHandler _ => true
  end.

(** The paths an instance's annotations carry, controller and routes, are
    all paths Express compiles. *)
Definition paths_compile (compiles : string -> bool) (s : store) (l : loc)
  : bool :=
  match asControllerMetadata s (metadata_of s "malmajs:controller" l None),
        prototype_of s l with
  | Some cm, VRef p =>
      compiles (cm_path cm)
      && forallb
           (fun name =>
              match asHandlerMetadata s
                      (metadata_of s "malmajs:handler" l (Some name)) with
              | Some hm => compiles (hm_path hm)
              | None => true
              end)
           (methods s p)
  | _, _ => true
  end.

(** Paths made of letters, digits, [/], [-] and [_] only: no pattern
    operator occurs in them. *)
Definition plain_char (c : Ascii.ascii) : bool :=
  let n := Ascii.nat_of_ascii c in
  (Nat.leb 97 n && Nat.leb n 122) || (Nat.leb 65 n && Nat.leb n 90)
  || (Nat.leb 48 n && Nat.leb n 57)
  || Nat.eqb n 47 || Nat.eqb n 45 || Nat.eqb n 95.

Definition plain_path (path : string) : bool :=
  forallb plain_char (String.list_ascii_of_string path).

(** ** The prototype chain

    The fuel of [proto_chain] is enough: on a heap whose chain from [l] is
    acyclic, as the engine keeps it, no amount of fuel beyond it changes the
    chain. *)

Section prototype_chain.
Variable h : gmap loc obj.

Lemma chain_from_length n l : length (chain_from h n l) <= n.
Proof.
  revert l. induction n as [|n IH]; intros l; simpl; [lia|].
  destruct (h !! l) as [[k [p|] ps]|]; simpl; try lia.
  specialize (IH p). lia.
Qed.

(** Fuel that was not used up was not needed. *)
Lemma chain_from_S n l :
  length (chain_from h (S n) l) <= n -> chain_from h (S n) l = chain_from h n l.
Proof.
  revert l. induction n as [|n IH]; intros l H.
  - simpl in H. lia.
  - change (chain_from h (S (S n)) l) with
      (l :: match h !! l with
            | Some {| o_proto := Some p |} => chain_from h (S n) p
            | _ => []
            end) in *.
    change (chain_from h (S n) l) with
      (l :: match h !! l with
            | Some {| o_proto := Some p |} => chain_from h n p
            | _ => []
            end).
    destruct (h !! l) as [[k [p|] ps]|]; try done.
    apply le_S_n in H. f_equal. by apply IH.
Qed.

(** Every object of a chain but the last is in the heap. *)
Lemma chain_from_heap n l i x :
  chain_from h n l !! i = Some x -> S i < length (chain_from h n l) ->
  is_Some (h !! x).
Proof.
  revert l i. induction n as [|n IH]; intros l i Hi Hlen; [done|].
  simpl in *. destruct (h !! l) as [[k [p|] ps]|] eqn:Hl; simpl in *;
    try lia.
  destruct i as [|i]; simpl in Hi.
  - by simplify_eq.
  - apply (IH p i); [done|lia].
Qed.

Lemma chain_from_NoDup_length n l :
  NoDup (chain_from h n l) -> length (chain_from h n l) <= S (size h).
Proof.
  intros Hnd. set (c := chain_from h n l) in *.
  set (pre := take (length c - 1) c).
  assert (Hpre : length pre <= size h).
  { assert (Hnd' : NoDup pre).
    { apply (NoDup_app pre (drop (length c - 1) c)).
      unfold pre. by rewrite take_drop. }
    rewrite <- (size_list_to_set (C := gset loc) pre Hnd'), <- size_dom.
    apply subseteq_size. intros x Hx.
    apply elem_of_list_to_set, list_elem_of_lookup in Hx as [i Hi].
    apply elem_of_dom. unfold pre in Hi.
    apply lookup_take_Some in Hi as [Hi Hlt].
    apply (chain_from_heap n l i x Hi). fold c. lia. }
  unfold pre in Hpre. rewrite length_take in Hpre. lia.
Qed.

Lemma chain_from_enough l :
  (forall fuel, NoDup (chain_from h fuel l)) ->
  forall fuel, S (size h) <= fuel ->
    chain_from h fuel l = chain_from h (S (size h)) l.
Proof.
  intros Hnd fuel Hfuel. induction Hfuel as [|fuel Hfuel IH]; [done|].
  rewrite <- IH. apply chain_from_S.
  pose proof (chain_from_NoDup_length (S fuel) l (Hnd _)). lia.
Qed.
End prototype_chain.

Lemma proto_chain_enough s l :
  (forall fuel, NoDup (chain_from (st_heap s) fuel l)) ->
  forall fuel, S (size (st_heap s)) <= fuel ->
    chain_from (st_heap s) fuel l = proto_chain s l.
Proof. apply chain_from_enough. Qed.

(** ** Basic facts about runs *)

Lemma world_eta (w : world) : w = mk_world (w_store w) (w_app w).
Proof. by destruct w. Qed.

Lemma runs_at {A} (m : M A) s r d w :
  runs m s r d -> w_store w = s -> m w = (r, mk_world s (w_app w ++ d)).
Proof. intros H <-. rewrite (world_eta w) at 1. apply H. Qed.

Lemma runs_det {A} (m : M A) s r r' d d' :
  runs m s r d -> runs m s r' d' -> r = r' /\ d = d'.
Proof.
  intros H H'. specialize (H []). rewrite (H' []) in H.
  simpl in H. by simplify_eq.
Qed.

Lemma runs_ret {A} (x : A) s : runs (ret x) s (Ok x) [].
Proof. intros a. unfold ret. by rewrite app_nil_r. Qed.

Lemma runs_throw {A} e s : runs (@throw A e) s (Throw e) [].
Proof. intros a. unfold throw. by rewrite app_nil_r. Qed.

Lemma runs_reads {A} (f : store -> A) s : runs (reads f) s (Ok (f s)) [].
Proof. intros a. unfold reads. simpl. by rewrite app_nil_r. Qed.

Lemma runs_lift {A} (o : outcome A) s : runs (lift o) s o [].
Proof. intros a. unfold lift. by rewrite app_nil_r. Qed.

Lemma runs_app_use e s : runs (app_use e) s (Ok tt) [e].
Proof. intros a. reflexivity. Qed.

Lemma runs_bind_Ok {A B} (m : M A) (k : A -> M B) s x d r d' :
  runs m s (Ok x) d -> runs (k x) s r d' -> runs (bind m k) s r (d ++ d').
Proof.
  intros Hm Hk a. unfold bind. rewrite Hm, Hk. by rewrite app_assoc.
Qed.

Lemma runs_bind_Throw {A B} (m : M A) (k : A -> M B) s e d :
  runs m s (Throw e) d -> runs (bind m k) s (Throw e) d.
Proof. intros Hm a. unfold bind. by rewrite Hm. Qed.

Lemma reader_appender {A} (m : M A) : reader m -> appender m.
Proof. intros H s. destruct (H s) as [r Hr]. by exists r, []. Qed.

Lemma reader_ret {A} (x : A) : reader (ret x).
Proof. intros s. eexists. apply runs_ret. Qed.

Lemma reader_throw {A} e : reader (@throw A e).
Proof. intros s. eexists. apply runs_throw. Qed.

Lemma reader_reads {A} (f : store -> A) : reader (reads f).
Proof. intros s. eexists. apply runs_reads. Qed.

Lemma reader_lift {A} (o : outcome A) : reader (lift o).
Proof. intros s. eexists. apply runs_lift. Qed.

Lemma reader_bind {A B} (m : M A) (k : A -> M B) :
  reader m -> (forall x, reader (k x)) -> reader (bind m k).
Proof.
  intros Hm Hk s. destruct (Hm s) as [[x|e] Hr].
  - destruct (Hk x s) as [r Hr']. exists r.
    apply (runs_bind_Ok m k s x [] r [] Hr Hr').
  - exists (Throw e). by apply runs_bind_Throw.
Qed.

Lemma appender_bind {A B} (m : M A) (k : A -> M B) :
  appender m -> (forall x, appender (k x)) -> appender (bind m k).
Proof.
  intros Hm Hk s. destruct (Hm s) as ([x|e] & d & Hr).
  - destruct (Hk x s) as (r & d' & Hr'). exists r, (d ++ d').
    by apply (runs_bind_Ok m k s x d r d').
  - exists (Throw e), d. by apply runs_bind_Throw.
Qed.

Lemma reader_mapM {A B} (f : A -> M B) l :
  (forall a, reader (f a)) -> reader (mapM f l).
Proof.
  intros Hf. induction l as [|a l IH]; simpl.
  - apply reader_ret.
  - apply reader_bind; [apply Hf|]. intros b.
    apply reader_bind; [apply IH|]. intros bs. apply reader_ret.
Qed.

Lemma reader_foldM {A B} (f : B -> A -> M B) l b :
  (forall b a, reader (f b a)) -> reader (foldM f l b).
Proof.
  intros Hf. revert b. induction l as [|a l IH]; intros b; simpl.
  - apply reader_ret.
  - apply reader_bind; [apply Hf|]. intros b'. apply IH.
Qed.

Create HintDb reader.
#[global] Hint Resolve reader_ret reader_throw reader_reads reader_lift
  reader_mapM reader_foldM : reader.
#[global] Hint Extern 2 (reader (bind _ _)) =>
  apply reader_bind; [|intros ?] : reader.
#[global] Hint Extern 3 (reader (match ?x with _ => _ end)) =>
  destruct x : reader.
#[global] Hint Extern 3 (reader (if ?x then _ else _)) =>
  destruct x : reader.

Lemma reader_member v name : reader (member v name).
Proof. unfold member. auto with reader. Qed.

Lemma reader_bind_this f this : reader (bind_this f this).
Proof. unfold bind_this. auto with reader. Qed.

Lemma reader_getMetadata key target property :
  reader (getMetadata key target property).
Proof. unfold getMetadata. auto with reader. Qed.

Lemma reader_getPrototypeOf o : reader (getPrototypeOf o).
Proof. unfold getPrototypeOf. auto with reader. Qed.

Lemma reader_getOwnPropertyNames o : reader (getOwnPropertyNames o).
Proof. unfold getOwnPropertyNames. auto with reader. Qed.

Lemma reader_getOwnPropertyDescriptorM o name :
  reader (getOwnPropertyDescriptorM o name).
Proof. unfold getOwnPropertyDescriptorM. auto with reader. Qed.

Lemma reader_router_call r method path handlers :
  reader (router_call r method path handlers).
Proof. unfold router_call. auto with reader. Qed.

#[global] Hint Resolve reader_member reader_bind_this reader_getMetadata
  reader_getPrototypeOf reader_getOwnPropertyNames
  reader_getOwnPropertyDescriptorM reader_router_call : reader.

Lemma reader_transformMiddleware container middleware :
  reader (transformMiddleware container middleware).
Proof. unfold transformMiddleware. auto 10 with reader. Qed.

Lemma reader_transformMiddlewares container middlewares :
  reader (transformMiddlewares container middlewares).
Proof.
  unfold transformMiddlewares. apply reader_mapM.
  apply reader_transformMiddleware.
Qed.

#[global] Hint Resolve reader_transformMiddleware
  reader_transformMiddlewares : reader.

Lemma reader_bindProperty container index inst proto r name :
  reader (bindProperty container index inst proto r name).
Proof. unfold bindProperty. auto 12 with reader. Qed.

#[global] Hint Resolve reader_bindProperty : reader.

Lemma reader_resolveController container controller :
  reader (resolveController container controller).
Proof. unfold resolveController. auto 10 with reader. Qed.

#[global] Hint Resolve reader_resolveController : reader.

Lemma appender_bindController container index controller :
  appender (bindController container index controller).
Proof.
  unfold bindController.
  repeat (apply appender_bind; [apply reader_appender; auto with reader|intros ?]).
  case_match.
  - repeat (apply appender_bind; [apply reader_appender; auto with reader|intros ?]).
    intros s. exists (Ok tt). eexists. apply runs_app_use.
  - apply reader_appender, reader_throw.
Qed.

Lemma appender_useControllers_from container controllers index :
  appender (useControllers_from container index controllers).
Proof.
  revert index. induction controllers as [|c cs IH]; intros index; simpl.
  - apply reader_appender, reader_ret.
  - apply appender_bind; [apply appender_bindController|]. intros _. apply IH.
Qed.

(** From one run to all runs over the same store. *)
Lemma reader_run {A} (m : M A) w r w' :
  reader m -> m w = (r, w') -> runs m (w_store w) r [] /\ w' = w.
Proof.
  intros Hm H. destruct (Hm (w_store w)) as [r' Hr].
  pose proof (runs_at m _ _ _ w Hr eq_refl) as H'.
  rewrite app_nil_r, <- world_eta in H'. rewrite H' in H. by simplify_eq.
Qed.

Lemma appender_run {A} (m : M A) w r w' :
  appender m -> m w = (r, w') ->
  exists d, runs m (w_store w) r d /\ w' = mk_world (w_store w) (w_app w ++ d).
Proof.
  intros Hm H. destruct (Hm (w_store w)) as (r' & d & Hr).
  pose proof (runs_at m _ _ _ w Hr eq_refl) as H'.
  rewrite H' in H. simplify_eq. by exists d.
Qed.

Lemma runs_reader_nil {A} (m : M A) s r d :
  reader m -> runs m s r d -> d = [].
Proof.
  intros Hm H. destruct (Hm s) as [r' Hr].
  by destruct (runs_det _ _ _ _ _ _ H Hr).
Qed.

Section loop_body.

Variable container : option Container.
Variables (s : store) (index : nat) (l p : loc).

Let body := bindProperty container index (VRef l) (VRef p).

(** Properties that are not methods are passed over. *)
Lemma bindProperty_skip r name :
  is_method s p name = false -> runs (body r name) s (Ok r) [].
Proof.
  intros Hm a. unfold body, bindProperty, is_method in *.
  destruct (String.eqb name "constructor"); [by rewrite app_nil_r|].
  simpl in Hm. unfold bind, getOwnPropertyDescriptorM, reads. simpl.
  destruct (getOwnPropertyDescriptor s p name) as [d|]; [|by rewrite app_nil_r].
  apply bool_decide_eq_false in Hm. simpl.
  destruct (typeof s (descriptor_value d)); by rewrite ?app_nil_r.
Qed.

(** A method with valid metadata whose middleware resolves adds one route. *)
Lemma bindProperty_route r name rt :
  is_method s p name = true ->
  method_route container s (VRef l) p name rt ->
  runs (body r name) s (Ok (r ++ [rt])) [].
Proof.
  intros Hm (d & l' & hm & hs & verb & [= <-] & Hd & Hhm & Hhs & Hv & ->) a.
  unfold body, bindProperty, is_method in *.
  destruct (String.eqb name "constructor"); [done|]. simpl in Hm.
  unfold bind, getOwnPropertyDescriptorM, getMetadata, reads. simpl.
  rewrite Hd in Hm |- *. apply bool_decide_eq_true in Hm. simpl.
  rewrite Hm. simpl. rewrite Hhm. rewrite (Hhs a).
  unfold bind_this, bind, reads. simpl. rewrite Hm.
  unfold router_call. rewrite Hv. unfold ret. by rewrite !app_nil_r.
Qed.

(** What the loop body does on a method, whatever its metadata. *)
Lemma bindProperty_method r name res :
  is_method s p name = true ->
  runs (body r name) s res [] ->
  match res with
  | Ok r' => exists rt, method_route container s (VRef l) p name rt /\ r' = r ++ [rt]
  | Throw e =>
      asHandlerMetadata s (metadata_of s "malmajs:handler" l (Some name)) = None ->
      e = InvalidMethodMetadata name index
  end.
Proof.
  intros Hm H. specialize (H []). unfold body, bindProperty, is_method in *.
  destruct (String.eqb name "constructor"); [done|]. simpl in Hm.
  unfold bind, getOwnPropertyDescriptorM, getMetadata, reads in H. simpl in H.
  destruct (getOwnPropertyDescriptor s p name) as [d|] eqn:Hd; [|done].
  apply bool_decide_eq_true in Hm. simpl in H. rewrite Hm in H. simpl in H.
  destruct (asHandlerMetadata s _) as [hm|] eqn:Hhm.
  - destruct (reader_transformMiddlewares container (hm_middlewares hm) s)
      as [rm Hrm].
    rewrite (Hrm []) in H. destruct rm as [hs|e]; [|by destruct res].
    unfold bind_this, bind, reads in H. simpl in H. rewrite Hm in H.
    unfold router_call in H.
    destruct (HandlerMethod_of_string (hm_method hm)) as [verb|] eqn:Hv;
      [|by destruct res].
    unfold ret in H. simplify_eq.
    eexists. split; [|done]. by exists d, l, hm, hs, verb.
  - unfold throw in H. by simplify_eq.
Qed.

(** A method without valid metadata stops the loop body. *)
Lemma bindProperty_throws r name :
  is_method s p name = true ->
  asHandlerMetadata s (metadata_of s "malmajs:handler" l (Some name)) = None ->
  runs (body r name) s (Throw (InvalidMethodMetadata name index)) [].
Proof.
  intros Hm Hmd a. unfold body, bindProperty, is_method in *.
  destruct (String.eqb name "constructor"); [done|]. simpl in Hm.
  unfold bind, getOwnPropertyDescriptorM, getMetadata, reads. simpl.
  destruct (getOwnPropertyDescriptor s p name) as [d|] eqn:Hd; [|done].
  apply bool_decide_eq_true in Hm. simpl. rewrite Hm. simpl. rewrite Hmd.
  unfold throw. by rewrite app_nil_r.
Qed.

(** The whole loop: passing over non-methods, one route per method, in the
    order of the names. *)
Lemma foldM_bindProperty_Ok names r r' :
  runs (foldM body names r) s (Ok r') [] ->
  exists routes,
    r' = r ++ routes /\
    Forall2 (method_route container s (VRef l) p)
            (List.filter (is_method s p) names) routes.
Proof.
  revert r. induction names as [|name names IH]; intros r H.
  - destruct (runs_det _ _ _ _ _ _ H (runs_ret r s)) as [[= <-] _].
    exists []. by rewrite app_nil_r.
  - simpl in H |- *.
    destruct (reader_bindProperty container index (VRef l) (VRef p) r name s)
      as [[r1|e] Hb]; fold (body r name) in Hb.
    2:{ pose proof (runs_bind_Throw _ (foldM body names) s e [] Hb) as H'.
        by destruct (runs_det _ _ _ _ _ _ H H'). }
    destruct (reader_foldM body names r1
                (reader_bindProperty container index (VRef l) (VRef p)) s)
      as [r2 Hf].
    pose proof (runs_bind_Ok _ (foldM body names) s r1 [] r2 [] Hb Hf) as H'.
    destruct (runs_det _ _ _ _ _ _ H H') as [<- _].
    destruct (IH _ Hf) as (routes & -> & HF).
    destruct (is_method s p name) eqn:Hm.
    + pose proof (bindProperty_method r name _ Hm Hb) as (rt & Hrt & ->).
      exists (rt :: routes). split; [by rewrite <- app_assoc|].
      by constructor.
    + pose proof (bindProperty_skip r name Hm) as Hs.
      destruct (runs_det _ _ _ _ _ _ Hb Hs) as [[= ->] _].
      by exists routes.
Qed.

Lemma foldM_bindProperty_routes names r routes :
  Forall2 (method_route container s (VRef l) p)
          (List.filter (is_method s p) names) routes ->
  runs (foldM body names r) s (Ok (r ++ routes)) [].
Proof.
  revert r routes. induction names as [|name names IH]; intros r routes HF.
  - simpl in HF. inversion HF; subst. rewrite app_nil_r. apply runs_ret.
  - simpl in HF |- *. destruct (is_method s p name) eqn:Hm.
    + inversion HF as [|? rt ? routes' Hrt HF']; subst.
      replace (r ++ rt :: routes') with ((r ++ [rt]) ++ routes')
        by by rewrite <- app_assoc.
      apply (runs_bind_Ok _ _ s (r ++ [rt]) [] _ []).
      * by apply bindProperty_route.
      * by apply IH.
    + apply (runs_bind_Ok _ _ s r [] _ []).
      * by apply bindProperty_skip.
      * by apply IH.
Qed.

(** A method without valid metadata anywhere among the names makes the loop
    throw. *)
Lemma foldM_bindProperty_unannotated names r name res :
  name ∈ names ->
  is_method s p name = true ->
  asHandlerMetadata s (metadata_of s "malmajs:handler" l (Some name)) = None ->
  runs (foldM body names r) s res [] ->
  exists e, res = Throw e.
Proof.
  intros Hin Hm Hmd. revert r.
  induction names as [|n names IH]; intros r H; [by apply elem_of_nil in Hin|].
  simpl in H.
  destruct (reader_bindProperty container index (VRef l) (VRef p) r n s)
    as [[r1|e] Hb]; fold (body r n) in Hb.
  2:{ pose proof (runs_bind_Throw _ (foldM body names) s e [] Hb) as H'.
      destruct (runs_det _ _ _ _ _ _ H H') as [-> _]. by exists e. }
  destruct (reader_foldM body names r1
              (reader_bindProperty container index (VRef l) (VRef p)) s)
    as [r2 Hf].
  pose proof (runs_bind_Ok _ (foldM body names) s r1 [] r2 [] Hb Hf) as H'.
  destruct (runs_det _ _ _ _ _ _ H H') as [-> _].
  apply elem_of_cons in Hin as [<-|Hin].
  - pose proof (bindProperty_throws r name Hm Hmd) as Ht.
    by destruct (runs_det _ _ _ _ _ _ Hb Ht).
  - by apply (IH Hin r1).
Qed.

End loop_body.

(** ** One controller *)

Lemma runs_bind_reader_inv {A B} (m : M A) (k : A -> M B) s r d :
  reader m ->
  runs (bind m k) s r d ->
  (exists x, runs m s (Ok x) [] /\ runs (k x) s r d)
  \/ (exists e, runs m s (Throw e) [] /\ r = Throw e /\ d = []).
Proof.
  intros Hm H. destruct (Hm s) as [[x|e] Hr].
  - left. exists x. split; [done|]. intros a. specialize (H a).
    unfold bind in H. rewrite (Hr a) in H. by rewrite app_nil_r in H.
  - right. exists e. split; [done|]. specialize (H []).
    unfold bind in H. rewrite (Hr []) in H. simpl in H. by simplify_eq.
Qed.

Lemma runs_reads_inv {A} (f : store -> A) s r d :
  runs (reads f) s r d -> r = Ok (f s) /\ d = [].
Proof. intros H. exact (runs_det _ _ _ _ _ _ H (runs_reads f s)). Qed.

Lemma runs_throw_inv {A} e s (r : outcome A) d :
  runs (throw e) s r d -> r = Throw e /\ d = [].
Proof. intros H. exact (runs_det _ _ _ _ _ _ H (runs_throw e s)). Qed.

Lemma runs_app_use_inv e s r d :
  runs (app_use e) s r d -> r = Ok tt /\ d = [e].
Proof. intros H. exact (runs_det _ _ _ _ _ _ H (runs_app_use e s)). Qed.

Tactic Notation "inv_bind" hyp(H) "as" ident(x) ident(Hx) :=
  apply runs_bind_reader_inv in H; [|by auto 12 with reader];
  destruct H as [(x & Hx & H)|(? & _ & ? & ?)]; [|by simplify_eq].

Section controllers.

Variable container : option Container.
Variable s : store.

Lemma prototype_of_cases l :
  prototype_of s l = VNull \/ exists p, prototype_of s l = VRef p.
Proof.
  unfold prototype_of. destruct (st_heap s !! l) as [[k [p|] ps]|]; eauto.
Qed.

(** A controller whose binding completes has mounted one router. *)
Lemma bindController_Ok_inv index c d :
  runs (bindController container index c) s (Ok tt) d ->
  exists m, d = [m] /\ controller_mount container s c m.
Proof.
  intros H. unfold bindController in H.
  inv_bind H as inst Hinst.
  inv_bind H as md Hmd.
  destruct inst as [| | | | |l];
    try (apply runs_throw_inv in Hmd as [? _]; done).
  apply runs_reads_inv in Hmd as [[= ->] _].
  inv_bind H as g Hg.
  apply runs_reads_inv in Hg as [[= ->] _].
  destruct (asControllerMetadata s _) as [cm|] eqn:Hcm;
    [|apply runs_throw_inv in H as [? _]; done].
  inv_bind H as proto Hproto.
  apply runs_reads_inv in Hproto as [[= ->] _].
  inv_bind H as names Hnames.
  destruct (prototype_of_cases l) as [Hp|[p Hp]]; rewrite Hp in *;
    [apply runs_throw_inv in Hnames as [? _]; done|].
  apply runs_reads_inv in Hnames as [[= ->] _].
  inv_bind H as r Hr.
  apply foldM_bindProperty_Ok in Hr as (routes & -> & HF).
  inv_bind H as hs Hhs.
  apply runs_app_use_inv in H as [_ ->].
  eexists. split; [done|]. by exists l, cm, p, routes, hs.
Qed.

Lemma bindController_Ok index c m :
  controller_mount container s c m ->
  runs (bindController container index c) s (Ok tt) [m].
Proof.
  intros (l & cm & p & routes & hs & Hinst & Hcm & Hp & HF & Hhs & ->).
  unfold bindController.
  eapply (runs_bind_Ok _ _ s _ []); [done|].
  eapply (runs_bind_Ok _ _ s _ []); [apply runs_reads|].
  eapply (runs_bind_Ok _ _ s _ []); [apply runs_reads|].
  simpl. rewrite Hcm.
  eapply (runs_bind_Ok _ _ s _ []); [apply runs_reads|].
  simpl. rewrite Hp.
  eapply (runs_bind_Ok _ _ s _ []); [apply runs_reads|].
  eapply (runs_bind_Ok _ _ s routes []).
  { by apply (foldM_bindProperty_routes container s index l p _ []). }
  eapply (runs_bind_Ok _ _ s hs []); [done|].
  apply runs_app_use.
Qed.

(** A controller whose binding throws has mounted nothing. *)
Lemma bindController_Throw_nil index c e d :
  runs (bindController container index c) s (Throw e) d -> d = [].
Proof.
  intros H. unfold bindController in H.
  inv_bind H as inst Hinst.
  inv_bind H as md Hmd.
  inv_bind H as g Hg.
  destruct g as [cm|]; [|by apply runs_throw_inv in H as [_ ?]].
  inv_bind H as proto Hproto.
  inv_bind H as names Hnames.
  inv_bind H as r Hr.
  inv_bind H as hs Hhs.
  by apply runs_app_use_inv in H as [? _].
Qed.

(** An instance without valid controller metadata: the guard of line 127
    throws. *)
Lemma bindController_invalid index c l :
  runs (resolveController container c) s (Ok (VRef l)) [] ->
  asControllerMetadata s (metadata_of s "malmajs:controller" l None) = None ->
  runs (bindController container index c) s
       (Throw (InvalidControllerMetadata index)) [].
Proof.
  intros Hinst Hcm. unfold bindController.
  eapply (runs_bind_Ok _ _ s _ []); [done|].
  eapply (runs_bind_Ok _ _ s _ []); [apply runs_reads|].
  eapply (runs_bind_Ok _ _ s _ []); [apply runs_reads|].
  simpl. rewrite Hcm. apply runs_throw.
Qed.

(** An instance with a method that lacks valid metadata: binding its
    controller does not complete. *)
Lemma bindController_unannotated index c l p name d :
  runs (resolveController container c) s (Ok (VRef l)) [] ->
  prototype_of s l = VRef p ->
  name ∈ methods s p ->
  asHandlerMetadata s (metadata_of s "malmajs:handler" l (Some name)) = None ->
  ~ runs (bindController container index c) s (Ok tt) d.
Proof.
  intros Hinst Hp Hin Hmd H.
  apply bindController_Ok_inv in H
    as (m & _ & l' & cm & p' & routes & hs & Hinst' & _ & Hp' & HF & _).
  destruct (runs_det _ _ _ _ _ _ Hinst Hinst') as [[= <-] _].
  rewrite Hp in Hp'. injection Hp' as <-.
  apply list_elem_of_lookup in Hin as [i Hi].
  destruct (Forall2_lookup_l _ _ _ i name HF Hi) as (rt & _ & Hrt).
  destruct Hrt as (d0 & l0 & hm & hs0 & verb & [= <-] & _ & Hhm & _).
  congruence.
Qed.

(** The loop over the controllers. *)
Lemma useControllers_from_Ok_inv controllers index d :
  runs (useControllers_from container index controllers) s (Ok tt) d ->
  Forall2 (controller_mount container s) controllers d.
Proof.
  revert index d. induction controllers as [|c cs IH]; intros index d H.
  - destruct (runs_det _ _ _ _ _ _ H (runs_ret tt s)) as [_ ->]. constructor.
  - simpl in H.
    destruct (appender_bindController container index c s) as ([[]|e] & d1 & Hb).
    + destruct (appender_useControllers_from container cs (S index) s)
        as (r2 & d2 & Hr).
      pose proof (runs_bind_Ok _ (fun _ => useControllers_from container (S index) cs)
                    s tt d1 r2 d2 Hb Hr) as H'.
      destruct (runs_det _ _ _ _ _ _ H H') as [<- ->].
      apply bindController_Ok_inv in Hb as (m & -> & Hm).
      constructor; [done|]. by apply (IH (S index)).
    + pose proof (runs_bind_Throw _
                    (fun _ => useControllers_from container (S index) cs)
                    s e d1 Hb) as H'.
      by destruct (runs_det _ _ _ _ _ _ H H').
Qed.

Lemma useControllers_from_Ok controllers index d :
  Forall2 (controller_mount container s) controllers d ->
  runs (useControllers_from container index controllers) s (Ok tt) d.
Proof.
  intros HF. revert index.
  induction HF as [|c m cs d Hm HF IH]; intros index; simpl.
  - apply runs_ret.
  - apply (runs_bind_Ok _ _ s tt [m] _ d).
    + by apply bindController_Ok.
    + apply IH.
Qed.

(** Binding [pre ++ post] is binding [pre], then [post] with the indices
    continuing. *)
Lemma useControllers_from_app pre post index d1 r d2 :
  runs (useControllers_from container index pre) s (Ok tt) d1 ->
  runs (useControllers_from container (index + length pre) post) s r d2 ->
  runs (useControllers_from container index (pre ++ post)) s r (d1 ++ d2).
Proof.
  revert index d1. induction pre as [|c pre IH]; intros index d1 Hpre Hpost.
  - destruct (runs_det _ _ _ _ _ _ Hpre (runs_ret tt s)) as [_ ->].
    simpl in *. by rewrite Nat.add_0_r in Hpost.
  - apply useControllers_from_Ok_inv in Hpre.
    inversion Hpre as [|? m ? d1' Hm Hpre']; subst. simpl.
    apply (runs_bind_Ok _ _ s tt [m] _ (d1' ++ d2)).
    + by apply bindController_Ok.
    + apply IH; [by apply useControllers_from_Ok|].
      simpl in Hpost. by rewrite Nat.add_succ_r in Hpost.
Qed.

(** Once a controller throws, the loop is over: what the earlier
    controllers mounted stays, nothing is added. *)
Lemma useControllers_from_Throw pre c post index d1 e :
  runs (useControllers_from container index pre) s (Ok tt) d1 ->
  runs (bindController container (index + length pre) c) s (Throw e) [] ->
  runs (useControllers_from container index (pre ++ c :: post)) s (Throw e) d1.
Proof.
  intros Hpre Hc. rewrite <- (app_nil_r d1) at 1.
  rewrite <- (app_nil_r d1).
  eapply useControllers_from_app; [by rewrite app_nil_r|].
  simpl. by apply runs_bind_Throw.
Qed.

(** A controller that cannot be bound makes the whole loop throw,
    wherever it stands. *)
Lemma useControllers_from_fails controllers index k c r d :
  controllers !! k = Some c ->
  (forall d', ~ runs (bindController container (index + k) c) s (Ok tt) d') ->
  runs (useControllers_from container index controllers) s r d ->
  exists e, r = Throw e.
Proof.
  intros Hk Hc H. destruct r as [[]|e]; [|by exists e]. exfalso.
  apply useControllers_from_Ok_inv in H.
  destruct (Forall2_lookup_l _ _ _ k c H Hk) as (m & _ & Hm).
  by apply (Hc [m]), bindController_Ok.
Qed.

End controllers.

(** ** From runs to worlds *)

Lemma appender_useControllers container controllers :
  appender (useControllers container controllers).
Proof. apply appender_useControllers_from. Qed.

Lemma reader_runs {A} (m : M A) w r :
  reader m -> m w = (r, w) -> runs m (w_store w) r [].
Proof. intros Hm H. by destruct (reader_run m w r w Hm H). Qed.

Lemma runs_reader_at {A} (m : M A) w r :
  runs m (w_store w) r [] -> m w = (r, w).
Proof.
  intros H. rewrite (runs_at m _ _ _ w H eq_refl), app_nil_r.
  by rewrite <- world_eta.
Qed.

(** * The claims *)

(** ** C9: the store is only read *)

(** C9. Whatever the controllers and whether binding completes or throws,
    [useControllers] leaves the store as it found it: the heap, which holds
    every class, prototype, instance and metadata record, and the metadata
    table are the same before and after. *)
Theorem useControllers_store_unchanged container controllers w :
  w_store (snd (useControllers container controllers w)) = w_store w.
Proof.
  destruct (useControllers container controllers w) as [r w'] eqn:H.
  apply appender_run in H as (d & _ & ->); [done|].
  apply appender_useControllers.
Qed.

(** ** C8: binding again registers the same again *)

(** C8. A second run of the binder over the same controllers, started
    where the first one ended, ends with the same outcome, and the entries
    it appends to the application are, one by one and in the same order, the
    entries the first run appended; it leaves the store as the first run
    found it. *)
Theorem useControllers_idempotent container controllers w r w1 :
  useControllers container controllers w = (r, w1) ->
  exists d w2,
    useControllers container controllers w1 = (r, w2) /\
    w_app w1 = w_app w ++ d /\
    w_app w2 = w_app w1 ++ d /\
    w_store w2 = w_store w.
Proof.
  intros H.
  apply appender_run in H as (d & Hd & ->); [|apply appender_useControllers].
  exists d. eexists. simpl. split; [apply (Hd (w_app w ++ d))|]. done.
Qed.

Lemma useControllers_idempotent_witness :
  let w1 := snd (useControllers None [VRef Sample.example] Sample.start) in
  exists d w2,
    useControllers None [VRef Sample.example] w1 = (Ok tt, w2) /\
    w_app w1 = w_app Sample.start ++ d /\
    w_app w2 = w_app w1 ++ d /\
    w_store w2 = w_store Sample.start.
Proof.
  intros w1.
  apply (useControllers_idempotent None [VRef Sample.example] Sample.start).
  vm_compute. reflexivity.
Defined.

(** ** Failing controllers *)

Lemma isControllerMetadata_false s o :
  isControllerMetadata s o = false -> asControllerMetadata s o = None.
Proof.
  unfold isControllerMetadata. intros H%bool_decide_eq_false.
  destruct (asControllerMetadata s o); [|done]. by destruct H.
Qed.

Lemma isHandlerMetadata_false s o :
  isHandlerMetadata s o = false -> asHandlerMetadata s o = None.
Proof.
  unfold isHandlerMetadata. intros H%bool_decide_eq_false.
  destruct (asHandlerMetadata s o); [|done]. by destruct H.
Qed.

Lemma bindController_lacks_metadata container s index c l :
  runs (resolveController container c) s (Ok (VRef l)) [] ->
  lacks_metadata s l ->
  exists e, runs (bindController container index c) s (Throw e) [].
Proof.
  intros Hinst Hl.
  destruct (appender_bindController container index c s) as ([[]|e] & d & H).
  - exfalso. destruct Hl as [Hc%isControllerMetadata_false
                            |(p & name & Hp & Hin & Hm%isHandlerMetadata_false)].
    + pose proof (bindController_invalid container s index c l Hinst Hc) as H'.
      by destruct (runs_det _ _ _ _ _ _ H H').
    + by apply (bindController_unannotated container s index c l p name d).
  - exists e. by rewrite (bindController_Throw_nil _ _ _ _ _ _ H) in H.
Qed.

(** The prefix of a collection that bound, seen as a run. *)
Lemma useControllers_prefix container controllers k c w w1 :
  useControllers container (take k controllers) w = (Ok tt, w1) ->
  controllers !! k = Some c ->
  exists mounts,
    runs (useControllers_from container 0 (take k controllers)) (w_store w)
         (Ok tt) mounts /\
    w1 = {| w_store := w_store w; w_app := w_app w ++ mounts |} /\
    controllers = take k controllers ++ c :: drop (S k) controllers /\
    length (take k controllers) = k.
Proof.
  intros H Hk.
  apply appender_run in H as (d & Hd & ->); [|apply appender_useControllers].
  exists d. split; [done|]. split; [done|]. split.
  - by rewrite take_drop_middle.
  - apply length_take_le, Nat.lt_le_incl, (lookup_lt_Some _ _ _ Hk).
Qed.

Lemma useControllers_stops container controllers k c w w1 e :
  useControllers container (take k controllers) w = (Ok tt, w1) ->
  controllers !! k = Some c ->
  runs (bindController container k c) (w_store w) (Throw e) [] ->
  useControllers container controllers w = (Throw e, w1).
Proof.
  intros H Hk Hc.
  destruct (useControllers_prefix _ _ _ _ _ _ H Hk) as (d & Hd & -> & Hsplit & Hlen).
  rewrite Hsplit at 1. unfold useControllers.
  apply (runs_at _ (w_store w)); [|done].
  apply useControllers_from_Throw; [done|]. simpl. by rewrite Hlen.
Qed.

(** ** C10: binding is not atomic *)

(** C10. Let the controllers before index [k] bind without error, and let
    the controller at [k] be an instance that lacks metadata (its own, or
    that of one of its methods). Then [useControllers] throws, and the
    application it leaves behind is the one reached after binding the first
    [k] controllers: their [k] mounts, routes included, are in place, and
    nothing of the controller at [k] is. *)
Theorem useControllers_not_atomic container controllers k c l w w1 :
  useControllers container (take k controllers) w = (Ok tt, w1) ->
  controllers !! k = Some c ->
  resolveController container c w = (Ok (VRef l), w) ->
  lacks_metadata (w_store w) l ->
  exists e mounts,
    useControllers container controllers w = (Throw e, w1) /\
    w_app w1 = w_app w ++ mounts /\
    length mounts = k /\
    Forall2 (controller_mount container (w_store w)) (take k controllers) mounts.
Proof.
  intros Hpre Hk Hinst Hl.
  apply reader_runs in Hinst; [|auto with reader].
  destruct (bindController_lacks_metadata container _ k c l Hinst Hl) as [e He].
  destruct (useControllers_prefix _ _ _ _ _ _ Hpre Hk)
    as (mounts & Hm & Hw1 & _ & Hlen).
  exists e, mounts. split; [by apply (useControllers_stops _ _ k c)|].
  apply useControllers_from_Ok_inv in Hm.
  split; [by rewrite Hw1|]. split; [|done].
  by rewrite <- (Forall2_length _ _ _ Hm).
Qed.

Lemma useControllers_not_atomic_witness :
  exists e mounts,
    useControllers None [VRef Sample.example; VRef Sample.plain] Sample.start =
      (Throw e,
       snd (useControllers None [VRef Sample.example] Sample.start)) /\
    w_app (snd (useControllers None [VRef Sample.example] Sample.start)) =
      w_app Sample.start ++ mounts /\
    length mounts = 1 /\
    Forall2 (controller_mount None Sample.st) [VRef Sample.example] mounts.
Proof.
  apply (useControllers_not_atomic None
           [VRef Sample.example; VRef Sample.plain] 1 (VRef Sample.plain)
           Sample.plain Sample.start).
  - vm_compute. reflexivity.
  - reflexivity.
  - vm_compute. reflexivity.
  - right. exists Sample.PlainController_prototype, "helper".
    split; [vm_compute; reflexivity|].
    split; [|vm_compute; reflexivity].
    apply list_elem_of_In. vm_compute. tauto.
Defined.

(** ** C5: a controller without valid metadata is not skipped *)

(** C5. Let the controller at index [k] be an instance (given as such or
    obtained from the container) whose controller metadata is missing or
    does not pass the guard. Then, wherever [k] lies, binding fails; and
    when the controllers before [k] have bound, the error is the one for
    invalid controller metadata at index [k], a [MissingMetadata] error,
    raised before anything of that controller is registered. *)
Theorem missing_controller_metadata_fails container controllers k c l w :
  controllers !! k = Some c ->
  resolveController container c w = (Ok (VRef l), w) ->
  isControllerMetadata (w_store w)
    (metadata_of (w_store w) "malmajs:controller" l None) = false ->
  (exists e, fst (useControllers container controllers w) = Throw e) /\
  (forall w1,
     useControllers container (take k controllers) w = (Ok tt, w1) ->
     useControllers container controllers w =
       (Throw (InvalidControllerMetadata k), w1)) /\
  kind_of_error (InvalidControllerMetadata k) = MissingMetadata.
Proof.
  intros Hk Hinst Hmd%isControllerMetadata_false.
  apply reader_runs in Hinst; [|auto with reader].
  pose proof (bindController_invalid container _ k c l Hinst Hmd) as Hc.
  split; [|split; [|done]].
  - destruct (useControllers container controllers w) as [r w'] eqn:H.
    apply appender_run in H as (d & Hd & _); [|apply appender_useControllers].
    simpl.
    apply (useControllers_from_fails container (w_store w) controllers 0 k c r d Hk);
      [|done].
    intros d' H'. simpl in H'. by destruct (runs_det _ _ _ _ _ _ Hc H').
  - intros w1 Hpre. by apply (useControllers_stops _ _ k c).
Qed.

Lemma missing_controller_metadata_fails_witness :
  (exists e,
     fst (useControllers None [VRef Sample.example; VRef Sample.unannotated]
            Sample.start) = Throw e) /\
  (forall w1,
     useControllers None
       (take 1 [VRef Sample.example; VRef Sample.unannotated]) Sample.start =
       (Ok tt, w1) ->
     useControllers None [VRef Sample.example; VRef Sample.unannotated]
       Sample.start = (Throw (InvalidControllerMetadata 1), w1)) /\
  kind_of_error (InvalidControllerMetadata 1) = MissingMetadata.
Proof.
  apply (missing_controller_metadata_fails None
           [VRef Sample.example; VRef Sample.unannotated] 1
           (VRef Sample.unannotated) Sample.unannotated Sample.start).
  - reflexivity.
  - vm_compute. reflexivity.
  - vm_compute. reflexivity.
Defined.

(** ** Methods without metadata *)

Lemma is_method_intro s p name d :
  name <> "constructor" ->
  getOwnPropertyDescriptor s p name = Some d ->
  typeof s (descriptor_value d) = TFunction ->
  is_method s p name = true.
Proof.
  intros Hn Hd Ht. unfold is_method. rewrite Hd, Ht.
  apply String.eqb_neq in Hn. by rewrite Hn.
Qed.

Lemma is_method_not_function s p name d :
  getOwnPropertyDescriptor s p name = Some d ->
  typeof s (descriptor_value d) <> TFunction ->
  is_method s p name = false.
Proof.
  intros Hd Ht. unfold is_method. rewrite Hd.
  rewrite bool_decide_eq_false_2 by done. apply andb_false_r.
Qed.

Lemma elem_of_methods s p name :
  name ∈ methods s p <-> name ∈ own_names s p /\ is_method s p name = true.
Proof. unfold methods. by rewrite !list_elem_of_In, List.filter_In. Qed.

Lemma useControllers_unannotated container controllers k c l p name w :
  controllers !! k = Some c ->
  resolveController container c w = (Ok (VRef l), w) ->
  prototype_of (w_store w) l = VRef p ->
  name ∈ methods (w_store w) p ->
  asHandlerMetadata (w_store w)
    (metadata_of (w_store w) "malmajs:handler" l (Some name)) = None ->
  exists e, fst (useControllers container controllers w) = Throw e.
Proof.
  intros Hk Hinst Hp Hin Hmd.
  apply reader_runs in Hinst; [|auto with reader].
  destruct (useControllers container controllers w) as [r w'] eqn:H.
  apply appender_run in H as (d & Hd & _); [|apply appender_useControllers].
  simpl.
  apply (useControllers_from_fails container (w_store w) controllers 0 k c r d Hk);
    [|done].
  intros d'. simpl. by apply (bindController_unannotated _ _ _ _ l p name).
Qed.

(** ** C3: a method without route metadata *)

(** C3, as stated, fails. [PlainController] has valid controller metadata,
    an annotated method [list] and a plain method [helper]; binding
    its instance raises the error for [helper] instead of passing over it. *)
Lemma unannotated_method_not_skipped :
  "helper" ∈ methods Sample.st Sample.PlainController_prototype /\
  metadata_of Sample.st "malmajs:handler" Sample.plain (Some "helper") = VUndefined /\
  useControllers None [VRef Sample.plain] Sample.start =
    (Throw (InvalidMethodMetadata "helper" 0), Sample.start) /\
  fst (useControllers None [VRef Sample.plain] Sample.start) <> Ok tt.
Proof.
  split; [apply list_elem_of_In; vm_compute; tauto|].
  split; [vm_compute; reflexivity|].
  split; [vm_compute; reflexivity|].
  vm_compute. discriminate.
Qed.

(** C3, amended. For every own method of a controller's prototype
    (constructor excluded) that carries no valid route metadata, the loop
    body does not pass over the method: it throws the error naming the
    method and the controller's index. Binding that controller throws, and
    it registers nothing: no route for the method, no mount for the
    controller. *)
Theorem unannotated_method_throws container w index c l p name :
  resolveController container c w = (Ok (VRef l), w) ->
  prototype_of (w_store w) l = VRef p ->
  name ∈ methods (w_store w) p ->
  isHandlerMetadata (w_store w)
    (metadata_of (w_store w) "malmajs:handler" l (Some name)) = false ->
  (forall r,
     bindProperty container index (VRef l) (VRef p) r name w =
       (Throw (InvalidMethodMetadata name index), w)) /\
  (exists e, bindController container index c w = (Throw e, w)).
Proof.
  intros Hinst Hp Hin Hmd%isHandlerMetadata_false.
  apply reader_runs in Hinst; [|auto with reader]. split.
  - intros r. apply runs_reader_at, bindProperty_throws; [|done].
    by apply elem_of_methods in Hin as [_ ?].
  - destruct (bindController_lacks_metadata container (w_store w) index c l Hinst)
      as [e He].
    { right. exists p, name. split; [done|]. split; [done|].
      unfold isHandlerMetadata. rewrite Hmd. apply bool_decide_eq_false_2.
      by intros [? ?]. }
    exists e. by apply runs_reader_at.
Qed.

Lemma unannotated_method_throws_witness :
  (forall r,
     bindProperty None 0 (VRef Sample.plain)
       (VRef Sample.PlainController_prototype) r "helper" Sample.start =
       (Throw (InvalidMethodMetadata "helper" 0), Sample.start)) /\
  (exists e, bindController None 0 (VRef Sample.plain) Sample.start =
               (Throw e, Sample.start)).
Proof.
  apply (unannotated_method_throws None Sample.start 0 (VRef Sample.plain)
           Sample.plain Sample.PlainController_prototype "helper").
  - vm_compute. reflexivity.
  - vm_compute. reflexivity.
  - apply list_elem_of_In. vm_compute. tauto.
  - vm_compute. reflexivity.
Defined.

(** ** C4: properties are passed over, methods must be annotated *)

(** C4. For an own property of the prototype other than [constructor]:
    when its value is not a function, the loop body leaves the router as it
    is and raises nothing; when its value is a function without valid route
    metadata, the loop body throws, and so does the binder for every
    collection that holds the controller. *)
Theorem skip_properties_fail_methods container w index l p name d r :
  name ∈ own_names (w_store w) p ->
  name <> "constructor" ->
  getOwnPropertyDescriptor (w_store w) p name = Some d ->
  (typeof (w_store w) (descriptor_value d) <> TFunction ->
   bindProperty container index (VRef l) (VRef p) r name w = (Ok r, w)) /\
  (typeof (w_store w) (descriptor_value d) = TFunction ->
   isHandlerMetadata (w_store w)
     (metadata_of (w_store w) "malmajs:handler" l (Some name)) = false ->
   bindProperty container index (VRef l) (VRef p) r name w =
     (Throw (InvalidMethodMetadata name index), w) /\
   forall controllers k c,
     controllers !! k = Some c ->
     resolveController container c w = (Ok (VRef l), w) ->
     prototype_of (w_store w) l = VRef p ->
     exists e, fst (useControllers container controllers w) = Throw e).
Proof.
  intros Hin Hn Hd. split.
  - intros Ht. apply runs_reader_at, bindProperty_skip.
    by apply (is_method_not_function _ _ _ d).
  - intros Ht Hmd%isHandlerMetadata_false.
    pose proof (is_method_intro _ _ _ _ Hn Hd Ht) as Hm. split.
    + by apply runs_reader_at, bindProperty_throws.
    + intros controllers k c Hk Hinst Hp.
      apply (useControllers_unannotated _ _ k c l p name); try done.
      by apply elem_of_methods.
Qed.

Lemma skip_properties_fail_methods_witness :
  bindProperty None 0 (VRef Sample.plain)
    (VRef Sample.PlainController_prototype) [] "version" Sample.start =
    (Ok [], Sample.start) /\
  bindProperty None 0 (VRef Sample.plain)
    (VRef Sample.PlainController_prototype) [] "helper" Sample.start =
    (Throw (InvalidMethodMetadata "helper" 0), Sample.start) /\
  exists e, fst (useControllers None [VRef Sample.example; VRef Sample.plain]
                   Sample.start) = Throw e.
Proof.
  split.
  - apply (skip_properties_fail_methods None Sample.start 0 Sample.plain
             Sample.PlainController_prototype "version" (DData (VNumber 1)) []).
    + apply list_elem_of_In. vm_compute. tauto.
    + discriminate.
    + vm_compute. reflexivity.
    + vm_compute. discriminate.
  - destruct (skip_properties_fail_methods None Sample.start 0 Sample.plain
                Sample.PlainController_prototype "helper"
                (DData (VRef Sample.PlainController_helper)) []) as [_ H].
    + apply list_elem_of_In. vm_compute. tauto.
    + discriminate.
    + vm_compute. reflexivity.
    + destruct H as [H1 H2].
      * vm_compute. reflexivity.
      * vm_compute. reflexivity.
      * split; [exact H1|].
        apply (H2 [VRef Sample.example; VRef Sample.plain] 1 (VRef Sample.plain)).
        -- reflexivity.
        -- vm_compute. reflexivity.
        -- vm_compute. reflexivity.
Defined.

(** ** Successful binding *)

Lemma mapM_Ok_inv {A B} (f : A -> M B) l s bs :
  (forall a, reader (f a)) ->
  runs (mapM f l) s (Ok bs) [] ->
  Forall2 (fun a b => runs (f a) s (Ok b) []) l bs.
Proof.
  intros Hf. revert bs. induction l as [|a l IH]; intros bs H; simpl in H.
  - apply runs_det with (r := Ok []) (d := []) in H as [[= <-] _];
      [constructor|apply runs_ret].
  - inv_bind H as b Hb. inv_bind H as bs' Hbs.
    apply runs_det with (r := Ok (b :: bs')) (d := []) in H as [[= <-] _];
      [|apply runs_ret].
    constructor; [done|]. by apply IH.
Qed.

Lemma transformMiddlewares_Ok_inv container middlewares s handlers w :
  w_store w = s ->
  runs (transformMiddlewares container middlewares) s (Ok handlers) [] ->
  Forall2 (fun m h => transformMiddleware container m w = (Ok h, w))
          middlewares handlers.
Proof.
  intros <- H. apply mapM_Ok_inv in H; [|auto with reader].
  eapply Forall2_impl; [exact H|]. intros m h Hm. by apply runs_reader_at.
Qed.

Lemma useControllers_Ok_inv container controllers w w' :
  useControllers container controllers w = (Ok tt, w') ->
  exists mounts,
    w' = {| w_store := w_store w; w_app := w_app w ++ mounts |} /\
    Forall2 (controller_mount container (w_store w)) controllers mounts.
Proof.
  intros H.
  apply appender_run in H as (d & Hd & ->); [|apply appender_useControllers].
  exists d. split; [done|]. by apply useControllers_from_Ok_inv in Hd.
Qed.

(** ** C1: where a method is registered, and behind which handlers *)

(** C1. Let binding complete. For the controller at index [k], an instance
    [l] whose controller metadata has base path [cm_path cm] and middleware
    [cm_middlewares cm], and for its [i]-th method [name], whose route
    metadata has verb [verb], path [hm_path hm] and middleware
    [hm_middlewares hm]: the [k]-th entry the run appended mounts, at the
    base path and behind the controller's middleware, each resolved to its
    handler in order, a router whose [i]-th route is registered for [verb] at
    the route's path with the route's middleware, each resolved in order,
    followed by the method bound to the instance. In the binding result
    this is the tuple (verb, base path + route path, controller handlers ++
    route handlers ++ [bound method]). *)
Theorem handler_chain container controllers w w' k c l cm p i name d hm verb :
  useControllers container controllers w = (Ok tt, w') ->
  controllers !! k = Some c ->
  resolveController container c w = (Ok (VRef l), w) ->
  asControllerMetadata (w_store w)
    (metadata_of (w_store w) "malmajs:controller" l None) = Some cm ->
  prototype_of (w_store w) l = VRef p ->
  methods (w_store w) p !! i = Some name ->
  getOwnPropertyDescriptor (w_store w) p name = Some d ->
  asHandlerMetadata (w_store w)
    (metadata_of (w_store w) "malmajs:handler" l (Some name)) = Some hm ->
  HandlerMethod_of_string (hm_method hm) = Some verb ->
  exists mounts mount_handlers route_handlers routes,
    w_app w' = w_app w ++ mounts /\
    Forall2 (fun m h => transformMiddleware container m w = (Ok h, w))
            (cm_middlewares cm) mount_handlers /\
    Forall2 (fun m h => transformMiddleware container m w = (Ok h, w))
            (hm_middlewares hm) route_handlers /\
    mounts !! k = Some (Mount (cm_path cm) mount_handlers routes) /\
    routes !! i =
      Some {| r_method := verb; r_path := hm_path hm;
              r_handlers := route_handlers ++
                            [HBound (descriptor_value d) (VRef l)] |} /\
    (verb, String.append (cm_path cm) (hm_path hm),
     mount_handlers ++ route_handlers ++ [HBound (descriptor_value d) (VRef l)])
      ∈ binding_result mounts.
Proof.
  intros H Hk Hinst Hcm Hp Hi Hd Hhm Hv.
  apply reader_runs in Hinst; [|auto with reader].
  apply useControllers_Ok_inv in H as (mounts & -> & HF).
  destruct (Forall2_lookup_l _ _ _ k c HF Hk) as (m & Hm & Hc).
  destruct Hc as (l' & cm' & p' & routes & hs & Hinst' & Hcm' & Hp' & HR & Hhs & ->).
  destruct (runs_det _ _ _ _ _ _ Hinst Hinst') as [[= <-] _].
  rewrite Hcm in Hcm'. injection Hcm' as <-.
  rewrite Hp in Hp'. injection Hp' as <-.
  destruct (Forall2_lookup_l _ _ _ i name HR Hi) as (rt & Hrt & Hroute).
  destruct Hroute as (d' & l' & hm' & hs' & verb' & [= <-] & Hd' & Hhm' & Hhs' & Hv' & ->).
  rewrite Hd in Hd'. injection Hd' as <-.
  rewrite Hhm in Hhm'. injection Hhm' as <-.
  rewrite Hv in Hv'. injection Hv' as <-.
  exists mounts, hs, hs', routes. simpl.
  split; [done|].
  split; [by apply (transformMiddlewares_Ok_inv _ _ (w_store w))|].
  split; [by apply (transformMiddlewares_Ok_inv _ _ (w_store w))|].
  split; [done|]. split; [done|].
  apply list_elem_of_In, in_flat_map.
  exists (Mount (cm_path cm) hs routes). split.
  - by apply list_elem_of_In, list_elem_of_lookup_2 with k.
  - apply in_map_iff. eexists. split; [|by eapply list_elem_of_In, list_elem_of_lookup_2].
    done.
Qed.

Lemma handler_chain_witness :
  let w := Sample.start in
  let w' := snd (useControllers None [VRef Sample.example] Sample.start) in
  let method := HBound (VRef Sample.ExampleController_index) (VRef Sample.example) in
  exists mounts mount_handlers route_handlers routes,
    w_app w' = w_app w ++ mounts /\
    Forall2 (fun m h => transformMiddleware None m w = (Ok h, w))
            [VRef Sample.arrowA; VRef Sample.arrowB] mount_handlers /\
    Forall2 (fun m h => transformMiddleware None m w = (Ok h, w))
            [VRef Sample.logger] route_handlers /\
    mounts !! 0 = Some (Mount "/example" mount_handlers routes) /\
    routes !! 0 =
      Some {| r_method := HMget; r_path := "";
              r_handlers := route_handlers ++ [method] |} /\
    (HMget, String.append "/example" "",
     mount_handlers ++ route_handlers ++ [method]) ∈ binding_result mounts.
Proof.
  intros w w' method.
  apply (handler_chain None [VRef Sample.example] w w' 0 (VRef Sample.example)
           Sample.example
           {| cm_path := "/example";
              cm_middlewares := [VRef Sample.arrowA; VRef Sample.arrowB] |}
           Sample.ExampleController_prototype 0 "index"
           (DData (VRef Sample.ExampleController_index))
           {| hm_method := "get"; hm_path := "";
              hm_middlewares := [VRef Sample.logger] |}
           HMget); vm_compute; reflexivity.
Defined.

(** ** C2: how many registrations, and in which order *)

(** C2. When binding completes, the application has gained exactly one
    mount per controller, in the order of the controllers; and the router
    of each mount holds exactly one route per method of the controller's
    prototype, in the order of the prototype's own property names: the
    route at each position ends in the method at that position, bound to
    the instance, and that method carries valid route metadata. *)
Theorem registrations_in_order container controllers w w' :
  useControllers container controllers w = (Ok tt, w') ->
  exists mounts,
    w' = {| w_store := w_store w; w_app := w_app w ++ mounts |} /\
    length mounts = length controllers /\
    Forall2
      (fun c m =>
         exists l p path handlers routes,
           resolveController container c w = (Ok (VRef l), w) /\
           prototype_of (w_store w) l = VRef p /\
           m = Mount path handlers routes /\
           length routes = length (methods (w_store w) p) /\
           Forall2
             (fun name rt =>
                exists d,
                  getOwnPropertyDescriptor (w_store w) p name = Some d /\
                  isHandlerMetadata (w_store w)
                    (metadata_of (w_store w) "malmajs:handler" l (Some name))
                    = true /\
                  last (r_handlers rt) =
                    Some (HBound (descriptor_value d) (VRef l)))
             (methods (w_store w) p) routes)
      controllers mounts.
Proof.
  intros H. apply useControllers_Ok_inv in H as (mounts & -> & HF).
  exists mounts. split; [done|].
  split; [by rewrite (Forall2_length _ _ _ HF)|].
  eapply Forall2_impl; [exact HF|]. clear HF. intros c m Hc.
  destruct Hc as (l & cm & p & routes & hs & Hinst & _ & Hp & HR & _ & ->).
  exists l, p, (cm_path cm), hs, routes.
  split; [by apply runs_reader_at|]. split; [done|]. split; [done|].
  split; [by rewrite (Forall2_length _ _ _ HR)|].
  eapply Forall2_impl; [exact HR|]. intros name rt Hrt.
  destruct Hrt as (d & l' & hm & hs' & verb & [= <-] & Hd & Hhm & _ & _ & ->).
  exists d. split; [done|]. split.
  - unfold isHandlerMetadata. rewrite Hhm. by apply bool_decide_eq_true_2.
  - simpl. apply last_snoc.
Qed.

Lemma registrations_in_order_witness :
  exists mounts,
    snd (useControllers (Some Sample.resolver)
           [VRef Sample.ExampleController; VRef Sample.guarded] Sample.start) =
      {| w_store := Sample.st; w_app := [] ++ mounts |} /\
    length mounts = 2.
Proof.
  destruct (registrations_in_order (Some Sample.resolver)
              [VRef Sample.ExampleController; VRef Sample.guarded] Sample.start
              (snd (useControllers (Some Sample.resolver)
                      [VRef Sample.ExampleController; VRef Sample.guarded]
                      Sample.start)))
    as (mounts & Hm & Hlen & _).
  - vm_compute. reflexivity.
  - exists mounts. split; [exact Hm|exact Hlen].
Defined.

(** ** Middleware references, one at a time *)

Section transformMiddleware.

Variable container : option Container.
Variable s : store.

(** A function that [isConstructor] rejects is handed on as it is. *)
Lemma transformMiddleware_function m :
  typeof s m = TFunction ->
  isConstructor s m = false ->
  runs (transformMiddleware container m) s (Ok (HFunction m)) [].
Proof.
  intros Ht Hc. unfold transformMiddleware.
  eapply (runs_bind_Ok _ _ s _ []); [apply runs_reads|]. simpl. rewrite Hc.
  eapply (runs_bind_Ok _ _ s _ []); [apply runs_reads|]. simpl. rewrite Ht.
  apply runs_ret.
Qed.

Lemma isConstructor_function m : isConstructor s m = true -> typeof s m = TFunction.
Proof.
  unfold isConstructor. intros H.
  apply andb_true_iff in H as [H _]. apply andb_true_iff in H as [H _].
  by apply bool_decide_eq_true in H.
Qed.

Lemma not_function_not_constructor m :
  typeof s m <> TFunction -> isConstructor s m = false.
Proof.
  intros Ht. destruct (isConstructor s m) eqn:H; [|done].
  by apply isConstructor_function in H.
Qed.

(** [x.handle.bind(x)] *)
Lemma bound_handle x :
  x <> VUndefined -> x <> VNull ->
  typeof s (prop s x "handle") = TFunction ->
  runs (let! handle := member x "handle" in bind_this handle x) s
       (Ok (HBound (prop s x "handle") x)) [].
Proof.
  intros Hu Hn Hh.
  eapply (runs_bind_Ok _ _ s (prop s x "handle") []).
  - destruct x; try done;
      exact (runs_reads (fun s' => prop s' _ "handle") s).
  - unfold bind_this.
    eapply (runs_bind_Ok _ _ s _ []); [apply runs_reads|]. simpl. rewrite Hh.
    apply runs_ret.
Qed.

(** A middleware object is registered as its [handle], bound to itself. *)
Lemma transformMiddleware_object m :
  typeof s m = TObject -> m <> VNull ->
  typeof s (prop s m "handle") = TFunction ->
  runs (transformMiddleware container m) s
       (Ok (HBound (prop s m "handle") m)) [].
Proof.
  intros Ht Hn Hh. unfold transformMiddleware.
  eapply (runs_bind_Ok _ _ s _ []); [apply runs_reads|]. simpl.
  rewrite not_function_not_constructor by (by rewrite Ht).
  eapply (runs_bind_Ok _ _ s _ []); [apply runs_reads|]. simpl. rewrite Ht.
  apply bound_handle; [|done..]. by intros ->.
Qed.

(** What [isConstructor] accepts goes to the container. *)
Lemma transformMiddleware_class ct m x :
  container = Some ct ->
  isConstructor s m = true ->
  Container_get ct m = Ok x ->
  x <> VUndefined -> x <> VNull ->
  typeof s (prop s x "handle") = TFunction ->
  runs (transformMiddleware container m) s
       (Ok (HBound (prop s x "handle") x)) [].
Proof.
  intros -> Hc Hx Hu Hn Hh. unfold transformMiddleware.
  eapply (runs_bind_Ok _ _ s _ []); [apply runs_reads|]. simpl. rewrite Hc.
  eapply (runs_bind_Ok _ _ s x []); [rewrite Hx; apply runs_lift|].
  by apply bound_handle.
Qed.

End transformMiddleware.

Lemma transformMiddleware_no_container s m :
  isConstructor s m = true ->
  runs (transformMiddleware None m) s (Throw MiddlewareNeedsContainer) [].
Proof.
  intros Hc. unfold transformMiddleware.
  eapply (runs_bind_Ok _ _ s _ []); [apply runs_reads|]. simpl. rewrite Hc.
  apply runs_throw.
Qed.

Lemma mapM_app_Throw {A B} (f : A -> M B) pre a post s bs e :
  (forall x, reader (f x)) ->
  runs (mapM f pre) s (Ok bs) [] ->
  runs (f a) s (Throw e) [] ->
  runs (mapM f (pre ++ a :: post)) s (Throw e) [].
Proof.
  intros Hf. revert bs. induction pre as [|x pre IH]; intros bs H Ha; simpl.
  - by apply runs_bind_Throw.
  - simpl in H. inv_bind H as b Hb. inv_bind H as bs' Hbs.
    eapply (runs_bind_Ok _ _ s b []); [done|].
    apply runs_bind_Throw. by apply (IH bs').
Qed.

Lemma mapM_elem_Throw {A B} (f : A -> M B) l a s e r :
  (forall x, reader (f x)) ->
  a ∈ l ->
  runs (f a) s (Throw e) [] ->
  runs (mapM f l) s r [] ->
  exists e', r = Throw e'.
Proof.
  intros Hf Hin Ha H. destruct r as [bs|e']; [|by exists e']. exfalso.
  apply mapM_Ok_inv in H; [|done].
  apply list_elem_of_lookup in Hin as [i Hi].
  destruct (Forall2_lookup_l _ _ _ i a H Hi) as (b & _ & Hb).
  by destruct (runs_det _ _ _ _ _ _ Ha Hb).
Qed.

Lemma mapM_Ok {A B} (f : A -> M B) l s :
  Forall (fun a => exists b, runs (f a) s (Ok b) []) l ->
  exists bs, runs (mapM f l) s (Ok bs) [].
Proof.
  induction 1 as [|a l [b Hb] _ [bs Hbs]]; simpl.
  - exists []. apply runs_ret.
  - exists (b :: bs).
    eapply (runs_bind_Ok _ _ s b []); [done|].
    eapply (runs_bind_Ok _ _ s bs []); [done|]. apply runs_ret.
Qed.

Lemma Forall_Forall2_exists {A B} (R : A -> B -> Prop) l :
  Forall (fun a => exists b, R a b) l -> exists bs, Forall2 R l bs.
Proof.
  induction 1 as [|a l [b Hb] _ [bs Hbs]].
  - by exists [].
  - exists (b :: bs). by constructor.
Qed.

(** ** C7: handler functions and middleware objects *)

(** A function that passes [isConstructor] is never registered as it is:
    without a container the transformation throws, with one the handler is
    whatever the container returned for it. *)
Lemma constructor_shaped_function_not_kept container m w :
  isConstructor (w_store w) m = true ->
  fst (transformMiddleware container m w) <> Ok (HFunction m).
Proof.
  intros Hc. unfold transformMiddleware, bind, reads. simpl. rewrite Hc.
  destruct container as [ct|]; [|done]. unfold lift.
  destruct (Container_get ct m) as [x|e]; [|done]. simpl.
  unfold member. destruct x; try done; unfold reads; simpl;
    unfold bind_this, bind, reads; simpl;
    match goal with |- context [typeof ?s ?v] => destruct (typeof s v) end;
    done.
Qed.

(** C7 at the function [jsonParser], declared with [function], as the
    parser that [express.json()] returns is: it has a [prototype] whose
    [constructor] it is, so [isConstructor] takes it for a class. With no
    container the transformation throws the missing-container error; the
    claim has the function registered unchanged. Arrow functions and
    middleware objects are treated as the claim says
    ([transformMiddleware_function], [transformMiddleware_object]). *)
Theorem plain_function_taken_for_class :
  typeof Sample.st (VRef Sample.jsonParser) = TFunction /\
  isConstructor Sample.st (VRef Sample.jsonParser) = true /\
  transformMiddlewares None [VRef Sample.jsonParser] Sample.start =
    (Throw MiddlewareNeedsContainer, Sample.start) /\
  fst (transformMiddlewares (Some Sample.resolver) [VRef Sample.jsonParser]
         Sample.start) <> Ok [HFunction (VRef Sample.jsonParser)] /\
  transformMiddlewares None [VRef Sample.arrowA; VRef Sample.logger] Sample.start =
    (Ok [HFunction (VRef Sample.arrowA);
         HBound (VRef Sample.LoggerMiddleware_handle) (VRef Sample.logger)],
     Sample.start).
Proof.
  split; [vm_compute; reflexivity|].
  split; [vm_compute; reflexivity|].
  split; [vm_compute; reflexivity|].
  split; [vm_compute; discriminate|].
  vm_compute; reflexivity.
Qed.

(** ** C6: class references and the container *)

Lemma has_handle_bound s x :
  has_handle s x = true ->
  runs (let! handle := member x "handle" in bind_this handle x) s
       (Ok (HBound (prop s x "handle") x)) [].
Proof.
  intros H. apply bound_handle.
  - by intros ->.
  - by intros ->.
  - destruct x; try done; by apply bool_decide_eq_true in H.
Qed.

Lemma transformMiddleware_valid container s m :
  valid_middleware container s m = true ->
  exists h, runs (transformMiddleware container m) s (Ok h) [].
Proof.
  unfold valid_middleware. intros H.
  destruct (isConstructor s m) eqn:Hc.
  - destruct container as [ct|]; [|done].
    destruct (Container_get ct m) as [x|] eqn:Hx; [|done].
    eexists. unfold transformMiddleware.
    eapply (runs_bind_Ok _ _ s _ []); [apply runs_reads|]. simpl. rewrite Hc.
    eapply (runs_bind_Ok _ _ s x []); [rewrite Hx; apply runs_lift|].
    by apply has_handle_bound.
  - destruct (decide (typeof s m = TFunction)) as [Ht|Ht].
    + eexists. by apply transformMiddleware_function.
    + rewrite bool_decide_eq_false_2 in H by done. simpl in H.
      eexists. unfold transformMiddleware.
      eapply (runs_bind_Ok _ _ s _ []); [apply runs_reads|]. simpl. rewrite Hc.
      eapply (runs_bind_Ok _ _ s _ []); [apply runs_reads|]. simpl.
      destruct (typeof s m); try done; by apply has_handle_bound.
Qed.

Lemma transformMiddlewares_valid container s middlewares :
  forallb (valid_middleware container s) middlewares = true ->
  exists hs, runs (transformMiddlewares container middlewares) s (Ok hs) [].
Proof.
  intros H. apply mapM_Ok, Forall_forall. intros m Hm.
  apply transformMiddleware_valid.
  rewrite forallb_forall in H. by apply H, list_elem_of_In.
Qed.

Lemma method_route_valid container s l p name :
  is_method s p name = true ->
  valid_method container s l name = true ->
  exists rt, method_route container s (VRef l) p name rt.
Proof.
  unfold is_method, valid_method. intros Hm Hv.
  apply andb_true_iff in Hm as [_ Hm].
  destruct (getOwnPropertyDescriptor s p name) as [d|] eqn:Hd; [|done].
  destruct (asHandlerMetadata s _) as [hm|] eqn:Hhm; [|done].
  apply andb_true_iff in Hv as [[verb Hverb]%bool_decide_eq_true Hmw].
  destruct (transformMiddlewares_valid _ _ _ Hmw) as [hs Hhs].
  eexists. by exists d, l, hm, hs, verb.
Qed.

Lemma controller_mount_valid container s c l :
  runs (resolveController container c) s (Ok (VRef l)) [] ->
  validly_annotated container s l = true ->
  exists m, controller_mount container s c m.
Proof.
  unfold validly_annotated. intros Hinst Hv.
  destruct (asControllerMetadata s _) as [cm|] eqn:Hcm; [|done].
  destruct (prototype_of s l) as [| | | | |p] eqn:Hp; try done.
  apply andb_true_iff in Hv as [Hmw Hms].
  destruct (transformMiddlewares_valid _ _ _ Hmw) as [hs Hhs].
  destruct (Forall_Forall2_exists (method_route container s (VRef l) p)
              (methods s p)) as [routes HR].
  { apply Forall_forall. intros name Hin.
    apply method_route_valid.
    - by apply elem_of_methods in Hin as [_ ?].
    - rewrite forallb_forall in Hms. by apply Hms, list_elem_of_In. }
  eexists. by exists l, cm, p, routes, hs.
Qed.

Lemma transformMiddlewares_class_no_container s middlewares m r :
  m ∈ middlewares ->
  isConstructor s m = true ->
  runs (transformMiddlewares None middlewares) s r [] ->
  exists e, r = Throw e.
Proof.
  intros Hin Hc H.
  apply (mapM_elem_Throw (transformMiddleware None) middlewares m s
           MiddlewareNeedsContainer); auto with reader.
  by apply transformMiddleware_no_container.
Qed.

Lemma bindController_class_middleware s index c l m d :
  runs (resolveController None c) s (Ok (VRef l)) [] ->
  uses_middleware s l m ->
  isConstructor s m = true ->
  ~ runs (bindController None index c) s (Ok tt) d.
Proof.
  intros Hinst Hu Hc H.
  apply bindController_Ok_inv in H
    as (mt & _ & l' & cm & p & routes & hs & Hinst' & Hcm & Hp & HR & Hhs & _).
  destruct (runs_det _ _ _ _ _ _ Hinst Hinst') as [[= <-] _].
  destruct Hu as [(cm' & Hcm' & Hin)|(p' & name & hm & Hp' & Hin & Hhm & Hm)].
  - rewrite Hcm in Hcm'. injection Hcm' as <-.
    by destruct (transformMiddlewares_class_no_container _ _ _ _ Hin Hc Hhs).
  - rewrite Hp in Hp'. injection Hp' as <-.
    apply list_elem_of_lookup in Hin as [i Hi].
    destruct (Forall2_lookup_l _ _ _ i name HR Hi) as (rt & _ & Hrt).
    destruct Hrt as (d0 & l0 & hm' & hs' & verb & [= <-] & _ & Hhm' & Hhs' & _).
    rewrite Hhm in Hhm'. injection Hhm' as <-.
    by destruct (transformMiddlewares_class_no_container _ _ _ _ Hm Hc Hhs').
Qed.

Lemma bindController_no_container s index c :
  typeof s c = TFunction ->
  runs (bindController None index c) s (Throw ControllerNeedsContainer) [].
Proof.
  intros Ht. unfold bindController. apply runs_bind_Throw.
  unfold resolveController.
  eapply (runs_bind_Ok _ _ s _ []); [apply runs_reads|]. simpl. rewrite Ht.
  apply runs_throw.
Qed.

Lemma bindController_mount_middleware_Throw container s index c l cm p e :
  runs (resolveController container c) s (Ok (VRef l)) [] ->
  asControllerMetadata s (metadata_of s "malmajs:controller" l None) = Some cm ->
  prototype_of s l = VRef p ->
  forallb (valid_method container s l) (methods s p) = true ->
  runs (transformMiddlewares container (cm_middlewares cm)) s (Throw e) [] ->
  runs (bindController container index c) s (Throw e) [].
Proof.
  intros Hinst Hcm Hp Hms Hmw.
  destruct (Forall_Forall2_exists (method_route container s (VRef l) p)
              (methods s p)) as [routes HR].
  { apply Forall_forall. intros name Hin. apply method_route_valid.
    - by apply elem_of_methods in Hin as [_ ?].
    - rewrite forallb_forall in Hms. by apply Hms, list_elem_of_In. }
  unfold bindController.
  eapply (runs_bind_Ok _ _ s _ []); [done|].
  eapply (runs_bind_Ok _ _ s _ []); [apply runs_reads|].
  eapply (runs_bind_Ok _ _ s _ []); [apply runs_reads|].
  simpl. rewrite Hcm.
  eapply (runs_bind_Ok _ _ s _ []); [apply runs_reads|].
  simpl. rewrite Hp.
  eapply (runs_bind_Ok _ _ s _ []); [apply runs_reads|].
  eapply (runs_bind_Ok _ _ s routes []).
  { by apply (foldM_bindProperty_routes container s index l p _ []). }
  by apply runs_bind_Throw.
Qed.

Lemma foldM_app_Throw {A B} (f : B -> A -> M B) pre x post s b b1 e :
  (forall b a, reader (f b a)) ->
  runs (foldM f pre b) s (Ok b1) [] ->
  runs (f b1 x) s (Throw e) [] ->
  runs (foldM f (pre ++ x :: post) b) s (Throw e) [].
Proof.
  intros Hf. revert b. induction pre as [|a pre IH]; intros b H Hx; simpl.
  - destruct (runs_det _ _ _ _ _ _ H (runs_ret b s)) as [[= <-] _].
    by apply runs_bind_Throw.
  - simpl in H. inv_bind H as b' Hb'.
    eapply (runs_bind_Ok _ _ s b' []); [done|]. by apply IH.
Qed.

Lemma bindProperty_middleware_Throw container s index l p r name hm e :
  is_method s p name = true ->
  asHandlerMetadata s (metadata_of s "malmajs:handler" l (Some name)) = Some hm ->
  runs (transformMiddlewares container (hm_middlewares hm)) s (Throw e) [] ->
  runs (bindProperty container index (VRef l) (VRef p) r name) s (Throw e) [].
Proof.
  intros Hm Hhm Hmw a. unfold bindProperty, is_method in *.
  destruct (String.eqb name "constructor"); [done|]. simpl in Hm.
  unfold bind, getOwnPropertyDescriptorM, getMetadata, reads. simpl.
  destruct (getOwnPropertyDescriptor s p name) as [d|] eqn:Hd; [|done].
  apply bool_decide_eq_true in Hm. simpl. rewrite Hm. simpl. rewrite Hhm.
  by rewrite (Hmw a).
Qed.

Lemma methods_routes_valid container s l p names :
  forallb (valid_method container s l) (List.filter (is_method s p) names) = true ->
  exists routes,
    Forall2 (method_route container s (VRef l) p)
            (List.filter (is_method s p) names) routes.
Proof.
  intros Hv. apply Forall_Forall2_exists, Forall_forall. intros name Hin.
  apply method_route_valid.
  - by apply list_elem_of_In, List.filter_In in Hin as [_ ?].
  - rewrite forallb_forall in Hv. by apply Hv, list_elem_of_In.
Qed.

(** A class among the middleware of a route, with no container: once the
    methods before it have yielded their routes, the controller's binding
    throws what transforming that route's middleware throws. *)
Lemma bindController_route_middleware_Throw container s index c l cm p
    names1 name names2 hm e :
  runs (resolveController container c) s (Ok (VRef l)) [] ->
  asControllerMetadata s (metadata_of s "malmajs:controller" l None) = Some cm ->
  prototype_of s l = VRef p ->
  own_names s p = names1 ++ name :: names2 ->
  forallb (valid_method container s l) (List.filter (is_method s p) names1) = true ->
  is_method s p name = true ->
  asHandlerMetadata s (metadata_of s "malmajs:handler" l (Some name)) = Some hm ->
  runs (transformMiddlewares container (hm_middlewares hm)) s (Throw e) [] ->
  runs (bindController container index c) s (Throw e) [].
Proof.
  intros Hinst Hcm Hp Hnames Hv Hm Hhm Hmw.
  destruct (methods_routes_valid _ _ _ _ _ Hv) as [routes HR].
  unfold bindController.
  eapply (runs_bind_Ok _ _ s _ []); [done|].
  eapply (runs_bind_Ok _ _ s _ []); [apply runs_reads|].
  eapply (runs_bind_Ok _ _ s _ []); [apply runs_reads|].
  simpl. rewrite Hcm.
  eapply (runs_bind_Ok _ _ s _ []); [apply runs_reads|].
  simpl. rewrite Hp.
  eapply (runs_bind_Ok _ _ s _ []); [apply runs_reads|].
  apply runs_bind_Throw. rewrite Hnames.
  apply (foldM_app_Throw _ _ _ _ _ _ ([] ++ routes)); [auto with reader| |].
  - by apply foldM_bindProperty_routes.
  - by apply (bindProperty_middleware_Throw _ _ _ _ _ _ _ hm).
Qed.

Lemma routes_accepted compiles container s l p names routes :
  Forall2 (method_route container s (VRef l) p) names routes ->
  forallb
    (fun name =>
       match asHandlerMetadata s (metadata_of s "malmajs:handler" l (Some name)) with
       | Some hm => compiles (hm_path hm)
       | None => true
       end) names = true ->
  forallb (fun rt => compiles (r_path rt)) routes = true.
Proof.
  induction 1 as [|name rt names routes Hrt _ IH]; [done|]. simpl.
  intros [Hn Hns]%andb_true_iff. rewrite (IH Hns), andb_true_r.
  destruct Hrt as (d & l' & hm & hs & verb & [= <-] & _ & Hhm & _ & _ & ->).
  by rewrite Hhm in Hn.
Qed.

(** The mount of an instance whose paths Express compiles is a call Express
    accepts. *)
Lemma controller_mount_accepted compiles container s c l m :
  runs (resolveController container c) s (Ok (VRef l)) [] ->
  controller_mount container s c m ->
  paths_compile compiles s l = true ->
  entry_accepted compiles m = true.
Proof.
  intros Hinst (l' & cm & p & routes & hs & Hinst' & Hcm & Hp & HR & _ & ->).
  destruct (runs_det _ _ _ _ _ _ Hinst Hinst') as [[= <-] _].
  unfold paths_compile. rewrite Hcm, Hp. intros [Hpath Hroutes]%andb_true_iff.
  simpl. rewrite Hpath. simpl.
  by apply (routes_accepted compiles container s l p (methods s p)).
Qed.

Lemma Forall_Forall2_exists_with {A B} (R : A -> B -> Prop) (P : B -> Prop) l :
  Forall (fun a => exists b, R a b /\ P b) l ->
  exists bs, Forall2 R l bs /\ Forall P bs.
Proof.
  induction 1 as [|a l (b & Hb & HP) _ (bs & Hbs & HPs)].
  - exists []. by split.
  - exists (b :: bs). split; by constructor.
Qed.

(** C6. With no container: a controller given as a class makes binding
    fail, with the missing-container error once the controllers before it
    have bound; a middleware given as a class makes the transformation of
    its list throw the missing-container error once the references before
    it have resolved, makes binding fail wherever a controller carries it,
    and makes binding throw that error when it sits in the middleware of a
    controller, or of one of its routes, that is otherwise validly annotated
    up to there and reached. Both errors are [MissingResolver] errors. With
    a container: when every controller resolves to a validly annotated
    instance whose paths are paths Express compiles, binding completes, and
    every call it has made is one Express accepts. *)
Theorem class_references_and_container (compiles : string -> bool) w :
  (forall controllers k c,
     controllers !! k = Some c ->
     typeof (w_store w) c = TFunction ->
     (exists e, fst (useControllers None controllers w) = Throw e) /\
     forall w1,
       useControllers None (take k controllers) w = (Ok tt, w1) ->
       useControllers None controllers w = (Throw ControllerNeedsContainer, w1)) /\
  (forall pre m post hs,
     isConstructor (w_store w) m = true ->
     transformMiddlewares None pre w = (Ok hs, w) ->
     transformMiddlewares None (pre ++ m :: post) w =
       (Throw MiddlewareNeedsContainer, w)) /\
  (forall controllers k c l m,
     controllers !! k = Some c ->
     resolveController None c w = (Ok (VRef l), w) ->
     uses_middleware (w_store w) l m ->
     isConstructor (w_store w) m = true ->
     exists e, fst (useControllers None controllers w) = Throw e) /\
  (forall controllers k c l cm p pre m post w1,
     useControllers None (take k controllers) w = (Ok tt, w1) ->
     controllers !! k = Some c ->
     resolveController None c w = (Ok (VRef l), w) ->
     asControllerMetadata (w_store w)
       (metadata_of (w_store w) "malmajs:controller" l None) = Some cm ->
     prototype_of (w_store w) l = VRef p ->
     forallb (valid_method None (w_store w) l) (methods (w_store w) p) = true ->
     cm_middlewares cm = pre ++ m :: post ->
     forallb (valid_middleware None (w_store w)) pre = true ->
     isConstructor (w_store w) m = true ->
     useControllers None controllers w = (Throw MiddlewareNeedsContainer, w1)) /\
  (forall controllers k c l cm p names1 name names2 hm pre m post w1,
     useControllers None (take k controllers) w = (Ok tt, w1) ->
     controllers !! k = Some c ->
     resolveController None c w = (Ok (VRef l), w) ->
     asControllerMetadata (w_store w)
       (metadata_of (w_store w) "malmajs:controller" l None) = Some cm ->
     prototype_of (w_store w) l = VRef p ->
     own_names (w_store w) p = names1 ++ name :: names2 ->
     forallb (valid_method None (w_store w) l)
             (List.filter (is_method (w_store w) p) names1) = true ->
     is_method (w_store w) p name = true ->
     asHandlerMetadata (w_store w)
       (metadata_of (w_store w) "malmajs:handler" l (Some name)) = Some hm ->
     hm_middlewares hm = pre ++ m :: post ->
     forallb (valid_middleware None (w_store w)) pre = true ->
     isConstructor (w_store w) m = true ->
     useControllers None controllers w = (Throw MiddlewareNeedsContainer, w1)) /\
  kind_of_error ControllerNeedsContainer = MissingResolver /\
  kind_of_error MiddlewareNeedsContainer = MissingResolver /\
  (forall ct controllers,
     Forall (fun c =>
               exists l,
                 resolveController (Some ct) c w = (Ok (VRef l), w) /\
                 validly_annotated (Some ct) (w_store w) l = true /\
                 paths_compile compiles (w_store w) l = true)
            controllers ->
     exists mounts,
       useControllers (Some ct) controllers w =
         (Ok tt, {| w_store := w_store w; w_app := w_app w ++ mounts |}) /\
       length mounts = length controllers /\
       Forall (fun e => entry_accepted compiles e = true) mounts).
Proof.
  split; [|split; [|split; [|split; [|split; [|split; [done|split; [done|]]]]]]].
  - intros controllers k c Hk Ht.
    pose proof (bindController_no_container (w_store w) k c Ht) as Hc. split.
    + destruct (useControllers None controllers w) as [r w'] eqn:Hr.
      apply appender_run in Hr as (d & Hd & _); [|apply appender_useControllers].
      simpl.
      apply (useControllers_from_fails None (w_store w) controllers 0 k c r d Hk);
        [|done].
      intros d' H'. simpl in H'. by destruct (runs_det _ _ _ _ _ _ Hc H').
    + intros w1 Hpre. by apply (useControllers_stops _ _ k c).
  - intros pre m post hs Hc Hpre.
    apply reader_runs in Hpre; [|auto with reader].
    apply runs_reader_at. unfold transformMiddlewares.
    apply (mapM_app_Throw _ _ _ _ _ hs); auto with reader.
    by apply transformMiddleware_no_container.
  - intros controllers k c l m Hk Hinst Hu Hc.
    apply reader_runs in Hinst; [|auto with reader].
    destruct (useControllers None controllers w) as [r w'] eqn:Hr.
    apply appender_run in Hr as (d & Hd & _); [|apply appender_useControllers].
    simpl.
    apply (useControllers_from_fails None (w_store w) controllers 0 k c r d Hk);
      [|done].
    intros d'. simpl. by apply (bindController_class_middleware _ _ _ l m).
  - intros controllers k c l cm p pre m post w1 Hpre Hk Hinst Hcm Hp Hms Hsplit
      Hmw Hc.
    apply reader_runs in Hinst; [|auto with reader].
    apply (useControllers_stops _ _ k c); [done..|].
    apply (bindController_mount_middleware_Throw _ _ _ _ l cm p); try done.
    rewrite Hsplit. unfold transformMiddlewares.
    destruct (transformMiddlewares_valid _ _ _ Hmw) as [hs Hhs].
    apply (mapM_app_Throw _ _ _ _ _ hs); auto with reader.
    by apply transformMiddleware_no_container.
  - intros controllers k c l cm p names1 name names2 hm pre m post w1 Hpre Hk
      Hinst Hcm Hp Hnames Hv Hm Hhm Hsplit Hmw Hc.
    apply reader_runs in Hinst; [|auto with reader].
    apply (useControllers_stops _ _ k c); [done..|].
    apply (bindController_route_middleware_Throw _ _ _ _ l cm p
             names1 name names2 hm); try done.
    rewrite Hsplit. unfold transformMiddlewares.
    destruct (transformMiddlewares_valid _ _ _ Hmw) as [hs Hhs].
    apply (mapM_app_Throw _ _ _ _ _ hs); auto with reader.
    by apply transformMiddleware_no_container.
  - intros ct controllers HF.
    destruct (Forall_Forall2_exists_with
                (controller_mount (Some ct) (w_store w))
                (fun e => entry_accepted compiles e = true) controllers)
      as (mounts & Hm & Hacc).
    { eapply Forall_impl; [exact HF|]. intros c (l & Hinst & Hv & Hpaths).
      apply reader_runs in Hinst; [|auto with reader].
      destruct (controller_mount_valid _ _ _ l Hinst Hv) as [m Hm].
      exists m. split; [done|].
      by apply (controller_mount_accepted compiles (Some ct) (w_store w) c l). }
    exists mounts. split; [|split; [|done]].
    + unfold useControllers. apply (runs_at _ (w_store w)); [|done].
      by apply useControllers_from_Ok.
    + by rewrite (Forall2_length _ _ _ Hm).
Qed.

(** A world in which [PlainController]'s [helper] has been decorated with
    [@Get('/r', [LoggerMiddleware])]: a class among a route's middleware. *)
Lemma class_references_and_container_witness :
  let helper_decorated :=
    snd (Get (Some "/r") (VRef 74%positive)
           (VRef Sample.PlainController_prototype) "helper"
           (DData (VRef Sample.PlainController_helper)) Sample.start) in
  useControllers None [VRef Sample.example; VRef Sample.ExampleController]
    Sample.start =
    (Throw ControllerNeedsContainer,
     snd (useControllers None [VRef Sample.example] Sample.start)) /\
  transformMiddlewares None
    ([VRef Sample.arrowA] ++ VRef Sample.LoggerMiddleware :: []) Sample.start =
    (Throw MiddlewareNeedsContainer, Sample.start) /\
  (exists e, fst (useControllers None [VRef Sample.guarded] Sample.start) = Throw e) /\
  useControllers None [VRef Sample.example; VRef Sample.guarded] Sample.start =
    (Throw MiddlewareNeedsContainer,
     snd (useControllers None [VRef Sample.example] Sample.start)) /\
  useControllers None [VRef Sample.example; VRef Sample.plain] helper_decorated =
    (Throw MiddlewareNeedsContainer,
     snd (useControllers None [VRef Sample.example] helper_decorated)) /\
  exists mounts,
    useControllers (Some Sample.resolver)
      [VRef Sample.ExampleController; VRef Sample.guarded] Sample.start =
      (Ok tt, {| w_store := w_store Sample.start;
                 w_app := w_app Sample.start ++ mounts |}) /\
    length mounts = 2 /\
    Forall (fun e => entry_accepted plain_path e = true) mounts.
Proof.
  intros helper_decorated.
  destruct (class_references_and_container plain_path Sample.start)
    as (Ha & Hb & Hc & Hd & _ & _ & _ & He).
  destruct (class_references_and_container plain_path helper_decorated)
    as (_ & _ & _ & _ & Hr & _).
  split; [|split; [|split; [|split; [|split]]]].
  - apply (Ha _ 1 (VRef Sample.ExampleController)); vm_compute; reflexivity.
  - apply (Hb _ _ _ [HFunction (VRef Sample.arrowA)]); vm_compute; reflexivity.
  - apply (Hc _ 0 (VRef Sample.guarded) Sample.guarded (VRef Sample.LoggerMiddleware)).
    + reflexivity.
    + vm_compute. reflexivity.
    + left. eexists. split; [vm_compute; reflexivity|].
      apply list_elem_of_In. simpl. tauto.
    + vm_compute. reflexivity.
  - apply (Hd _ 1 (VRef Sample.guarded) Sample.guarded
             {| cm_path := "/guarded";
                cm_middlewares := [VRef Sample.LoggerMiddleware] |}
             Sample.GuardedController_prototype [] (VRef Sample.LoggerMiddleware) []);
      vm_compute; reflexivity.
  - apply (Hr _ 1 (VRef Sample.plain) Sample.plain
             {| cm_path := "/plain"; cm_middlewares := [] |}
             Sample.PlainController_prototype
             ["constructor"; "version"; "list"] "helper" []
             {| hm_method := "get"; hm_path := "/r";
                hm_middlewares := [VRef Sample.LoggerMiddleware] |}
             [] (VRef Sample.LoggerMiddleware) []);
      vm_compute; reflexivity.
  - apply He. repeat constructor.
    + exists Sample.example. repeat split; vm_compute; reflexivity.
    + exists Sample.guarded. repeat split; vm_compute; reflexivity.
Defined.

(** * Further properties of the code *)

(** ** Middleware lists *)

(** X12. Transforming a list in two pieces. The transformation of
    [a ++ b] is that of [a] followed by that of [b]: it completes with the
    handlers of [a] followed by those of [b] when both complete, and
    otherwise throws the first error met, that of [a] if [a] fails. *)
Theorem transformMiddlewares_app_run container a b w :
  transformMiddlewares container (a ++ b) w =
    match transformMiddlewares container a w with
    | (Ok ha, _) =>
        match transformMiddlewares container b w with
        | (Ok hb, _) => (Ok (ha ++ hb), w)
        | (Throw e, _) => (Throw e, w)
        end
    | (Throw e, _) => (Throw e, w)
    end.
Proof.
  unfold transformMiddlewares. induction a as [|m a IH]; simpl.
  - destruct (mapM _ b w) as [[hb|e] w1] eqn:H;
      apply reader_run in H as [_ ->]; auto with reader.
  - unfold bind at 1 3.
    destruct (transformMiddleware container m w) as [[h|e] w1] eqn:Hm;
      apply reader_run in Hm as [_ ->]; auto with reader.
    unfold bind at 1 2. rewrite IH.
    destruct (mapM _ a w) as [[ha|e] w1] eqn:Ha; [|done].
    destruct (mapM _ b w) as [[hb|e] w2] eqn:Hb; done.
Qed.

Lemma transformMiddleware_callable container m w h :
  transformMiddleware container m w = (Ok h, w) -> callable (w_store w) h.
Proof.
  unfold transformMiddleware, bind, reads. simpl.
  assert (Hb : forall x h' w',
             (let! handle := member x "handle" in bind_this handle x) w = (Ok h', w') ->
             callable (w_store w) h').
  { intros x h' w'. unfold bind, member, bind_this, bind, reads, throw, ret.
    destruct x; simpl; try done;
      match goal with
      | |- context [typeof ?s ?v] => destruct (typeof s v) eqn:Ht
      end; intros; simplify_eq; done. }
  destruct (isConstructor (w_store w) m).
  - destruct container as [ct|]; [|done]. unfold lift.
    destruct (Container_get ct m) as [x|e]; [|done]. apply Hb.
  - destruct (typeof (w_store w) m) eqn:Ht; try apply Hb.
    unfold ret. intros. by simplify_eq.
Qed.

Lemma transformMiddlewares_callable container middlewares w hs :
  transformMiddlewares container middlewares w = (Ok hs, w) ->
  Forall (callable (w_store w)) hs.
Proof.
  intros H. apply reader_runs in H; [|auto with reader].
  apply (transformMiddlewares_Ok_inv _ _ _ _ w eq_refl) in H.
  induction H as [|m h ms hs Hm _ IH]; constructor; [|done].
  by apply (transformMiddleware_callable container m).
Qed.

(** X1. [useMiddlewares] is all or nothing: either every reference resolves
    and one [app.use] call registers the handlers, one per reference and in
    the order given, or it throws and the application is as before. The
    store is never written. *)
Theorem useMiddlewares_all_or_nothing container middlewares w r w' :
  middlewares <> [] ->
  useMiddlewares container middlewares w = (r, w') ->
  w_store w' = w_store w /\
  match r with
  | Ok _ =>
      exists handlers,
        w_app w' = w_app w ++ [UseHandlers handlers] /\
        Forall2 (fun m h => transformMiddleware container m w = (Ok h, w))
                middlewares handlers /\
        Forall (callable (w_store w)) handlers
  | Throw e =>
      w' = w /\ transformMiddlewares container middlewares w = (Throw e, w)
  end.
Proof.
  intros _. unfold useMiddlewares, bind.
  destruct (transformMiddlewares container middlewares w) as [[hs|e] w1] eqn:H.
  - pose proof H as H'. apply reader_run in H' as [Hr ->]; [|auto with reader].
    unfold app_use. intros [= <- <-]. split; [done|].
    exists hs. split; [done|]. split.
    + by apply (transformMiddlewares_Ok_inv _ _ (w_store w)).
    + by apply (transformMiddlewares_callable container middlewares).
  - apply reader_run in H as [_ ->]; [|auto with reader].
    intros [= <- <-]. done.
Qed.

(** X2. [useErrorMiddleware] registers a bound [handle] or nothing. When it
    completes, it has made one [app.use] call with the [handle] member of an
    instance, bound to that instance: the argument itself, or, for an
    argument that passes [isConstructor], what the container returned for it.
    When it throws, the application is as before; an argument that passes
    [isConstructor] with no container throws the missing-container error. *)
Theorem useErrorMiddleware_registers_bound_handle container errorMiddleware w r w' :
  useErrorMiddleware container errorMiddleware w = (r, w') ->
  w_store w' = w_store w /\
  match r with
  | Ok _ =>
      exists x,
        w_app w' = w_app w ++
          [UseErrorHandler (HBound (prop (w_store w) x "handle") x)] /\
        typeof (w_store w) (prop (w_store w) x "handle") = TFunction /\
        if isConstructor (w_store w) errorMiddleware
        then exists ct, container = Some ct /\
                        Container_get ct errorMiddleware = Ok x
        else x = errorMiddleware
  | Throw e =>
      w' = w /\
      (isConstructor (w_store w) errorMiddleware = true -> container = None ->
       e = ErrorMiddlewareNeedsContainer)
  end.
Proof.
  assert (Hb : forall x r w',
    (let! handle := member x "handle" in
     let! h := bind_this handle x in app_use (UseErrorHandler h)) w = (r, w') ->
    w_store w' = w_store w /\
    match r with
    | Ok _ =>
        w_app w' = w_app w ++
          [UseErrorHandler (HBound (prop (w_store w) x "handle") x)] /\
        typeof (w_store w) (prop (w_store w) x "handle") = TFunction
    | Throw _ => w' = w
    end).
  { intros x r0 w0. unfold bind, member, bind_this, bind, reads, throw, ret, app_use.
    destruct x; simpl; try (intros [= <- <-]; done);
      match goal with
      | |- context [typeof ?s ?v] => destruct (typeof s v) eqn:Ht
      end; intros [= <- <-]; done. }
  unfold useErrorMiddleware, bind at 1, reads. simpl.
  destruct (isConstructor (w_store w) errorMiddleware) eqn:Hc.
  - destruct container as [ct|]; [|intros [= <- <-]; done].
    unfold bind at 1, lift.
    destruct (Container_get ct errorMiddleware) as [x|e] eqn:Hx;
      [|intros [= <- <-]; done].
    intros H. apply Hb in H as [Hs H]. split; [done|].
    destruct r; [|done]. destruct H as [Ha Ht].
    exists x. split; [done|]. split; [done|]. by exists ct.
  - intros H. apply Hb in H as [Hs H]. split; [done|].
    destruct r; [|done]. destruct H as [Ha Ht]. by exists errorMiddleware.
Qed.

(** ** What a run of the binder leaves behind *)

(** Whatever the outcome, the entries appended are the mounts of the
    controllers up to the first that failed. *)
Lemma useControllers_from_run container s controllers index r d :
  runs (useControllers_from container index controllers) s r d ->
  Forall2 (controller_mount container s) (take (length d) controllers) d /\
  match r with
  | Ok _ => length d = length controllers
  | Throw e =>
      exists c,
        controllers !! length d = Some c /\
        runs (bindController container (index + length d) c) s (Throw e) []
  end.
Proof.
  revert index d. induction controllers as [|c cs IH]; intros index d H.
  - destruct (runs_det _ _ _ _ _ _ H (runs_ret tt s)) as [-> ->].
    split; [constructor|done].
  - simpl in H.
    destruct (appender_bindController container index c s) as ([[]|e] & d1 & Hb).
    + destruct (appender_useControllers_from container cs (S index) s)
        as (r2 & d2 & Hr).
      pose proof (runs_bind_Ok _ (fun _ => useControllers_from container (S index) cs)
                    s tt d1 r2 d2 Hb Hr) as H'.
      destruct (runs_det _ _ _ _ _ _ H H') as [<- ->].
      apply bindController_Ok_inv in Hb as (m & -> & Hm).
      destruct (IH _ _ Hr) as [HF Hres]. simpl. split; [by constructor|].
      destruct r; [by rewrite Hres|].
      destruct Hres as (c' & Hc' & Hthrow). exists c'. split; [done|].
      by rewrite Nat.add_succ_r.
    + pose proof (runs_bind_Throw _
                    (fun _ => useControllers_from container (S index) cs)
                    s e d1 Hb) as H'.
      destruct (runs_det _ _ _ _ _ _ H H') as [-> ->].
      pose proof (bindController_Throw_nil _ _ _ _ _ _ Hb) as ->.
      simpl. split; [constructor|]. exists c. split; [done|].
      by rewrite Nat.add_0_r.
Qed.

(** X3. When [useControllers] throws [e], there is an index [k] such that
    the controllers before [k] have bound, the world left behind is the one
    reached after binding them, and binding the controller at [k] from
    there throws [e] without registering anything: the first failure ends
    the loop, and controllers after [k] are never looked at. *)
Theorem useControllers_first_failure container controllers w e w' :
  useControllers container controllers w = (Throw e, w') ->
  exists k c,
    controllers !! k = Some c /\
    useControllers container (take k controllers) w = (Ok tt, w') /\
    bindController container k c w' = (Throw e, w') /\
    forall others,
      useControllers container (take k controllers ++ c :: others) w =
        (Throw e, w').
Proof.
  intros H.
  apply appender_run in H as (d & Hd & ->); [|apply appender_useControllers].
  destruct (useControllers_from_run _ _ _ _ _ _ Hd) as [HF (c & Hc & Hthrow)].
  exists (length d), c. split; [done|].
  assert (Hpre : runs (useControllers_from container 0
                         (take (length d) controllers)) (w_store w) (Ok tt) d)
    by by apply useControllers_from_Ok.
  assert (Hlen : length (take (length d) controllers) = length d).
  { apply length_take_le, Nat.lt_le_incl, (lookup_lt_Some _ _ _ Hc). }
  split; [|split].
  - unfold useControllers. by apply (runs_at _ (w_store w)).
  - simpl in Hthrow. by apply (runs_reader_at _ {| w_store := _; w_app := _ |}).
  - intros others. unfold useControllers. apply (runs_at _ (w_store w)); [|done].
    apply useControllers_from_Throw; [done|]. by rewrite Hlen.
Qed.

Lemma Forall2_Forall_right {A B} (R : A -> B -> Prop) (P : B -> Prop) l k :
  Forall2 R l k -> (forall x y, R x y -> P y) -> Forall P k.
Proof. induction 1; intros HP; constructor; eauto. Qed.

Lemma runs_transformMiddlewares_callable container s middlewares hs :
  runs (transformMiddlewares container middlewares) s (Ok hs) [] ->
  Forall (callable s) hs.
Proof.
  intros H.
  apply (transformMiddlewares_callable container middlewares
           {| w_store := s; w_app := [] |}).
  by apply (runs_reader_at _ {| w_store := s; w_app := [] |}).
Qed.

Lemma method_route_callable container s inst p name rt :
  is_method s p name = true ->
  method_route container s inst p name rt ->
  Forall (callable s) (r_handlers rt).
Proof.
  intros Hm (d & l & hm & hs & verb & -> & Hd & _ & Hhs & _ & ->). simpl.
  apply Forall_app. split; [by apply (runs_transformMiddlewares_callable container _ (hm_middlewares hm))|].
  constructor; [|constructor]. simpl.
  unfold is_method in Hm. rewrite Hd in Hm.
  apply andb_true_iff in Hm as [_ Hm]. by apply bool_decide_eq_true in Hm.
Qed.

Lemma controller_mount_callable container s c m :
  controller_mount container s c m ->
  (exists path handlers r, m = Mount path handlers r) /\
  Forall (callable s) (entry_handlers m).
Proof.
  intros (l & cm & p & routes & hs & _ & _ & _ & HR & Hhs & ->).
  split; [by eexists _, _, _|]. simpl. apply Forall_app. split.
  - by apply (runs_transformMiddlewares_callable container _ (cm_middlewares cm)).
  - assert (Hms : Forall (fun n => is_method s p n = true) (methods s p)).
    { apply Forall_forall. intros n Hn. by apply elem_of_methods in Hn as [_ ?]. }
    induction HR as [|name rt names routes Hrt _ IH]; [constructor|].
    apply Forall_cons in Hms as [Hm Hms]. simpl.
    apply Forall_app. split; [|by apply IH].
    by apply (method_route_callable container s (VRef l) p name).
Qed.

(** X4. Everything [useControllers] hands to Express is callable. Whether
    it completes or throws, each entry it has appended is a mount, and each
    handler in it (those ahead of the router and those of every route) is a
    function, passed on as it is or bound. *)
Theorem useControllers_registers_functions container controllers w r w' :
  useControllers container controllers w = (r, w') ->
  exists mounts,
    w_app w' = w_app w ++ mounts /\
    Forall (fun e =>
              (exists path handlers rt, e = Mount path handlers rt) /\
              Forall (callable (w_store w)) (entry_handlers e))
           mounts.
Proof.
  intros H.
  apply appender_run in H as (d & Hd & ->); [|apply appender_useControllers].
  exists d. split; [done|].
  destruct (useControllers_from_run _ _ _ _ _ _ Hd) as [HF _].
  eapply Forall2_Forall_right; [exact HF|]. intros c m Hm.
  by apply (controller_mount_callable container _ c).
Qed.

(** ** Where the container matters *)

Lemma transformMiddleware_without_class container m w :
  isConstructor (w_store w) m = false ->
  transformMiddleware container m w = transformMiddleware None m w.
Proof.
  intros Hc. unfold transformMiddleware, bind, reads. simpl. by rewrite Hc.
Qed.

Lemma transformMiddlewares_without_class container middlewares w :
  Forall (fun m => isConstructor (w_store w) m = false) middlewares ->
  transformMiddlewares container middlewares w =
    transformMiddlewares None middlewares w.
Proof.
  unfold transformMiddlewares.
  induction 1 as [|m ms Hm _ IH]; simpl; [done|].
  unfold bind at 1 3. rewrite (transformMiddleware_without_class _ _ _ Hm).
  destruct (transformMiddleware None m w) as [[h|e] w1] eqn:H; [|done].
  apply reader_run in H as [_ ->]; [|auto with reader].
  unfold bind. by rewrite IH.
Qed.

Lemma bindProperty_without_class container index l p r name w :
  (forall hm,
     is_method (w_store w) p name = true ->
     asHandlerMetadata (w_store w)
       (metadata_of (w_store w) "malmajs:handler" l (Some name)) = Some hm ->
     Forall (fun m => isConstructor (w_store w) m = false) (hm_middlewares hm)) ->
  bindProperty container index (VRef l) (VRef p) r name w =
    bindProperty None index (VRef l) (VRef p) r name w.
Proof.
  intros H. destruct (is_method (w_store w) p name) eqn:Hm.
  - unfold bindProperty. destruct (String.eqb name "constructor"); [done|].
    unfold bind, getOwnPropertyDescriptorM, getMetadata, reads. simpl.
    destruct (getOwnPropertyDescriptor (w_store w) p name) as [d|]; [|done].
    simpl. destruct (typeof (w_store w) (descriptor_value d)); try done.
    simpl. destruct (asHandlerMetadata _ _) as [hm|] eqn:Hhm; [|done].
    by rewrite (transformMiddlewares_without_class _ _ _ (H hm eq_refl eq_refl)).
  - rewrite (runs_reader_at _ w _ (bindProperty_skip container _ index l p r name Hm)).
    by rewrite (runs_reader_at _ w _ (bindProperty_skip None _ index l p r name Hm)).
Qed.

Lemma foldM_bindProperty_without_class container index l p names r w :
  (forall name hm,
     name ∈ names ->
     is_method (w_store w) p name = true ->
     asHandlerMetadata (w_store w)
       (metadata_of (w_store w) "malmajs:handler" l (Some name)) = Some hm ->
     Forall (fun m => isConstructor (w_store w) m = false) (hm_middlewares hm)) ->
  foldM (bindProperty container index (VRef l) (VRef p)) names r w =
    foldM (bindProperty None index (VRef l) (VRef p)) names r w.
Proof.
  revert r. induction names as [|name names IH]; intros r H; [done|].
  simpl. unfold bind.
  rewrite bindProperty_without_class
    by (intros hm; apply H; apply elem_of_cons; by left).
  destruct (bindProperty None _ _ _ r name w) as [[r1|e] w1] eqn:Hb; [|done].
  apply reader_run in Hb as [_ ->]; [|auto with reader].
  apply IH. intros n hm Hn. apply H. apply elem_of_cons. by right.
Qed.

Lemma bindController_without_class container index c w :
  typeof (w_store w) c = TObject ->
  (forall l m, c = VRef l -> uses_middleware (w_store w) l m ->
               isConstructor (w_store w) m = false) ->
  bindController container index c w = bindController None index c w.
Proof.
  intros Ht Hu. unfold bindController, resolveController.
  unfold bind, reads, ret. simpl. rewrite Ht. simpl.
  destruct c as [| | | | |l]; try done. simpl.
  destruct (asControllerMetadata _ _) as [cm|] eqn:Hcm; [|done]. simpl.
  destruct (prototype_of_cases (w_store w) l) as [Hp|[p Hp]]; rewrite Hp; [done|].
  simpl.
  rewrite (foldM_bindProperty_without_class container index l p).
  2:{ intros name hm Hin Hm Hhm. apply Forall_forall. intros m Hmem.
      apply (Hu l m eq_refl). right. exists p, name, hm.
      split; [done|]. split; [by apply elem_of_methods|]. done. }
  destruct (foldM _ _ _ w) as [[r|e] w1] eqn:Hf; [|done].
  apply reader_run in Hf as [_ ->]; [|auto with reader].
  rewrite (transformMiddlewares_without_class container).
  - done.
  - apply Forall_forall. intros m Hmem. apply (Hu l m eq_refl). left. by exists cm.
Qed.

(** X5. The container matters for class references only. When every
    controller is given as an object and none of the middleware their
    metadata lists passes [isConstructor], [useControllers] does exactly
    what it does with no container at all. *)
Theorem useControllers_without_class_references container controllers w :
  Forall (fun c =>
            typeof (w_store w) c = TObject /\
            forall l m, c = VRef l -> uses_middleware (w_store w) l m ->
                        isConstructor (w_store w) m = false)
         controllers ->
  useControllers container controllers w = useControllers None controllers w.
Proof.
  unfold useControllers. generalize 0. intros index H. revert index w H.
  induction controllers as [|c cs IH]; intros index w H; [done|].
  apply Forall_cons in H as [[Ht Hu] H]. simpl. unfold bind.
  rewrite (bindController_without_class container index c w Ht Hu).
  destruct (bindController None index c w) as [[[]|e] w1] eqn:Hb; [|done].
  apply appender_run in Hb as (d & _ & ->); [|apply appender_bindController].
  by apply IH.
Qed.

(** ** Which controller an error is about *)

Section error_origin.

Variable container : option Container.
Hypothesis Hforeign : container_errors_foreign container.

Lemma transformMiddleware_Throw_kind m w e w' :
  transformMiddleware container m w = (Throw e, w') ->
  kind_of_error e <> MissingMetadata.
Proof.
  assert (Hb : forall x,
    (let! handle := member x "handle" in bind_this handle x) w = (Throw e, w') ->
    kind_of_error e <> MissingMetadata).
  { intros x. unfold bind, member, bind_this, bind, reads, throw, ret.
    destruct x; simpl; try (intros [= <- <-]; done);
      match goal with
      | |- context [typeof ?s ?v] => destruct (typeof s v) eqn:Ht
      end; intros [= <- <-]; done. }
  unfold transformMiddleware, bind at 1, reads. simpl.
  destruct (isConstructor (w_store w) m).
  - destruct container as [ct|] eqn:Hct; [|intros [= <- <-]; done].
    unfold bind at 1, lift.
    destruct (Container_get ct m) as [x|e'] eqn:Hx; [apply Hb|].
    intros [= <- <-]. by apply (Hforeign ct m).
  - unfold bind at 1, reads. simpl.
    destruct (typeof (w_store w) m); try apply Hb. done.
Qed.

Lemma transformMiddlewares_Throw_kind middlewares w e w' :
  transformMiddlewares container middlewares w = (Throw e, w') ->
  kind_of_error e <> MissingMetadata.
Proof.
  unfold transformMiddlewares. revert w'.
  induction middlewares as [|m ms IH]; intros w'; simpl; [done|].
  unfold bind at 1.
  destruct (transformMiddleware container m w) as [[h|e'] w1] eqn:Hm.
  - apply reader_run in Hm as [_ ->]; [|auto with reader].
    unfold bind at 1.
    destruct (mapM _ ms w) as [[hs|e'] w2] eqn:Hms; [done|].
    intros [= <- <-]. by apply (IH w2).
  - intros [= <- <-]. by apply (transformMiddleware_Throw_kind m w e' w1).
Qed.

Lemma resolveController_Throw_kind c w e w' :
  resolveController container c w = (Throw e, w') ->
  kind_of_error e <> MissingMetadata.
Proof.
  unfold resolveController, bind, reads, ret, throw, lift. simpl.
  destruct (typeof (w_store w) c); try done;
    destruct container as [ct|] eqn:Hct; try (intros [= <- <-]; done);
    destruct (Container_get ct c) as [x|e0] eqn:Hg; try done;
    intros [= <- <-]; by apply (Hforeign ct c e0).
Qed.

Lemma bindProperty_Throw_metadata index l p r name w e w' :
  bindProperty container index (VRef l) (VRef p) r name w = (Throw e, w') ->
  kind_of_error e = MissingMetadata ->
  e = InvalidMethodMetadata name index /\
  is_method (w_store w) p name = true /\
  asHandlerMetadata (w_store w)
    (metadata_of (w_store w) "malmajs:handler" l (Some name)) = None.
Proof.
  intros H Hk. destruct (is_method (w_store w) p name) eqn:Hm.
  2:{ by rewrite (runs_reader_at _ w _
                    (bindProperty_skip container _ index l p r name Hm)) in H. }
  destruct (asHandlerMetadata _ _) as [hm|] eqn:Hhm.
  2:{ rewrite (runs_reader_at _ w _
                 (bindProperty_throws container _ index l p r name Hm Hhm)) in H.
      by simplify_eq. }
  exfalso. unfold bindProperty, is_method in *.
  destruct (String.eqb name "constructor"); [done|]. simpl in Hm.
  unfold bind, getOwnPropertyDescriptorM, getMetadata, reads in H. simpl in H.
  destruct (getOwnPropertyDescriptor (w_store w) p name) as [d|]; [|done].
  apply bool_decide_eq_true in Hm. simpl in H. rewrite Hm in H. simpl in H.
  rewrite Hhm in H.
  destruct (transformMiddlewares container (hm_middlewares hm) w)
    as [[hs|e'] w1] eqn:Hmw.
  - apply reader_run in Hmw as [_ ->]; [|auto with reader].
    unfold bind_this, bind, reads in H. simpl in H. rewrite Hm in H.
    unfold router_call, ret, throw in H.
    destruct (HandlerMethod_of_string (hm_method hm)); by simplify_eq.
  - simplify_eq. by apply (transformMiddlewares_Throw_kind _ _ _ _ Hmw).
Qed.

Lemma foldM_bindProperty_Throw_metadata index l p names r w e w' :
  foldM (bindProperty container index (VRef l) (VRef p)) names r w = (Throw e, w') ->
  kind_of_error e = MissingMetadata ->
  exists name,
    name ∈ names /\
    e = InvalidMethodMetadata name index /\
    is_method (w_store w) p name = true /\
    asHandlerMetadata (w_store w)
      (metadata_of (w_store w) "malmajs:handler" l (Some name)) = None.
Proof.
  revert r. induction names as [|n names IH]; intros r H Hk; [done|].
  simpl in H. unfold bind in H.
  destruct (bindProperty container index (VRef l) (VRef p) r n w)
    as [[r1|e'] w1] eqn:Hb.
  - apply reader_run in Hb as [_ ->]; [|auto with reader].
    destruct (IH _ H Hk) as (name & Hin & Hrest).
    exists name. split; [|done]. apply elem_of_cons. by right.
  - simplify_eq.
    exists n. split; [apply elem_of_cons; by left|].
    by apply (bindProperty_Throw_metadata index l p r n w e w').
Qed.

Lemma bindController_Throw_metadata index c w e w' :
  bindController container index c w = (Throw e, w') ->
  kind_of_error e = MissingMetadata ->
  exists l,
    resolveController container c w = (Ok (VRef l), w) /\
    ((e = InvalidControllerMetadata index /\
      isControllerMetadata (w_store w)
        (metadata_of (w_store w) "malmajs:controller" l None) = false)
     \/ exists p name,
          e = InvalidMethodMetadata name index /\
          prototype_of (w_store w) l = VRef p /\
          name ∈ methods (w_store w) p /\
          isHandlerMetadata (w_store w)
            (metadata_of (w_store w) "malmajs:handler" l (Some name)) = false).
Proof.
  intros H Hk. unfold bindController in H. unfold bind at 1 in H.
  destruct (resolveController container c w) as [[inst|e'] w1] eqn:Hinst.
  2:{ exfalso. simplify_eq. by apply (resolveController_Throw_kind c w e w'). }
  pose proof Hinst as Hinst'.
  apply reader_run in Hinst' as [_ ->]; [|auto with reader].
  unfold bind, getMetadata, reads in H.
  destruct inst as [| | | | |l]; try (unfold throw in H; by simplify_eq).

  simpl in H. exists l. split; [done|].
  destruct (asControllerMetadata _ _) as [cm|] eqn:Hcm.
  2:{ left. unfold throw in H. simplify_eq. split; [done|].
      unfold isControllerMetadata. rewrite Hcm.
      apply bool_decide_eq_false_2. by intros [? ?]. }
  right. simpl in H.
  destruct (prototype_of_cases (w_store w) l) as [Hp|[p Hp]]; rewrite Hp in H;
    [simpl in H; unfold throw in H; by simplify_eq|].
  simpl in H.
  destruct (foldM _ _ _ w) as [[r|e'] w1] eqn:Hf.
  - exfalso. apply reader_run in Hf as [_ ->]; [|auto with reader].
    destruct (transformMiddlewares container (cm_middlewares cm) w)
      as [[hs|e'] w1] eqn:Hmw; [done|].
    simplify_eq. by apply (transformMiddlewares_Throw_kind _ _ _ _ Hmw).
  - simplify_eq.
    apply foldM_bindProperty_Throw_metadata in Hf
      as (name & Hin & -> & Hm & Hhm); [|done].
    exists p, name. split; [done|]. split; [done|].
    split; [by apply elem_of_methods|].
    unfold isHandlerMetadata. rewrite Hhm.
    apply bool_decide_eq_false_2. by intros [? ?].
Qed.

End error_origin.

(** ** Allocation leaves what was there as it was *)

Section heap_frame.

Variables (h : gmap loc obj) (rank : loc -> nat).
Hypothesis Hwf : map_Forall (obj_in h rank) h.

Lemma chain_from_in_heap n x y :
  is_Some (h !! x) -> y ∈ chain_from h n x ->
  is_Some (h !! y) /\ rank y <= rank x.
Proof.
  revert x. induction n as [|n IH]; intros x Hx Hy; [by apply elem_of_nil in Hy|].
  simpl in Hy. apply elem_of_cons in Hy as [->|Hy]; [done|].
  destruct (h !! x) as [[k [p|] ps]|] eqn:Hl; try by apply elem_of_nil in Hy.
  destruct (Hwf x _ Hl) as [[Hp Hr] _]. simpl in *.
  destruct (IH p Hp Hy). split; [done|lia].
Qed.

Lemma chain_from_NoDup n x : is_Some (h !! x) -> NoDup (chain_from h n x).
Proof.
  revert x. induction n as [|n IH]; intros x Hx; [constructor|].
  simpl. destruct (h !! x) as [[k [p|] ps]|] eqn:Hl;
    try (apply NoDup_singleton).
  destruct (Hwf x _ Hl) as [[Hp Hr] _]. simpl in *.
  constructor; [|by apply IH].
  intros Hin. destruct (chain_from_in_heap n p x Hp Hin). lia.
Qed.

Lemma chain_from_NoDup_any n x : NoDup (chain_from h n x).
Proof.
  destruct (h !! x) as [o|] eqn:Hx; [by apply chain_from_NoDup|].
  destruct n; simpl; [constructor|]. rewrite Hx. apply NoDup_singleton.
Qed.

Variables (l0 : loc) (o0 : obj).
Hypothesis Hfresh : h !! l0 = None.

Lemma chain_from_alloc n x :
  is_Some (h !! x) -> chain_from (<[l0 := o0]> h) n x = chain_from h n x.
Proof.
  revert x. induction n as [|n IH]; intros x Hx; [done|]. simpl.
  assert (x <> l0) by (intros ->; rewrite Hfresh in Hx; by destruct Hx).
  rewrite lookup_insert_ne by done.
  destruct (h !! x) as [[k [p|] ps]|] eqn:Hl; try done.
  destruct (Hwf x _ Hl) as [[Hp _] _]. simpl in *. by rewrite IH.
Qed.

Lemma chain_alloc x :
  is_Some (h !! x) ->
  chain_from (<[l0 := o0]> h) (S (size (<[l0 := o0]> h))) x =
    chain_from h (S (size h)) x.
Proof.
  intros Hx. rewrite chain_from_alloc by done.
  apply chain_from_enough; [intros; apply chain_from_NoDup_any|].
  rewrite map_size_insert_None by done. lia.
Qed.

End heap_frame.

Lemma fresh_not_in_heap (h : gmap loc obj) : h !! fresh (dom h) = None.
Proof. apply not_elem_of_dom, is_fresh. Qed.

Lemma value_in_insert (h : gmap loc obj) l o v :
  h !! l = None -> value_in h v -> value_in (<[l := o]> h) v.
Proof.
  intros Hl. destruct v as [| | | | |x]; try done. simpl. intros Hx.
  rewrite lookup_insert_ne; [done|]. intros ->. rewrite Hl in Hx. by destruct Hx.
Qed.

Section store_frame.

Variables (s : store) (rank : loc -> nat) (o0 : obj).
Hypothesis Hwf : map_Forall (obj_in (st_heap s) rank) (st_heap s).

Let s1 := alloc_store s o0.
Let l0 := fresh (dom (st_heap s)).

Lemma alloc_lookup x :
  is_Some (st_heap s !! x) -> st_heap s1 !! x = st_heap s !! x.
Proof.
  intros Hx. simpl. apply lookup_insert_ne. intros Heq.
  rewrite <- Heq, fresh_not_in_heap in Hx. by destruct Hx.
Qed.

Lemma alloc_kind_of x : is_Some (st_heap s !! x) -> kind_of s1 x = kind_of s x.
Proof. intros Hx. unfold kind_of. by rewrite alloc_lookup. Qed.

Lemma alloc_typeof v : value_in (st_heap s) v -> typeof s1 v = typeof s v.
Proof. destruct v; try done. intros Hx. simpl. by rewrite alloc_kind_of. Qed.

Lemma alloc_as_array v : value_in (st_heap s) v -> as_array s1 v = as_array s v.
Proof. destruct v; try done. intros Hx. simpl. by rewrite alloc_kind_of. Qed.

Lemma alloc_proto_chain x :
  is_Some (st_heap s !! x) -> proto_chain s1 x = proto_chain s x.
Proof.
  intros Hx. unfold proto_chain. simpl.
  apply (chain_alloc _ rank Hwf); [apply fresh_not_in_heap|done].
Qed.

Lemma proto_chain_in_heap x y :
  is_Some (st_heap s !! x) -> y ∈ proto_chain s x -> is_Some (st_heap s !! y).
Proof. intros Hx Hy. by destruct (chain_from_in_heap _ rank Hwf _ x y Hx Hy). Qed.

Lemma alloc_descriptor x name :
  is_Some (st_heap s !! x) ->
  getOwnPropertyDescriptor s1 x name = getOwnPropertyDescriptor s x name.
Proof. intros Hx. unfold getOwnPropertyDescriptor. by rewrite alloc_lookup. Qed.

Lemma omap_ext_in {A B} (f g : A -> option B) (l : list A) :
  (forall x, x ∈ l -> f x = g x) -> omap f l = omap g l.
Proof.
  induction l as [|a l IH]; intros H; [done|]. csimpl.
  rewrite (H a) by (apply elem_of_cons; by left).
  rewrite IH; [done|]. intros x Hx. apply H. apply elem_of_cons. by right.
Qed.

Lemma assoc_in {A} name (l : list (string * A)) a :
  assoc name l = Some a -> (name, a) ∈ l.
Proof.
  induction l as [|[k b] l IH]; [done|]. simpl.
  destruct (String.eqb k name) eqn:Hk.
  - apply String.eqb_eq in Hk as ->. intros [= ->]. apply elem_of_cons. by left.
  - intros H. apply elem_of_cons. right. by apply IH.
Qed.

Lemma alloc_prop v name :
  value_in (st_heap s) v ->
  prop s1 v name = prop s v name /\ value_in (st_heap s) (prop s v name).
Proof.
  destruct v as [| | | | |x]; try done. intros Hx. unfold prop.
  rewrite alloc_proto_chain by done.
  rewrite (omap_ext_in (fun l' => getOwnPropertyDescriptor s1 l' name)
                       (fun l' => getOwnPropertyDescriptor s l' name)).
  2:{ intros y Hy. apply alloc_descriptor. by apply (proto_chain_in_heap x). }
  split; [done|].
  destruct (head _) as [d|] eqn:Hd; [|done].
  apply head_Some_elem_of, list_elem_of_omap in Hd as (y & Hy & Hd).
  apply (proto_chain_in_heap x) in Hy as [o Ho]; [|done].
  unfold getOwnPropertyDescriptor in Hd. rewrite Ho in Hd.
  apply assoc_in in Hd. destruct (Hwf y o Ho) as (_ & Hprops & _).
  rewrite Forall_forall in Hprops. apply (Hprops (name, d) Hd).
Qed.

Lemma alloc_instanceof v p :
  value_in (st_heap s) v -> instanceof s1 v p = instanceof s v p.
Proof.
  destruct v as [| | | | |x]; try done. intros Hx. unfold instanceof.
  by rewrite alloc_proto_chain.
Qed.

Lemma alloc_metadata_of key x property :
  is_Some (st_heap s !! x) ->
  metadata_of s1 key x property = metadata_of s key x property.
Proof. intros Hx. unfold metadata_of. by rewrite alloc_proto_chain. Qed.

Lemma alloc_middleware_shaped v :
  value_in (st_heap s) v -> middleware_shaped s1 v = middleware_shaped s v.
Proof.
  intros Hv. unfold middleware_shaped.
  by rewrite alloc_typeof, alloc_instanceof.
Qed.

Lemma alloc_isConstructor v :
  value_in (st_heap s) v -> isConstructor s1 v = isConstructor s v.
Proof.
  intros Hv. unfold isConstructor.
  destruct (alloc_prop v "prototype" Hv) as [Hp Hin].
  rewrite alloc_typeof, Hp by done.
  by destruct (alloc_prop _ "constructor" Hin) as [-> _].
Qed.

Lemma as_array_in_heap v elems :
  as_array s v = Some elems -> Forall (value_in (st_heap s)) elems.
Proof.
  destruct v as [| | | | |x]; try done. unfold as_array, kind_of.
  destruct (st_heap s !! x) as [o|] eqn:Ho; [|done].
  destruct (Hwf x o Ho) as (_ & _ & Hk).
  destruct (o_kind o); try done. by intros [= <-].
Qed.

Lemma alloc_forallb_shaped elems :
  Forall (value_in (st_heap s)) elems ->
  forallb (middleware_shaped s1) elems = forallb (middleware_shaped s) elems.
Proof.
  induction 1 as [|v vs Hv _ IH]; [done|]. simpl.
  by rewrite alloc_middleware_shaped, IH.
Qed.

Lemma alloc_is_plain_object v :
  value_in (st_heap s) v -> is_plain_object s1 v = is_plain_object s v.
Proof. intros Hv. unfold is_plain_object. by rewrite alloc_typeof. Qed.

Lemma alloc_asControllerMetadata v :
  value_in (st_heap s) v -> asControllerMetadata s1 v = asControllerMetadata s v.
Proof.
  intros Hv. unfold asControllerMetadata.
  rewrite alloc_is_plain_object by done.
  destruct (alloc_prop v "path" Hv) as [-> _].
  destruct (alloc_prop v "middlewares" Hv) as [-> Hm].
  rewrite alloc_as_array by done.
  destruct (negb _); [done|]. destruct (prop s v "path"); try done.
  destruct (as_array s _) as [elems|] eqn:Ha; [|done].
  by rewrite alloc_forallb_shaped by by apply (as_array_in_heap _ _ Ha).
Qed.

Lemma alloc_asHandlerMetadata v :
  value_in (st_heap s) v -> asHandlerMetadata s1 v = asHandlerMetadata s v.
Proof.
  intros Hv. unfold asHandlerMetadata.
  rewrite alloc_is_plain_object by done.
  destruct (alloc_prop v "method" Hv) as [-> _].
  destruct (alloc_prop v "path" Hv) as [-> _].
  destruct (alloc_prop v "middlewares" Hv) as [-> Hm].
  rewrite alloc_as_array by done.
  destruct (negb _); [done|]. destruct (prop s v "method"); try done.
  destruct (prop s v "path"); try done.
  destruct (as_array s _) as [elems|] eqn:Ha; [|done].
  by rewrite alloc_forallb_shaped by by apply (as_array_in_heap _ _ Ha).
Qed.

(** The new object itself. *)
Lemma alloc_new : st_heap s1 !! l0 = Some o0.
Proof. apply lookup_insert_eq. Qed.

Hypothesis Hprops : Forall (fun kd => descriptor_in (st_heap s) kd.2) (o_props o0).
Hypothesis Hproto : o_proto o0 = None.
Hypothesis Hkind :
  match o_kind o0 with
  | KArray elems => Forall (value_in (st_heap s)) elems
  | _ => True
  end.

Lemma alloc_heap_wf : map_Forall (obj_in (st_heap s1) rank) (st_heap s1).
Proof.
  assert (Hmono : forall v, value_in (st_heap s) v -> value_in (st_heap s1) v).
  { intros v. apply value_in_insert, fresh_not_in_heap. }
  simpl. apply map_Forall_insert; [apply fresh_not_in_heap|]. split.
  - unfold obj_in. rewrite Hproto. split; [done|]. split.
    + eapply Forall_impl; [exact Hprops|]. intros [k d]. apply Hmono.
    + destruct (o_kind o0); try done.
      eapply Forall_impl; [exact Hkind|]. apply Hmono.
  - intros x o Ho. destruct (Hwf x o Ho) as (Hp & Hps & Hk).
    split; [|split].
    + destruct (o_proto o) as [p|]; [|done]. destruct Hp as [Hp Hr].
      split; [|done]. by apply (Hmono (VRef p)).
    + eapply Forall_impl; [exact Hps|]. intros [k d]. apply Hmono.
    + destruct (o_kind o); try done.
      eapply Forall_impl; [exact Hk|]. apply Hmono.
Qed.

End store_frame.

(** ** The decorators *)

Lemma preserves_refl s : preserves s s.
Proof. split; [done|]. intros v Hv. repeat split; done. Qed.

Lemma preserves_trans s1 s2 s3 :
  preserves s1 s2 -> preserves s2 s3 -> preserves s1 s3.
Proof.
  intros [Hm1 H1] [Hm2 H2]. split; [congruence|]. intros v Hv.
  destruct (H1 v Hv) as (Hv2 & Ht & Hp & Hi & Ha & Hc & Hcm & Hhm).
  destruct (H2 v Hv2) as (Hv3 & Ht' & Hp' & Hi' & Ha' & Hc' & Hcm' & Hhm').
  split; [done|]. split; [congruence|]. split; [intros; by rewrite Hp', Hp|].
  split; [intros; by rewrite Hi', Hi|]. repeat split; congruence.
Qed.

Lemma alloc_preserves s rank o :
  map_Forall (obj_in (st_heap s) rank) (st_heap s) ->
  preserves s (alloc_store s o).
Proof.
  intros Hwf. split; [done|]. intros v Hv.
  split; [by apply value_in_insert; [apply fresh_not_in_heap|]|].
  split; [by apply (alloc_typeof s)|].
  split; [intros name; by destruct (alloc_prop s rank o Hwf v name Hv)|].
  split; [intros p; by apply (alloc_instanceof s rank)|].
  split; [by apply (alloc_as_array s)|].
  split; [by apply (alloc_isConstructor s rank)|].
  split; [by apply (alloc_asControllerMetadata s rank)|].
  by apply (alloc_asHandlerMetadata s rank).
Qed.

Lemma preserves_forallb_shaped s s' elems :
  preserves s s' ->
  Forall (value_in (st_heap s)) elems ->
  forallb (middleware_shaped s') elems = forallb (middleware_shaped s) elems.
Proof.
  intros [Hm H]. induction 1 as [|v vs Hv _ IH]; [done|]. simpl. rewrite IH.
  destruct (H v Hv) as (_ & Ht & _ & Hi & _). unfold middleware_shaped.
  by rewrite Ht, Hi, Hm.
Qed.

Lemma prop_new_object s l o name :
  st_heap s !! l = Some o -> o_proto o = None ->
  prop s (VRef l) name =
    match assoc name (o_props o) with
    | Some d => descriptor_read d
    | None => VUndefined
    end.
Proof.
  intros Hl Hp. unfold prop, proto_chain. simpl. rewrite Hl.
  destruct o as [k [p|] ps]; [done|]. csimpl.
  unfold getOwnPropertyDescriptor. rewrite Hl. simpl.
  by destruct (assoc name ps).
Qed.

Lemma metadata_of_own s key l property v :
  st_meta s !! (l, property, key) = Some v -> metadata_of s key l property = v.
Proof.
  intros H. unfold metadata_of, proto_chain. simpl. csimpl. by rewrite H.
Qed.

(** Metadata is found on the prototype of an instance that has none of its
    own. *)
Lemma metadata_of_inherited s key l p property v :
  prototype_of s l = VRef p ->
  st_meta s !! (l, property, key) = None ->
  st_meta s !! (p, property, key) = Some v ->
  metadata_of s key l property = v.
Proof.
  intros Hp Hl Hv. unfold metadata_of, proto_chain, prototype_of in *.
  destruct (st_heap s !! l) as [[k [p'|] ps]|] eqn:Ho; try done.
  injection Hp as ->.
  assert (Hsize : exists n, size (st_heap s) = S n).
  { destruct (size (st_heap s)) eqn:Hs; [|by eexists].
    apply map_size_empty_iff in Hs. rewrite Hs in Ho. by rewrite lookup_empty in Ho. }
  destruct Hsize as [n ->]. simpl. rewrite Ho. csimpl. rewrite Hl. csimpl.
  by rewrite Hv.
Qed.

Lemma alloc_meta_wf s o : meta_wf s -> meta_wf (alloc_store s o).
Proof.
  intros H k v Hk. destruct (H k v Hk) as [Ht Hv].
  split.
  - apply (value_in_insert _ _ _ (VRef k.1.1)); [apply fresh_not_in_heap|done].
  - apply value_in_insert; [apply fresh_not_in_heap|done].
Qed.

(** The default of the [middlewares] parameter. *)
Lemma default_middlewares_run s rank middlewares elems a :
  map_Forall (obj_in (st_heap s) rank) (st_heap s) ->
  (middlewares = VUndefined /\ elems = [] \/ as_array s middlewares = Some elems) ->
  exists sA mv,
    default_middlewares middlewares {| w_store := s; w_app := a |} =
      (Ok mv, {| w_store := sA; w_app := a |}) /\
    map_Forall (obj_in (st_heap sA) rank) (st_heap sA) /\
    st_meta sA = st_meta s /\
    preserves s sA /\
    value_in (st_heap sA) mv /\
    as_array sA mv = Some elems /\
    Forall (value_in (st_heap s)) elems /\
    (forall x key property,
       is_Some (st_heap s !! x) ->
       metadata_of sA key x property = metadata_of s key x property) /\
    (forall x, is_Some (st_heap s !! x) -> st_heap sA !! x = st_heap s !! x) /\
    (meta_wf s -> meta_wf sA).
Proof.
  intros Hwf [[-> ->]|Ha].
  - exists (alloc_store s {| o_kind := KArray []; o_proto := None; o_props := [] |}).
    eexists. split; [reflexivity|].
    split; [apply alloc_heap_wf; [done|constructor|done|constructor]|].
    split; [done|].
    split; [by apply (alloc_preserves s rank)|].
    split; [simpl; by rewrite lookup_insert_eq|].
    split; [unfold as_array, kind_of; simpl; by rewrite lookup_insert_eq|].
    split; [constructor|].
    split; [|split].
    + intros x key property Hx. by apply (alloc_metadata_of s rank).
    + intros x Hx. by apply alloc_lookup.
    + apply alloc_meta_wf.
  - exists s, middlewares. split.
    { destruct middlewares; try done. }
    split; [done|]. split; [done|]. split; [apply preserves_refl|].
    split.
    { destruct middlewares as [| | | | |x]; try done. simpl.
      unfold as_array, kind_of in Ha.
      destruct (st_heap s !! x); [by eexists|done]. }
    split; [done|]. split; [by apply (as_array_in_heap s rank Hwf middlewares)|].
    done.
Qed.

Lemma define_preserves s l property key v : preserves s (define_store s l property key v).
Proof. split; [done|]. intros x Hx. repeat split; done. Qed.

Section annotate.

Variables (s : store) (rank : loc -> nat) (rec : obj).
Hypothesis Hwf : map_Forall (obj_in (st_heap s) rank) (st_heap s).
Hypothesis Hmeta :
  map_Forall (fun k v => is_Some (st_heap s !! k.1.1) /\ value_in (st_heap s) v)
             (st_meta s).
Hypothesis Hprops : Forall (fun kd => descriptor_in (st_heap s) kd.2) (o_props rec).
Hypothesis Hproto : o_proto rec = None.
Hypothesis Hkind : o_kind rec = KObject.
Variables (p : loc) (property : option string) (key : string).
Hypothesis Hp : is_Some (st_heap s !! p).

Let record := fresh (dom (st_heap s)).
Let s2 := alloc_store s rec.
Let s3 := define_store s2 p property key (VRef record).

Lemma annotate_preserves : preserves s s3.
Proof.
  apply (preserves_trans s s2 s3); [by apply (alloc_preserves s rank)|].
  apply define_preserves.
Qed.

Lemma annotate_heap_wf : map_Forall (obj_in (st_heap s3) rank) (st_heap s3).
Proof.
  apply (alloc_heap_wf s rank rec); [done..|]. rewrite Hkind. exact I.
Qed.

Lemma annotate_wf : wf_store s3.
Proof.
  split; [exists rank; apply annotate_heap_wf|].
  assert (Hmono : forall v, value_in (st_heap s) v -> value_in (st_heap s3) v).
  { intros v. apply value_in_insert, fresh_not_in_heap. }
  simpl. apply map_Forall_insert_2.
  - split; [apply (Hmono (VRef p) Hp)|]. simpl. by rewrite lookup_insert_eq.
  - intros k v Hk. destruct (Hmeta k v Hk) as [Ht Hv].
    split; [apply (Hmono (VRef k.1.1) Ht)|by apply Hmono].
Qed.

Lemma annotate_own : metadata_of s3 key p property = VRef record.
Proof. apply metadata_of_own. simpl. apply lookup_insert_eq. Qed.

Lemma annotate_inherited l :
  prototype_of s l = VRef p ->
  st_meta s !! (l, property, key) = None ->
  metadata_of s3 key l property = VRef record.
Proof.
  intros Hl Hnone.
  assert (Hin : is_Some (st_heap s !! l)).
  { unfold prototype_of in Hl. destruct (st_heap s !! l); [by eexists|done]. }
  assert (Hne : l <> p).
  { intros ->. unfold prototype_of in Hl.
    destruct (st_heap s !! p) as [[k [q|] ps]|] eqn:Ho; try done.
    destruct (Hwf p _ Ho) as [[_ Hr] _]. simpl in Hr.
    injection Hl as ->. lia. }
  apply (metadata_of_inherited s3 key l p).
  - unfold prototype_of.
    change (st_heap s3 !! l) with (st_heap (alloc_store s rec) !! l).
    rewrite (alloc_lookup s rec l Hin). exact Hl.
  - simpl. rewrite lookup_insert_ne; [done|]. congruence.
  - simpl. apply lookup_insert_eq.
Qed.

Lemma annotate_elsewhere x key' property' :
  is_Some (st_heap s !! x) ->
  (key', property') <> (key, property) ->
  metadata_of s3 key' x property' = metadata_of s key' x property'.
Proof.
  intros Hx Hne. rewrite <- (alloc_metadata_of s rank rec Hwf key' x property' Hx).
  unfold metadata_of. f_equal. f_equal.
  apply omap_ext_in. intros y _. simpl. apply lookup_insert_ne. congruence.
Qed.

Lemma annotate_record_prop name :
  prop s3 (VRef record) name =
    match assoc name (o_props rec) with
    | Some d => descriptor_read d
    | None => VUndefined
    end.
Proof. apply prop_new_object; [apply lookup_insert_eq|done]. Qed.

Lemma annotate_record_plain : is_plain_object s3 (VRef record) = true.
Proof.
  unfold is_plain_object, typeof, kind_of. simpl.
  rewrite lookup_insert_eq, Hkind. done.
Qed.

Lemma annotate_record_fresh : st_heap s !! record = None.
Proof. apply fresh_not_in_heap. Qed.

End annotate.

Lemma value_in_prop s rank v name :
  map_Forall (obj_in (st_heap s) rank) (st_heap s) ->
  value_in (st_heap s) v -> value_in (st_heap s) (prop s v name).
Proof.
  intros Hwf Hv.
  by destruct (alloc_prop s rank {| o_kind := KObject; o_proto := None; o_props := [] |}
                 Hwf v name Hv).
Qed.

(** X6. What [Controller] writes, the binder's guard reads back. On a
    well-formed store, for a class whose [prototype] is the object [p] and a
    middleware argument that is an array (or omitted), the decorator
    completes without touching the application; it allocates a new record
    and attaches it to [p] under the controller key; [p] and every instance
    of the class without controller metadata of its own find that record;
    and [isControllerMetadata] accepts the record, with the given path (the
    empty one when omitted) and the array's elements, exactly when every
    element is a function or an instance of [Middleware]. *)
Theorem Controller_roundtrip path middlewares elems target p w :
  wf_store (w_store w) ->
  value_in (st_heap (w_store w)) target ->
  prop (w_store w) target "prototype" = VRef p ->
  (middlewares = VUndefined /\ elems = []
   \/ as_array (w_store w) middlewares = Some elems) ->
  exists w' record,
    Controller path middlewares target w = (Ok tt, w') /\
    w_app w' = w_app w /\
    st_heap (w_store w) !! record = None /\
    metadata_of (w_store w') "malmajs:controller" p None = VRef record /\
    (forall l,
       prototype_of (w_store w) l = VRef p ->
       st_meta (w_store w) !! (l, None, "malmajs:controller") = None ->
       metadata_of (w_store w') "malmajs:controller" l None = VRef record) /\
    asControllerMetadata (w_store w') (VRef record) =
      if forallb (middleware_shaped (w_store w)) elems
      then Some {| cm_path := default "" path; cm_middlewares := elems |}
      else None.
Proof.
  intros [[rank Hheap] Hmeta] Htarget Hproto Hmw. destruct w as [s a]. simpl in *.
  destruct (default_middlewares_run s rank middlewares elems a Hheap Hmw)
    as (sA & mv & Hdef & HheapA & HmetaA & HpresA & Hmv & Harr & Helems & HmdA & HlookA & HmwfA).
  destruct target as [| | | | |c]; try done.
  pose proof (value_in_prop s rank (VRef c) "prototype" Hheap Htarget) as Hp.
  rewrite Hproto in Hp.
  destruct HpresA as [HmwA HpresA].
  destruct (HpresA (VRef c) Htarget) as (HcA & _ & HpropA & _).
  destruct (HpresA (VRef p) Hp) as (HpA & _).
  set (rec := {| o_kind := KObject; o_proto := None;
                 o_props := [("path", DData (VString (default "" path)));
                             ("middlewares", DData mv)] |}).
  assert (Hrec : Forall (fun kd => descriptor_in (st_heap sA) kd.2) (o_props rec)).
  { repeat constructor. exact Hmv. }
  pose proof (annotate_preserves sA rank rec HheapA p None "malmajs:controller")
    as [Hmw3 Hpres3].
  set (s3 := define_store (alloc_store sA rec) p None "malmajs:controller"
               (VRef (fresh (dom (st_heap sA))))) in *.
  exists {| w_store := s3; w_app := a |}, (fresh (dom (st_heap sA))).
  split; [|split; [done|split; [|split; [|split]]]].
  - unfold Controller, bind. rewrite Hdef.
    unfold alloc, member, reads, defineMetadata. cbn [w_store w_app].
    destruct (Hpres3 (VRef c) HcA) as (_ & _ & Hprop3 & _).
    replace (prop _ (VRef c) "prototype") with (VRef p); [done|].
    symmetry. change (prop s3 (VRef c) "prototype" = VRef p).
    by rewrite Hprop3, HpropA, Hproto.
  - destruct (st_heap s !! fresh (dom (st_heap sA))) as [o|] eqn:Ho; [|done].
    destruct (HpresA (VRef (fresh (dom (st_heap sA))))) as [Hin _];
      [by eexists|].
    simpl in Hin. rewrite fresh_not_in_heap in Hin. by destruct Hin.
  - apply annotate_own.
  - intros l Hl Hnone.
    assert (Hlin : is_Some (st_heap s !! l)).
    { unfold prototype_of in Hl. destruct (st_heap s !! l); [by eexists|done]. }
    apply (annotate_inherited sA rank rec HheapA p None _ HpA l).
    + unfold prototype_of. by rewrite HlookA.
    + by rewrite HmetaA.
  - cbn [w_store]. unfold s3 in *. unfold asControllerMetadata.
    rewrite (annotate_record_plain sA rec eq_refl).
    rewrite !(annotate_record_prop sA rec eq_refl). simpl.
    destruct (Hpres3 mv Hmv) as (_ & _ & _ & _ & -> & _). rewrite Harr.
    rewrite (preserves_forallb_shaped s s3); [done| |done].
    apply (preserves_trans s sA s3); by split.
Qed.

Lemma alloc_wf s rank o :
  map_Forall (obj_in (st_heap s) rank) (st_heap s) ->
  meta_wf s ->
  Forall (fun kd => descriptor_in (st_heap s) kd.2) (o_props o) ->
  o_proto o = None -> o_kind o = KObject ->
  wf_store (alloc_store s o).
Proof.
  intros Hheap Hmeta Hprops Hproto Hkind. split.
  - exists rank. apply alloc_heap_wf; try done. by rewrite Hkind.
  - by apply alloc_meta_wf.
Qed.

Lemma default_middlewares_cases s middlewares :
  middlewares = VUndefined \/ is_Some (as_array s middlewares) ->
  exists elems,
    middlewares = VUndefined /\ elems = [] \/ as_array s middlewares = Some elems.
Proof. intros [->|[elems H]]; [exists []; by left|exists elems; by right]. Qed.

(** X7. [Controller] disturbs nothing else. On a well-formed store it
    completes exactly when the target's [prototype] is an object, and raises
    a [TypeError] otherwise. Either way the application is untouched, every
    value of the old store keeps its type, members and the verdict of every
    guard, the store stays well formed, metadata under every other key or
    property reads as before, and the only entry of the table that can
    differ is the controller entry of that prototype. *)
Theorem Controller_frame path middlewares target w r w' :
  wf_store (w_store w) ->
  value_in (st_heap (w_store w)) target ->
  (middlewares = VUndefined \/ is_Some (as_array (w_store w) middlewares)) ->
  Controller path middlewares target w = (r, w') ->
  r = match prop (w_store w) target "prototype" with
      | VRef _ => Ok tt
      | _ => Throw TypeError
      end /\
  w_app w' = w_app w /\
  preserves (w_store w) (w_store w') /\
  wf_store (w_store w') /\
  (forall x key property,
     is_Some (st_heap (w_store w) !! x) ->
     (key, property) <> ("malmajs:controller", None) ->
     metadata_of (w_store w') key x property =
       metadata_of (w_store w) key x property) /\
  (forall k,
     (forall p, prop (w_store w) target "prototype" = VRef p ->
                k <> (p, None, "malmajs:controller")) ->
     st_meta (w_store w') !! k = st_meta (w_store w) !! k).
Proof.
  intros [[rank Hheap] Hmeta] Htarget Hmw. destruct w as [s a]. simpl in *.
  destruct (default_middlewares_cases s middlewares Hmw) as [elems Hmw'].
  destruct (default_middlewares_run s rank middlewares elems a Hheap Hmw')
    as (sA & mv & Hdef & HheapA & HmetaA & HpresA & Hmv & Harr & Helems & HmdA
        & HlookA & HmwfA).
  specialize (HmwfA Hmeta).
  assert (Hin : forall x, is_Some (st_heap s !! x) -> is_Some (st_heap sA !! x)).
  { intros x Hx. by rewrite HlookA. }
  unfold Controller, bind. rewrite Hdef.
  remember {| o_kind := KObject; o_proto := None;
              o_props := [("path", DData (VString (default "" path)));
                          ("middlewares", DData mv)] |} as rec eqn:Heqrec.
  assert (Hrec : Forall (fun kd => descriptor_in (st_heap sA) kd.2) (o_props rec)).
  { rewrite Heqrec. repeat constructor. exact Hmv. }
  assert (Hrproto : o_proto rec = None) by by rewrite Heqrec.
  assert (Hrkind : o_kind rec = KObject) by by rewrite Heqrec.
  clear Heqrec.
  pose proof (alloc_preserves sA rank rec HheapA) as Hpres2.
  pose proof (preserves_trans _ _ _ HpresA Hpres2) as Hpres02.
  assert (Hprop2 : prop (alloc_store sA rec) target "prototype" =
                   prop s target "prototype").
  { destruct Hpres02 as [_ H]. by destruct (H target Htarget) as (_ & _ & -> & _). }
  assert (Hmd2 : forall x key property,
             is_Some (st_heap s !! x) ->
             metadata_of (alloc_store sA rec) key x property =
               metadata_of s key x property).
  { intros x key property Hx.
    rewrite (alloc_metadata_of sA rank rec HheapA key x property (Hin x Hx)).
    by apply HmdA. }
  unfold alloc. cbn [w_store w_app].
  change {| st_heap := <[fresh (dom (st_heap sA)) := rec]> (st_heap sA);
            st_meta := st_meta sA; st_Middleware := st_Middleware sA |}
    with (alloc_store sA rec).
  assert (Hthrow : forall v,
    (forall p, v <> VRef p) ->
    defineMetadata "malmajs:controller" (VRef (fresh (dom (st_heap sA)))) v None
      {| w_store := alloc_store sA rec; w_app := a |} =
      (Throw TypeError, {| w_store := alloc_store sA rec; w_app := a |})).
  { intros v Hv. destruct v; try done. by destruct (Hv l). }
  assert (Hfail : forall w0,
    (Throw TypeError, {| w_store := alloc_store sA rec; w_app := a |}) = (r, w0) ->
    (forall p, prop s target "prototype" <> VRef p) ->
    r = Throw TypeError /\ w_app w0 = a /\ preserves s (w_store w0) /\
    wf_store (w_store w0) /\
    (forall x key property,
       is_Some (st_heap s !! x) ->
       (key, property) <> ("malmajs:controller", None) ->
       metadata_of (w_store w0) key x property = metadata_of s key x property) /\
    (forall k,
       (forall p, prop s target "prototype" = VRef p ->
                  k <> (p, None, "malmajs:controller")) ->
       st_meta (w_store w0) !! k = st_meta s !! k)).
  { intros w0 [= <- <-] Hno. simpl.
    split; [done|]. split; [done|]. split; [done|].
    split; [by apply (alloc_wf sA rank)|].
    split; [intros; by apply Hmd2|]. intros k _. by rewrite HmetaA. }
  unfold member.
  destruct target as [| | | | |c].
  1-5: (simpl; intros H; unfold throw, reads in H; simpl in H;
        apply Hfail in H; [|done]; by destruct H as (-> & ? & ? & ? & ? & ?)).
  unfold reads. cbn [w_store]. rewrite Hprop2.
  destruct (prop s (VRef c) "prototype") as [| | | | |p] eqn:Hproto.
  1-5: (rewrite Hthrow by done; intros H;
        apply Hfail in H; [|done]; by destruct H as (-> & ? & ? & ? & ? & ?)).
  pose proof (value_in_prop s rank (VRef c) "prototype" Hheap Htarget) as Hp.
  rewrite Hproto in Hp. simpl in Hp.
  unfold defineMetadata. cbn [w_store w_app].
  change {| st_heap := st_heap (alloc_store sA rec);
            st_meta := <[(p, None, "malmajs:controller") :=
                           VRef (fresh (dom (st_heap sA)))]>
                         (st_meta (alloc_store sA rec));
            st_Middleware := st_Middleware (alloc_store sA rec) |}
    with (define_store (alloc_store sA rec) p None "malmajs:controller"
            (VRef (fresh (dom (st_heap sA))))).
  intros [= <- <-]. cbn [w_store w_app].
  split; [done|]. split; [done|]. split.
  { apply (preserves_trans _ _ _ HpresA).
    apply (annotate_preserves sA rank rec HheapA). }
  split; [by apply (annotate_wf sA rank rec HheapA HmwfA Hrec Hrproto Hrkind
                      p None _ (Hin p Hp))|].
  split.
  - intros x key property Hx Hne.
    rewrite (annotate_elsewhere sA rank rec HheapA p None "malmajs:controller"
               x key property (Hin x Hx) Hne).
    by apply HmdA.
  - intros k Hk. simpl. rewrite lookup_insert_ne; [by rewrite HmetaA|].
    intros Heq. by apply (Hk p).
Qed.

Lemma HandlerMethod_roundtrip method :
  HandlerMethod_of_string (HandlerMethod_to_string method) = Some method.
Proof. by destruct method. Qed.

(** X8. What a handler decorator writes, the binder reads back. On a
    well-formed store, decorating the property [propertyKey] of the object
    [p] with a middleware argument that is an array (or omitted) completes,
    returns the descriptor it was given and leaves the application
    untouched; [p] and every object that has [p] as prototype and no handler
    metadata of its own for that property find the new record;
    [isHandlerMetadata] accepts it, with the decorator's method name, the
    path and the array's elements, exactly when every element is a function
    or an instance of [Middleware]; and the method name is one the router
    call knows. *)
Theorem handler_decorator_roundtrip method path middlewares elems p propertyKey d w :
  wf_store (w_store w) ->
  is_Some (st_heap (w_store w) !! p) ->
  (middlewares = VUndefined /\ elems = []
   \/ as_array (w_store w) middlewares = Some elems) ->
  exists w' record,
    createHandlerDecorator method path middlewares (VRef p) propertyKey d w =
      (Ok d, w') /\
    w_app w' = w_app w /\
    st_heap (w_store w) !! record = None /\
    metadata_of (w_store w') "malmajs:handler" p (Some propertyKey) = VRef record /\
    (forall l,
       prototype_of (w_store w) l = VRef p ->
       st_meta (w_store w) !! (l, Some propertyKey, "malmajs:handler") = None ->
       metadata_of (w_store w') "malmajs:handler" l (Some propertyKey) =
         VRef record) /\
    asHandlerMetadata (w_store w') (VRef record) =
      (if forallb (middleware_shaped (w_store w)) elems
       then Some {| hm_method := HandlerMethod_to_string method;
                    hm_path := default "" path;
                    hm_middlewares := elems |}
       else None) /\
    HandlerMethod_of_string (HandlerMethod_to_string method) = Some method.
Proof.
  intros [[rank Hheap] Hmeta] Hp Hmw. destruct w as [s a]. simpl in *.
  destruct (default_middlewares_run s rank middlewares elems a Hheap Hmw)
    as (sA & mv & Hdef & HheapA & HmetaA & HpresA & Hmv & Harr & Helems & HmdA
        & HlookA & HmwfA).
  destruct HpresA as [HmwA HpresA].
  destruct (HpresA (VRef p) Hp) as (HpA & _).
  set (rec := {| o_kind := KObject; o_proto := None;
                 o_props := [("method", DData (VString (HandlerMethod_to_string method)));
                             ("path", DData (VString (default "" path)));
                             ("middlewares", DData mv)] |}).
  assert (Hrec : Forall (fun kd => descriptor_in (st_heap sA) kd.2) (o_props rec)).
  { repeat constructor. exact Hmv. }
  pose proof (annotate_preserves sA rank rec HheapA p (Some propertyKey)
                "malmajs:handler") as [Hmw3 Hpres3].
  set (s3 := define_store (alloc_store sA rec) p (Some propertyKey)
               "malmajs:handler" (VRef (fresh (dom (st_heap sA))))) in *.
  exists {| w_store := s3; w_app := a |}, (fresh (dom (st_heap sA))).
  split; [|split; [done|split; [|split; [|split; [|split]]]]].
  - unfold createHandlerDecorator, bind. by rewrite Hdef.
  - destruct (st_heap s !! fresh (dom (st_heap sA))) as [o|] eqn:Ho; [|done].
    destruct (HpresA (VRef (fresh (dom (st_heap sA))))) as [Hin _];
      [by eexists|].
    simpl in Hin. rewrite fresh_not_in_heap in Hin. by destruct Hin.
  - apply annotate_own.
  - intros l Hl Hnone.
    assert (Hlin : is_Some (st_heap s !! l)).
    { unfold prototype_of in Hl. destruct (st_heap s !! l); [by eexists|done]. }
    apply (annotate_inherited sA rank rec HheapA p (Some propertyKey) _ HpA l).
    + unfold prototype_of. by rewrite HlookA.
    + by rewrite HmetaA.
  - cbn [w_store]. unfold s3 in *. unfold asHandlerMetadata.
    rewrite (annotate_record_plain sA rec eq_refl).
    rewrite !(annotate_record_prop sA rec eq_refl). simpl.
    destruct (Hpres3 mv Hmv) as (_ & _ & _ & _ & -> & _). rewrite Harr.
    rewrite (preserves_forallb_shaped s
               (define_store (alloc_store sA rec) p (Some propertyKey)
                  "malmajs:handler" (VRef (fresh (dom (st_heap sA))))));
      [done| |done].
    apply (preserves_trans s sA); by split.
  - apply HandlerMethod_roundtrip.
Qed.

(** X9. A handler decorator disturbs nothing else. On a well-formed store
    it completes, handing back the descriptor, exactly when the target is an
    object, and raises a [TypeError] otherwise. Either way the application
    is untouched, every value of the old store keeps its type, members and
    the verdict of every guard, the store stays well formed, metadata under
    every other key or property reads as before, and the only entry of the
    table that can differ is the handler entry of that target and
    property. *)
Theorem handler_decorator_frame method path middlewares target propertyKey d w r w' :
  wf_store (w_store w) ->
  value_in (st_heap (w_store w)) target ->
  (middlewares = VUndefined \/ is_Some (as_array (w_store w) middlewares)) ->
  createHandlerDecorator method path middlewares target propertyKey d w = (r, w') ->
  r = match target with
      | VRef _ => Ok d
      | _ => Throw TypeError
      end /\
  w_app w' = w_app w /\
  preserves (w_store w) (w_store w') /\
  wf_store (w_store w') /\
  (forall x key property,
     is_Some (st_heap (w_store w) !! x) ->
     (key, property) <> ("malmajs:handler", Some propertyKey) ->
     metadata_of (w_store w') key x property =
       metadata_of (w_store w) key x property) /\
  (forall k,
     (forall p, target = VRef p -> k <> (p, Some propertyKey, "malmajs:handler")) ->
     st_meta (w_store w') !! k = st_meta (w_store w) !! k).
Proof.
  intros [[rank Hheap] Hmeta] Htarget Hmw. destruct w as [s a]. simpl in *.
  destruct (default_middlewares_cases s middlewares Hmw) as [elems Hmw'].
  destruct (default_middlewares_run s rank middlewares elems a Hheap Hmw')
    as (sA & mv & Hdef & HheapA & HmetaA & HpresA & Hmv & Harr & Helems & HmdA
        & HlookA & HmwfA).
  specialize (HmwfA Hmeta).
  assert (Hin : forall x, is_Some (st_heap s !! x) -> is_Some (st_heap sA !! x)).
  { intros x Hx. by rewrite HlookA. }
  unfold createHandlerDecorator, bind. rewrite Hdef.
  remember {| o_kind := KObject; o_proto := None;
              o_props := [("method", DData (VString (HandlerMethod_to_string method)));
                          ("path", DData (VString (default "" path)));
                          ("middlewares", DData mv)] |} as rec eqn:Heqrec.
  assert (Hrec : Forall (fun kd => descriptor_in (st_heap sA) kd.2) (o_props rec)).
  { rewrite Heqrec. repeat constructor. exact Hmv. }
  assert (Hrproto : o_proto rec = None) by by rewrite Heqrec.
  assert (Hrkind : o_kind rec = KObject) by by rewrite Heqrec.
  clear Heqrec.
  pose proof (alloc_preserves sA rank rec HheapA) as Hpres2.
  pose proof (preserves_trans _ _ _ HpresA Hpres2) as Hpres02.
  unfold alloc. cbn [w_store w_app].
  change {| st_heap := <[fresh (dom (st_heap sA)) := rec]> (st_heap sA);
            st_meta := st_meta sA; st_Middleware := st_Middleware sA |}
    with (alloc_store sA rec).
  destruct target as [| | | | |p].
  1-5: (simpl; unfold throw; intros [= <- <-]; simpl;
        split; [done|]; split; [done|]; split; [done|];
        split; [by apply (alloc_wf sA rank)|];
        split; [intros x key property Hx _;
                rewrite (alloc_metadata_of sA rank rec HheapA key x property (Hin x Hx));
                by apply HmdA
               |intros k _; by rewrite HmetaA]).
  unfold defineMetadata, ret. cbn [w_store w_app].
  change {| st_heap := st_heap (alloc_store sA rec);
            st_meta := <[(p, Some propertyKey, "malmajs:handler") :=
                           VRef (fresh (dom (st_heap sA)))]>
                         (st_meta (alloc_store sA rec));
            st_Middleware := st_Middleware (alloc_store sA rec) |}
    with (define_store (alloc_store sA rec) p (Some propertyKey) "malmajs:handler"
            (VRef (fresh (dom (st_heap sA))))).
  intros [= <- <-]. cbn [w_store w_app].
  split; [done|]. split; [done|]. split.
  { apply (preserves_trans _ _ _ HpresA).
    apply (annotate_preserves sA rank rec HheapA). }
  split; [by apply (annotate_wf sA rank rec HheapA HmwfA Hrec Hrproto Hrkind
                      p (Some propertyKey) _ (Hin p Htarget))|].
  split.
  - intros x key property Hx Hne.
    rewrite (annotate_elsewhere sA rank rec HheapA p (Some propertyKey)
               "malmajs:handler" x key property (Hin x Hx) Hne).
    by apply HmdA.
  - intros k Hk. simpl. rewrite lookup_insert_ne; [by rewrite HmetaA|].
    intros Heq. by apply (Hk p).
Qed.

(** X10. The index and the name in a metadata error are those of the
    culprit. When [useControllers] throws one of its two metadata errors
    (and the container raises none of that kind itself), the error was
    raised for the controller at the index [k] it carries: the controllers
    before [k] have bound and their mounts are what the run leaves behind,
    the controller at [k] resolved to an instance, and either the error is
    the controller error and that instance's controller metadata does not
    pass the guard, or it is the method error for a method of that instance's
    prototype whose handler metadata does not pass the guard. *)
Theorem metadata_error_names_its_culprit container controllers w e w' :
  container_errors_foreign container ->
  useControllers container controllers w = (Throw e, w') ->
  kind_of_error e = MissingMetadata ->
  exists k c l,
    controllers !! k = Some c /\
    useControllers container (take k controllers) w = (Ok tt, w') /\
    resolveController container c w = (Ok (VRef l), w) /\
    ((e = InvalidControllerMetadata k /\
      isControllerMetadata (w_store w)
        (metadata_of (w_store w) "malmajs:controller" l None) = false)
     \/ exists p name,
          e = InvalidMethodMetadata name k /\
          prototype_of (w_store w) l = VRef p /\
          name ∈ methods (w_store w) p /\
          isHandlerMetadata (w_store w)
            (metadata_of (w_store w) "malmajs:handler" l (Some name)) = false).
Proof.
  intros Hforeign H Hk.
  pose proof (useControllers_store_unchanged container controllers w) as Hs.
  rewrite H in Hs. simpl in Hs.
  destruct (useControllers_first_failure _ _ _ _ _ H) as (k & c & Hc & Hpre & Hb & _).
  destruct (bindController_Throw_metadata container Hforeign k c w' e w' Hb Hk)
    as (l & Hinst & Hcase).
  rewrite Hs in Hcase. exists k, c, l. split; [done|]. split; [done|].
  split; [|done].
  apply reader_runs in Hinst; [|auto with reader]. rewrite Hs in Hinst.
  by apply runs_reader_at.
Qed.

(** X11. One call or two. Binding [a ++ b] in one call completes exactly
    when binding [a] and then, from the world that leaves, binding [b] both
    complete, and the resulting world is the same: the application gets the
    same mounts in the same order. *)
Theorem useControllers_app container a b w w' :
  useControllers container (a ++ b) w = (Ok tt, w') <->
  exists w1,
    useControllers container a w = (Ok tt, w1) /\
    useControllers container b w1 = (Ok tt, w').
Proof.
  split.
  - intros H. apply useControllers_Ok_inv in H as (mounts & -> & HF).
    apply Forall2_app_inv_l in HF as (ma & mb & Ha & Hb & ->).
    exists {| w_store := w_store w; w_app := w_app w ++ ma |}. split.
    + unfold useControllers. apply (runs_at _ (w_store w)); [|done].
      by apply useControllers_from_Ok.
    + unfold useControllers.
      rewrite (runs_at _ (w_store w) (Ok tt) mb
                 {| w_store := w_store w; w_app := w_app w ++ ma |});
        [by rewrite app_assoc| |done].
      by apply useControllers_from_Ok.
  - intros (w1 & Ha & Hb).
    apply useControllers_Ok_inv in Ha as (ma & -> & HFa).
    apply useControllers_Ok_inv in Hb as (mb & -> & HFb). simpl in *.
    unfold useControllers.
    rewrite (runs_at _ (w_store w) (Ok tt) (ma ++ mb) w);
      [by rewrite app_assoc| |done].
    apply useControllers_from_Ok. by apply Forall2_app.
Qed.

(** ** Checking that a store is well formed *)

Lemma value_inb_correct h v : value_inb h v = true -> value_in h v.
Proof. destruct v; try done. simpl. apply bool_decide_eq_true. Qed.

Lemma forallb_value_inb h vs :
  forallb (value_inb h) vs = true -> Forall (value_in h) vs.
Proof.
  intros H. apply Forall_forall. intros v Hv.
  rewrite forallb_forall in H. by apply value_inb_correct, H, list_elem_of_In.
Qed.

Lemma obj_inb_correct h l o :
  obj_inb h l o = true -> obj_in h Pos.to_nat l o.
Proof.
  unfold obj_inb, obj_in. intros H.
  apply andb_true_iff in H as [H Hk]. apply andb_true_iff in H as [Hp Hps].
  split; [|split].
  - destruct (o_proto o) as [p|]; [|done].
    apply andb_true_iff in Hp as [Hp Hlt]. apply bool_decide_eq_true in Hp.
    split; [done|]. apply Pos.ltb_lt in Hlt. lia.
  - apply Forall_forall. intros kd Hkd. rewrite forallb_forall in Hps.
    by apply value_inb_correct, Hps, list_elem_of_In.
  - destruct (o_kind o); try done. by apply forallb_value_inb.
Qed.

Lemma wf_storeb_correct s : wf_storeb s = true -> wf_store s.
Proof.
  unfold wf_storeb. intros H. apply andb_true_iff in H as [Hh Hm].
  rewrite forallb_forall in Hh. rewrite forallb_forall in Hm. split.
  - exists Pos.to_nat. intros l o Hl.
    apply obj_inb_correct, (Hh (l, o)), list_elem_of_In.
    by apply elem_of_map_to_list.
  - intros k v Hk.
    specialize (Hm (k, v)). simpl in Hm.
    rewrite andb_true_iff in Hm.
    destruct Hm as [Ht Hv]; [by apply list_elem_of_In, elem_of_map_to_list|].
    split; [by apply bool_decide_eq_true in Ht|by apply value_inb_correct].
Qed.

Lemma Sample_wf : wf_store Sample.st.
Proof. apply wf_storeb_correct. vm_compute. reflexivity. Qed.

(** ** The further properties on the sample store *)

Lemma useMiddlewares_all_or_nothing_witness :
  let w := Sample.start in
  let w' := snd (useMiddlewares None [VRef Sample.arrowA; VRef Sample.logger] w) in
  w_store w' = w_store w /\
  exists handlers,
    w_app w' = w_app w ++ [UseHandlers handlers] /\
    Forall2 (fun m h => transformMiddleware None m w = (Ok h, w))
            [VRef Sample.arrowA; VRef Sample.logger] handlers /\
    Forall (callable (w_store w)) handlers.
Proof.
  intros w w'.
  apply (useMiddlewares_all_or_nothing None
           [VRef Sample.arrowA; VRef Sample.logger] w (Ok tt) w').
  - discriminate.
  - vm_compute. reflexivity.
Defined.

Lemma useErrorMiddleware_registers_bound_handle_witness :
  let w := Sample.start in
  let w' := snd (useErrorMiddleware None (VRef Sample.logger) w) in
  w_store w' = w_store w /\
  exists x,
    w_app w' = w_app w ++
      [UseErrorHandler (HBound (prop (w_store w) x "handle") x)] /\
    typeof (w_store w) (prop (w_store w) x "handle") = TFunction /\
    if isConstructor (w_store w) (VRef Sample.logger)
    then exists ct, None = Some ct /\ Container_get ct (VRef Sample.logger) = Ok x
    else x = VRef Sample.logger.
Proof.
  intros w w'.
  apply (useErrorMiddleware_registers_bound_handle None (VRef Sample.logger)
           w (Ok tt) w').
  vm_compute. reflexivity.
Defined.

Lemma useControllers_first_failure_witness :
  let cs := [VRef Sample.example; VRef Sample.plain; VRef Sample.unannotated] in
  let w' := snd (useControllers None cs Sample.start) in
  exists k c,
    cs !! k = Some c /\
    useControllers None (take k cs) Sample.start = (Ok tt, w') /\
    bindController None k c w' = (Throw (InvalidMethodMetadata "helper" 1), w') /\
    forall others,
      useControllers None (take k cs ++ c :: others) Sample.start =
        (Throw (InvalidMethodMetadata "helper" 1), w').
Proof.
  intros cs w'.
  apply (useControllers_first_failure None cs Sample.start).
  vm_compute. reflexivity.
Defined.

Lemma useControllers_registers_functions_witness :
  let cs := [VRef Sample.example; VRef Sample.plain] in
  let w' := snd (useControllers None cs Sample.start) in
  exists mounts,
    w_app w' = w_app Sample.start ++ mounts /\
    Forall (fun e =>
              (exists path handlers rt, e = Mount path handlers rt) /\
              Forall (callable Sample.st) (entry_handlers e))
           mounts.
Proof.
  intros cs w'.
  apply (useControllers_registers_functions None cs Sample.start
           (Throw (InvalidMethodMetadata "helper" 1)) w').
  vm_compute. reflexivity.
Defined.

Lemma useControllers_without_class_references_witness :
  useControllers (Some Sample.resolver) [VRef Sample.example] Sample.start =
    useControllers None [VRef Sample.example] Sample.start.
Proof.
  apply useControllers_without_class_references.
  constructor; [|constructor]. split; [vm_compute; reflexivity|].
  intros l m [= <-] [(cm & Hcm & Hin)|(p & name & hm & Hp & Hname & Hhm & Hin)].
  - vm_compute in Hcm. injection Hcm as <-. simpl in Hin.
    apply list_elem_of_In in Hin. simpl in Hin.
    destruct Hin as [<-|[<-|[]]]; vm_compute; reflexivity.
  - vm_compute in Hp. injection Hp as <-.
    apply list_elem_of_In in Hname. vm_compute in Hname.
    destruct Hname as [<-|[<-|[]]]; vm_compute in Hhm; injection Hhm as <-;
      simpl in Hin; apply list_elem_of_In in Hin; simpl in Hin.
    + destruct Hin as [<-|[]]. vm_compute. reflexivity.
    + destruct Hin.
Defined.

Lemma metadata_error_names_its_culprit_witness :
  let cs := [VRef Sample.example; VRef Sample.plain] in
  let w := Sample.start in
  let w' := snd (useControllers None cs w) in
  let e := InvalidMethodMetadata "helper" 1 in
  exists k c l,
    cs !! k = Some c /\
    useControllers None (take k cs) w = (Ok tt, w') /\
    resolveController None c w = (Ok (VRef l), w) /\
    ((e = InvalidControllerMetadata k /\
      isControllerMetadata (w_store w)
        (metadata_of (w_store w) "malmajs:controller" l None) = false)
     \/ exists p name,
          e = InvalidMethodMetadata name k /\
          prototype_of (w_store w) l = VRef p /\
          name ∈ methods (w_store w) p /\
          isHandlerMetadata (w_store w)
            (metadata_of (w_store w) "malmajs:handler" l (Some name)) = false).
Proof.
  intros cs w w' e.
  apply (metadata_error_names_its_culprit None cs w e w').
  - intros ct x e' [=].
  - vm_compute. reflexivity.
  - reflexivity.
Defined.

Lemma useControllers_app_witness :
  exists w1,
    useControllers (Some Sample.resolver) [VRef Sample.ExampleController]
      Sample.start = (Ok tt, w1) /\
    useControllers (Some Sample.resolver) [VRef Sample.guarded] w1 =
      (Ok tt,
       snd (useControllers (Some Sample.resolver)
              [VRef Sample.ExampleController; VRef Sample.guarded] Sample.start)).
Proof.
  apply (proj1 (useControllers_app (Some Sample.resolver)
                  [VRef Sample.ExampleController] [VRef Sample.guarded]
                  Sample.start _)).
  vm_compute. reflexivity.
Defined.

Lemma Controller_roundtrip_witness :
  let w := Sample.start in
  let elems := [VRef Sample.arrowA; VRef Sample.arrowB] in
  exists w' record,
    Controller (Some "/u") (VRef 21%positive) (VRef Sample.Unannotated) w =
      (Ok tt, w') /\
    w_app w' = w_app w /\
    st_heap (w_store w) !! record = None /\
    metadata_of (w_store w') "malmajs:controller" Sample.Unannotated_prototype None
      = VRef record /\
    (forall l,
       prototype_of (w_store w) l = VRef Sample.Unannotated_prototype ->
       st_meta (w_store w) !! (l, None, "malmajs:controller") = None ->
       metadata_of (w_store w') "malmajs:controller" l None = VRef record) /\
    asControllerMetadata (w_store w') (VRef record) =
      if forallb (middleware_shaped (w_store w)) elems
      then Some {| cm_path := default "" (Some "/u"); cm_middlewares := elems |}
      else None.
Proof.
  intros w elems.
  apply (Controller_roundtrip (Some "/u") (VRef 21%positive) elems
           (VRef Sample.Unannotated) Sample.Unannotated_prototype w).
  - apply Sample_wf.
  - vm_compute. eexists. reflexivity.
  - vm_compute. reflexivity.
  - right. vm_compute. reflexivity.
Defined.

Lemma Controller_frame_witness :
  let w := Sample.start in
  let run := Controller None VUndefined (VRef Sample.arrowA) w in
  fst run = match prop (w_store w) (VRef Sample.arrowA) "prototype" with
            | VRef _ => Ok tt
            | _ => Throw TypeError
            end /\
  w_app (snd run) = w_app w /\
  preserves (w_store w) (w_store (snd run)) /\
  wf_store (w_store (snd run)) /\
  (forall x key property,
     is_Some (st_heap (w_store w) !! x) ->
     (key, property) <> ("malmajs:controller", None) ->
     metadata_of (w_store (snd run)) key x property =
       metadata_of (w_store w) key x property) /\
  (forall k,
     (forall p, prop (w_store w) (VRef Sample.arrowA) "prototype" = VRef p ->
                k <> (p, None, "malmajs:controller")) ->
     st_meta (w_store (snd run)) !! k = st_meta (w_store w) !! k).
Proof.
  intros w run.
  apply (Controller_frame None VUndefined (VRef Sample.arrowA) w).
  - apply Sample_wf.
  - vm_compute. eexists. reflexivity.
  - by left.
  - apply surjective_pairing.
Defined.

Lemma handler_decorator_roundtrip_witness :
  let w := Sample.start in
  let d := DData (VRef Sample.PlainController_helper) in
  exists w' record,
    Get (Some "/h") VUndefined (VRef Sample.PlainController_prototype) "helper" d w
      = (Ok d, w') /\
    w_app w' = w_app w /\
    st_heap (w_store w) !! record = None /\
    metadata_of (w_store w') "malmajs:handler" Sample.PlainController_prototype
      (Some "helper") = VRef record /\
    (forall l,
       prototype_of (w_store w) l = VRef Sample.PlainController_prototype ->
       st_meta (w_store w) !! (l, Some "helper", "malmajs:handler") = None ->
       metadata_of (w_store w') "malmajs:handler" l (Some "helper") = VRef record) /\
    asHandlerMetadata (w_store w') (VRef record) =
      (if forallb (middleware_shaped (w_store w)) []
       then Some {| hm_method := HandlerMethod_to_string HMget;
                    hm_path := default "" (Some "/h");
                    hm_middlewares := [] |}
       else None) /\
    HandlerMethod_of_string (HandlerMethod_to_string HMget) = Some HMget.
Proof.
  intros w d.
  apply (handler_decorator_roundtrip HMget (Some "/h") VUndefined []
           Sample.PlainController_prototype "helper" d w).
  - apply Sample_wf.
  - vm_compute. eexists. reflexivity.
  - by left.
Defined.

Lemma handler_decorator_frame_witness :
  let w := Sample.start in
  let d := DData (VRef Sample.PlainController_helper) in
  let target := VRef Sample.PlainController_prototype in
  let run := Post None (VRef 25%positive) target "helper" d w in
  fst run = Ok d /\
  w_app (snd run) = w_app w /\
  preserves (w_store w) (w_store (snd run)) /\
  wf_store (w_store (snd run)) /\
  (forall x key property,
     is_Some (st_heap (w_store w) !! x) ->
     (key, property) <> ("malmajs:handler", Some "helper") ->
     metadata_of (w_store (snd run)) key x property =
       metadata_of (w_store w) key x property) /\
  (forall k,
     (forall p, target = VRef p -> k <> (p, Some "helper", "malmajs:handler")) ->
     st_meta (w_store (snd run)) !! k = st_meta (w_store w) !! k).
Proof.
  intros w d target run.
  apply (handler_decorator_frame HMpost None (VRef 25%positive) target "helper" d w).
  - apply Sample_wf.
  - vm_compute. eexists. reflexivity.
  - right. vm_compute. eexists. reflexivity.
  - apply surjective_pairing.
Defined.
